(** * MOE REST schemas ([moe/views/schemas.py]) over a model of colander

    The module under study declares the request and response schemas of
    the MOE REST endpoints with the [colander] library.  A schema is a
    tree of [SchemaNode]s, declared class by class; deserializing a JSON
    payload against a schema validates it and fills in the declared
    [missing] values.

    The development has three layers:
    - Python values (what [json.loads] produces, plus [None] and
      [colander.null]) and the handful of Python operations colander
      applies to them ([bool(x)], [x != 0], [float(x)], [int(x)], [<]);
    - colander itself: schema types, validators, [SchemaNode.deserialize],
      and the declarative class machinery (metaclass, MRO, node
      collection);
    - the classes of [schemas.py], one definition per class, in source
      order.

    Floats are IEEE-754 binary64 values in the representation of
    [SpecFloat]; integers are unbounded ([Z]); dictionaries are
    association lists whose keys are pairwise distinct, in insertion
    order (two association lists that are equal are equal dictionaries).

    The constants that the module imports from
    [moe.optimal_learning.python.constant] are parameters of the
    development, and so are the two conversions of Python that read a
    number in the text of a string. *)

From Stdlib Require Import List String Ascii ZArith Bool Lia.
From Stdlib Require Import Floats.SpecFloat.
Import ListNotations.

Set Implicit Arguments.

(** ** Python values *)

Unset Elimination Schemes.

Inductive pyval : Type :=
| Null                                   (* the sentinel [colander.null] *)
| PNone                                  (* [None] *)
| PBool (b : bool)
| PInt (z : Z)
| PFloat (f : spec_float)
| PStr (s : string)
| PList (l : list pyval)
| PDict (d : list (string * pyval)).

Set Elimination Schemes.

Definition dict := list (string * pyval).

(** *** Dictionaries *)

Fixpoint dict_get (k : string) (d : dict) : option pyval :=
  match d with
  | [] => None
  | (k', v) :: rest => if String.eqb k k' then Some v else dict_get k rest
  end.

Definition dict_del (k : string) (d : dict) : dict :=
  filter (fun kv => negb (String.eqb k (fst kv))) d.

(** [d.pop(k, default)]: the value bound to [k] (or [default]) and the
    dictionary without [k]. *)
Definition dict_pop (k : string) (default : pyval) (d : dict) : pyval * dict :=
  match dict_get k d with
  | Some v => (v, dict_del k d)
  | None => (default, d)
  end.

(** [d[k] = v]: overwrite in place when [k] is bound, append otherwise. *)
Fixpoint dict_set (k : string) (v : pyval) (d : dict) : dict :=
  match d with
  | [] => [(k, v)]
  | (k', v') :: rest =>
      if String.eqb k k' then (k', v) :: rest else (k', v') :: dict_set k v rest
  end.

(** [d.update(other)] *)
Definition dict_update (d other : dict) : dict :=
  fold_left (fun acc kv => dict_set (fst kv) (snd kv) acc) other d.

Definition keys (d : dict) : list string := map fst d.

(** *** Numbers *)

Definition prec : Z := 53.
Definition emax : Z := 1024.

Definition float_zero : spec_float := S754_zero false.
Definition float_inf : spec_float := S754_infinity false.

(** [float(z)] for an integer [z]: round to nearest even;
    [OverflowError] when the result does not fit. *)
Definition float_of_Z (z : Z) : option spec_float :=
  match binary_normalize prec emax z 0 false with
  | S754_infinity _ => None
  | f => Some f
  end.

(** [int(f)] for a float [f]: truncation toward zero; [ValueError] on
    NaN and [OverflowError] on infinities. *)
Definition Z_of_float (f : spec_float) : option Z :=
  match f with
  | S754_zero _ => Some 0%Z
  | S754_finite s m e =>
      let a := if (0 <=? e)%Z then (Zpos m * 2 ^ e)%Z else (Zpos m / 2 ^ (- e))%Z in
      Some (cond_Zopp s a)
  | _ => None
  end.

(** Python compares an integer and a float by their exact values. *)
Definition Z_SF_compare (z : Z) (f : spec_float) : option comparison :=
  match f with
  | S754_nan => None
  | S754_infinity s => Some (if s then Gt else Lt)
  | S754_zero _ => Some (z ?= 0)%Z
  | S754_finite s m e =>
      let v := cond_Zopp s (Zpos m) in
      if (0 <=? e)%Z then Some (z ?= v * 2 ^ e)%Z
      else Some (z * 2 ^ (- e) ?= v)%Z
  end.

Inductive pynum := NumZ (z : Z) | NumF (f : spec_float).

Definition as_num (v : pyval) : option pynum :=
  match v with
  | PBool b => Some (NumZ (Z.b2z b))
  | PInt z => Some (NumZ z)
  | PFloat f => Some (NumF f)
  | _ => None
  end.

Definition num_compare (a b : pynum) : option comparison :=
  match a, b with
  | NumZ x, NumZ y => Some (x ?= y)%Z
  | NumF x, NumF y => SFcompare x y
  | NumZ x, NumF y => Z_SF_compare x y
  | NumF x, NumZ y => option_map CompOpp (Z_SF_compare y x)
  end.

(** [a < b] on numbers.  Colander only ever compares the numbers that a
    [Float] or [Int] node has produced with numeric bounds; on other
    operands the model answers [false]. *)
Definition py_lt (a b : pyval) : bool :=
  match as_num a, as_num b with
  | Some x, Some y =>
      match num_compare x y with Some Lt => true | _ => false end
  | _, _ => false
  end.

Definition py_gt (a b : pyval) : bool := py_lt b a.

(** [x != 0] *)
Definition py_ne_zero (x : pyval) : bool :=
  match as_num x with
  | Some n => match num_compare n (NumZ 0) with Some Eq => false | _ => true end
  | None => true
  end.

(** [bool(x)] *)
Definition truthy (x : pyval) : bool :=
  match x with
  | Null => false
  | PNone => false
  | PBool b => b
  | PInt z => negb (z =? 0)%Z
  | PFloat f => negb (SFeqb f float_zero)
  | PStr s => negb (String.eqb s EmptyString)
  | PList l => match l with [] => false | _ => true end
  | PDict d => match d with [] => false | _ => true end
  end.

(** The conversions of Python whose results depend on the text of a
    string are taken as given: [float(s)] and [int(s)] for a string [s]
    ([None] stands for [ValueError]). *)
Record python := {
  float_of_str : string -> option spec_float;
  int_of_str : string -> option Z
}.

(** [float(x)]; [None] stands for a raised exception. *)
Definition py_float (py : python) (x : pyval) : option pyval :=
  match x with
  | PFloat f => Some (PFloat f)
  | PInt z => option_map PFloat (float_of_Z z)
  | PBool b => option_map PFloat (float_of_Z (Z.b2z b))
  | PStr s => option_map PFloat (float_of_str py s)
  | _ => None
  end.

(** [int(x)] *)
Definition py_int (py : python) (x : pyval) : option pyval :=
  match x with
  | PInt z => Some (PInt z)
  | PFloat f => option_map PInt (Z_of_float f)
  | PBool b => Some (PInt (Z.b2z b))
  | PStr s => option_map PInt (int_of_str py s)
  | _ => None
  end.

(** ** colander *)

Module colander.

(** What a [Mapping] does with the keys its node does not declare. *)
Inductive unknown_t := ignore | raise | preserve.

(** The schema types used by [schemas.py].  [Unconstructible] stands for
    the [NotImplementedError] of [SchemaNode.schema_type]: a class that
    resolves to it cannot be instantiated. *)
Inductive typ :=
| Float
| Int
| String
| Mapping (unknown : unknown_t)
| Sequence
| Unconstructible.

Unset Elimination Schemes.

(** The reasons carried by [colander.Invalid]. *)
Inductive reason :=
| Required                                          (* no value and no [missing] *)
| NotANumber
| NotAString                                        (* a value that is not a string *)
| NotIterable
| NotAMapping
| UnrecognizedKeys (value : dict)                   (* [unknown='raise'] *)
| BelowMin                                          (* [Range]: value < min *)
| AboveMax                                          (* [Range]: value > max *)
| NotOneOf                                          (* [OneOf] *)
| NotPositiveFinite                                 (* [PositiveFloat.validator] *)
| NoType
| ChildErrors (errors : list (nat * reason)).        (* [Invalid.add(e, num)] *)

Inductive outcome :=
| Ok (appstruct : pyval)
| Invalid (e : reason).

(** A validator is called as [validator(node, value)] and either returns
    or raises [Invalid]: [Some e] is the raised error. *)
Definition validator_t := pyval -> option reason.

Inductive SchemaNode :=
| Node (name : string) (typ : typ) (children : list SchemaNode)
       (validator : option validator_t) (missing : option pyval)
       (default : option pyval).

Set Elimination Schemes.

Definition node_name (n : SchemaNode) : string :=
  match n with Node name _ _ _ _ _ => name end.
Definition node_typ (n : SchemaNode) : typ :=
  match n with Node _ t _ _ _ _ => t end.
Definition node_children (n : SchemaNode) : list SchemaNode :=
  match n with Node _ _ children _ _ _ => children end.
Definition node_validator (n : SchemaNode) : option validator_t :=
  match n with Node _ _ _ v _ _ => v end.
Definition node_missing (n : SchemaNode) : option pyval :=
  match n with Node _ _ _ _ m _ => m end.

(** [missing=None] in the arguments of a constructor below means that
    the keyword is not given: the node keeps [colander.required]. *)

(** *** Validators *)

(** [colander.Range(min, max)] *)
Definition Range (min max : option pyval) : validator_t :=
  fun value =>
    match min with
    | Some lo => if py_lt value lo then Some BelowMin else
        match max with
        | Some hi => if py_gt value hi then Some AboveMax else None
        | None => None
        end
    | None =>
        match max with
        | Some hi => if py_gt value hi then Some AboveMax else None
        | None => None
        end
    end.

(** [colander.OneOf(choices)]: [value in choices] *)
Definition OneOf (choices : list string) : validator_t :=
  fun value =>
    match value with
    | PStr s => if existsb (String.eqb s) choices then None else Some NotOneOf
    | _ => Some NotOneOf
    end.

(** *** Schema types *)

(** [Number.deserialize] *)
Definition Number_deserialize (num : pyval -> option pyval) (cstruct : pyval) : outcome :=
  if py_ne_zero cstruct && negb (truthy cstruct) then Ok Null
  else match num cstruct with
       | Some v => Ok v
       | None => Invalid NotANumber
       end.

(** [String.deserialize] (no encoding): a falsy value is [null], a
    string is returned as it is, and any other value is refused. *)
Definition String_deserialize (cstruct : pyval) : outcome :=
  if negb (truthy cstruct) then Ok Null
  else match cstruct with
       | PStr s => Ok (PStr s)
       | _ => Invalid NotAString
       end.

Definition finish (result : pyval) (error : list (nat * reason)) : outcome :=
  match error with
  | [] => Ok result
  | _ => Invalid (ChildErrors error)
  end.

Section Impl.

Variable callback : SchemaNode -> pyval -> outcome.

(** The loop of [Mapping._impl] over [node.children]. *)
Fixpoint Mapping_children (children : list SchemaNode) (num : nat)
    (value result : dict) (error : list (nat * reason))
    : dict * dict * list (nat * reason) :=
  match children with
  | [] => (value, result, error)
  | subnode :: rest =>
      let name := node_name subnode in
      let (subval, value) := dict_pop name Null value in
      match callback subnode subval with
      | Ok sub_result =>
          Mapping_children rest (S num) value (dict_set name sub_result result) error
      | Invalid e =>
          Mapping_children rest (S num) value result (error ++ [(num, e)])
      end
  end.

(** [Mapping._impl], after [_validate] has made [value] a dict. *)
Definition Mapping_impl (unknown : unknown_t) (children : list SchemaNode)
    (value : dict) : outcome :=
  match Mapping_children children 0 value [] [] with
  | (value, result, error) =>
      match unknown with
      | raise =>
          match value with
          | [] => finish (PDict result) error
          | _ => Invalid (UnrecognizedKeys value)
          end
      | preserve => finish (PDict (dict_update result value)) error
      | ignore => finish (PDict result) error
      end
  end.

(** The loop of [Sequence._impl] over the items. *)
Fixpoint Sequence_items (subnode : SchemaNode) (num : nat) (value : list pyval)
    (result : list pyval) (error : list (nat * reason))
    : list pyval * list (nat * reason) :=
  match value with
  | [] => (result, error)
  | subval :: rest =>
      match callback subnode subval with
      | Ok r => Sequence_items subnode (S num) rest (result ++ [r]) error
      | Invalid e => Sequence_items subnode (S num) rest result (error ++ [(num, e)])
      end
  end.

(** [Sequence._impl], after [_validate] has made [value] a list.  The
    items go to [node.children[0]]; a sequence schema has exactly one
    child ([SequenceSchema.__init__] checks it). *)
Definition Sequence_impl (children : list SchemaNode) (value : list pyval) : outcome :=
  match children with
  | subnode :: _ =>
      match Sequence_items subnode 0 value [] [] with
      | (result, error) => finish (PList result) error
      end
  | [] => match value with [] => Ok (PList []) | _ => Invalid NoType end
  end.

End Impl.

Section Deserialize.

Variable py : python.

(** [SchemaNode.deserialize]: the type's [deserialize], then the
    [missing] value when the result is [null], otherwise the validator.
    No node of [schemas.py] has a preparer. *)
Fixpoint deserialize (node : SchemaNode) (cstruct : pyval) {struct node} : outcome :=
  match node with
  | Node _ typ children validator missing _ =>
      let appstruct :=
        match typ with
        | Float => Number_deserialize (py_float py) cstruct
        | Int => Number_deserialize (py_int py) cstruct
        | String => String_deserialize cstruct
        | Mapping unknown =>
            match cstruct with
            | Null => Ok Null
            | PDict value => Mapping_impl deserialize unknown children value
            | _ => Invalid NotAMapping
            end
        | Sequence =>
            match cstruct with
            | Null => Ok Null
            | PList value => Sequence_impl deserialize children value
            | _ => Invalid NotIterable
            end
        | Unconstructible => Invalid NoType
        end in
      match appstruct with
      | Invalid e => Invalid e
      | Ok Null =>
          match missing with
          | Some m => Ok m
          | None => Invalid Required
          end
      | Ok appstruct =>
          match validator with
          | Some v =>
              match v appstruct with
              | Some e => Invalid e
              | None => Ok appstruct
              end
          | None => Ok appstruct
          end
      end
  end.

End Deserialize.

(** *** Declarative schemas

    A schema class lists its bases, the attributes of its body that are
    schema nodes (in the order they are created, which is the textual
    order) and, when its body defines them, [schema_type] and the
    [validator] method. *)

Unset Elimination Schemes.

Inductive pyclass :=
| Class (name : string) (bases : list pyclass) (schema_type : option typ)
        (validator : option validator_t) (attrs : list (string * SchemaNode)).

Set Elimination Schemes.

Definition class_name (c : pyclass) : string :=
  match c with Class name _ _ _ _ => name end.
Definition class_bases (c : pyclass) : list pyclass :=
  match c with Class _ bases _ _ _ => bases end.
Definition class_schema_type (c : pyclass) : option typ :=
  match c with Class _ _ t _ _ => t end.
Definition class_validator (c : pyclass) : option validator_t :=
  match c with Class _ _ _ v _ => v end.
Definition class_attrs (c : pyclass) : list (string * SchemaNode) :=
  match c with Class _ _ _ _ attrs => attrs end.

Definition class_eqb (a b : pyclass) : bool :=
  String.eqb (class_name a) (class_name b).

(** **** Method resolution order (C3 linearization) *)

Definition in_tail (c : pyclass) (seqs : list (list pyclass)) : bool :=
  existsb (fun s => match s with
                    | [] => false
                    | _ :: t => existsb (class_eqb c) t
                    end) seqs.

(** The first head that is in the tail of no sequence. *)
Fixpoint find_head (all seqs : list (list pyclass)) : option pyclass :=
  match seqs with
  | [] => None
  | [] :: rest => find_head all rest
  | (h :: _) :: rest => if in_tail h all then find_head all rest else Some h
  end.

Definition drop_head (h : pyclass) (seqs : list (list pyclass)) : list (list pyclass) :=
  map (fun s => match s with
                | x :: t => if class_eqb x h then t else s
                | [] => []
                end) seqs.

Definition nonempty {A} (l : list A) : bool :=
  match l with [] => false | _ => true end.

(** [None] is the [TypeError] of an inconsistent hierarchy. *)
Fixpoint c3_merge (fuel : nat) (seqs : list (list pyclass)) : option (list pyclass) :=
  match filter nonempty seqs with
  | [] => Some []
  | seqs =>
      match fuel with
      | O => None
      | S fuel =>
          match find_head seqs seqs with
          | None => None
          | Some h => option_map (cons h) (c3_merge fuel (drop_head h seqs))
          end
      end
  end.

Fixpoint mro (c : pyclass) : option (list pyclass) :=
  match c with
  | Class _ bases _ _ _ =>
      let fix mros (bs : list pyclass) : option (list (list pyclass)) :=
        match bs with
        | [] => Some []
        | b :: rest =>
            match mro b, mros rest with
            | Some l, Some ls => Some (l :: ls)
            | _, _ => None
            end
        end in
      match mros bases with
      | Some ls =>
          let seqs := ls ++ [bases] in
          option_map (cons c) (c3_merge (S (List.length (List.concat seqs))) seqs)
      | None => None
      end
  end.

Definition mro_list (c : pyclass) : list pyclass :=
  match mro c with Some l => l | None => [] end.

(** **** The metaclass [_SchemaMeta] *)

Definition set_name (name : string) (n : SchemaNode) : SchemaNode :=
  match n with
  | Node old t ch v m d =>
      Node (if String.eqb old EmptyString then name else old) t ch v m d
  end.

(** [__class_schema_nodes__]: the nodes of the class body, named after
    their attributes. *)
Definition class_schema_nodes (c : pyclass) : list SchemaNode :=
  map (fun a => set_name (fst a) (snd a)) (class_attrs c).

(** [__all_schema_nodes__]: the nodes of every class of the MRO, from
    the most basic class to the class itself. *)
Definition all_schema_nodes (c : pyclass) : list SchemaNode :=
  flat_map class_schema_nodes (rev (mro_list c)).

(** [node[name] = n] when a child of that name exists *)
Fixpoint setitem (n : SchemaNode) (children : list SchemaNode) : list SchemaNode :=
  match children with
  | [] => []
  | c :: rest =>
      if String.eqb (node_name c) (node_name n) then n :: rest
      else c :: setitem n rest
  end.

(** [_add_node_children]: a node whose name is taken replaces the child
    of that name, any other is appended. *)
Definition add_node_children (children new : list SchemaNode) : list SchemaNode :=
  fold_left (fun acc n =>
               if existsb (fun c => String.eqb (node_name c) (node_name n)) acc
               then setitem n acc else acc ++ [n])
            new children.

(** Attribute lookup along the MRO. *)
Definition getattr {A} (field : pyclass -> option A) (c : pyclass) : option A :=
  fold_right (fun k found => match field k with Some a => Some a | None => found end)
             None (mro_list c).

(** [cls(missing=...)]: instantiate a schema class. *)
Definition new (cls : pyclass) (missing : option pyval) : SchemaNode :=
  Node EmptyString
       (match getattr class_schema_type cls with
        | Some t => t
        | None => Unconstructible
        end)
       (add_node_children [] (all_schema_nodes cls))
       (getattr class_validator cls)
       missing
       None.

(** The classes of colander that [schemas.py] derives from. *)
Definition SchemaNode_class : pyclass :=
  Class "SchemaNode" [] None None [].

Definition MappingSchema : pyclass :=
  Class "MappingSchema" [SchemaNode_class] (Some (Mapping ignore)) None [].

Definition SequenceSchema : pyclass :=
  Class "SequenceSchema" [SchemaNode_class] (Some Sequence) None [].

(** [colander.SchemaNode(typ, validator=..., missing=..., default=...)] *)
Definition SchemaNode_ (t : typ) (validator : option validator_t)
    (missing default : option pyval) : SchemaNode :=
  Node EmptyString t [] validator missing default.

End colander.

(** ** The constants of [moe.optimal_learning.python.constant]

    [schemas.py] imports these names; their values are not part of the
    module and are kept abstract. *)

Module constant.

Record t := {
  GRADIENT_DESCENT_OPTIMIZER : string;
  TENSOR_PRODUCT_DOMAIN_TYPE : string;
  SQUARE_EXPONENTIAL_COVARIANCE_TYPE : string;
  NULL_OPTIMIZER : string;
  NEWTON_OPTIMIZER : string;
  DOMAIN_TYPES : list string;
  OPTIMIZER_TYPES : list string;
  COVARIANCE_TYPES : list string;
  CONSTANT_LIAR_METHODS : list string;
  DEFAULT_MAX_NUM_THREADS : Z;
  MAX_ALLOWED_NUM_THREADS : Z;
  DEFAULT_EXPECTED_IMPROVEMENT_MC_ITERATIONS : Z;
  LIKELIHOOD_TYPES : list string;
  LOG_MARGINAL_LIKELIHOOD : string;
  DEFAULT_CONSTANT_LIAR_METHOD : string;
  DEFAULT_CONSTANT_LIAR_LIE_NOISE_VARIANCE : spec_float;
  DEFAULT_KRIGING_NOISE_VARIANCE : spec_float;
  DEFAULT_KRIGING_STD_DEVIATION_COEF : spec_float
}.

End constant.

(** ** [moe/views/schemas.py] *)

(** The float literals of the module. *)
Definition f0_0 : spec_float := S754_zero false.
Definition f1_0 : spec_float := S754_finite false 4503599627370496 (-52).
Definition f1_0e_16 : spec_float := S754_finite false 8112963841460668 (-106).

(** The value a class body obtains from a call of [deserialize]: an
    exception there would abort the import of the module. *)
Definition at_import (r : colander.outcome) : option pyval :=
  match r with
  | colander.Ok v => Some v
  | colander.Invalid _ => None
  end.

Section Schemas.

Import colander constant.
Local Open Scope string_scope.

Variable py : python.
Variable K : constant.t.

(** A [colander.MappingSchema] that raises on unknown keys: its
    [schema_type] returns [colander.Mapping(unknown='raise')]. *)
Definition StrictMappingSchema : pyclass :=
  Class "StrictMappingSchema" [MappingSchema] (Some (Mapping raise)) None [].

(** [if not 0.0 < cstruct < float('inf'): raise colander.Invalid(...)] *)
Definition PositiveFloat_validator : validator_t :=
  fun cstruct =>
    if negb (py_lt (PFloat f0_0) cstruct && py_lt cstruct (PFloat float_inf))
    then Some NotPositiveFinite
    else None.

Definition PositiveFloat : pyclass :=
  Class "PositiveFloat" [SchemaNode_class] (Some Float)
        (Some PositiveFloat_validator) [].

Definition ListOfPositiveFloats : pyclass :=
  Class "ListOfPositiveFloats" [SequenceSchema] None None
        [("float_in_list", new PositiveFloat None)].

Definition ListOfFloats : pyclass :=
  Class "ListOfFloats" [SequenceSchema] None None
        [("float_in_list", SchemaNode_ Float None None None)].

Definition SinglePoint : pyclass :=
  Class "SinglePoint" [StrictMappingSchema] None None
        [("point", new ListOfFloats None);
         ("value", SchemaNode_ Float None None None);
         ("value_var", SchemaNode_ Float
                         (Some (Range (Some (PFloat f0_0)) None))
                         (Some (PFloat f0_0)) None)].

Definition PointsSampled : pyclass :=
  Class "PointsSampled" [SequenceSchema] None None
        [("point_sampled", new SinglePoint None)].

Definition DomainCoordinate : pyclass :=
  Class "DomainCoordinate" [StrictMappingSchema] None None
        [("min", SchemaNode_ Float None None None);
         ("max", SchemaNode_ Float None None None)].

Definition Domain : pyclass :=
  Class "Domain" [SequenceSchema] None None
        [("domain_coordinates", new DomainCoordinate None)].

Definition DomainInfo : pyclass :=
  Class "DomainInfo" [StrictMappingSchema] None None
        [("domain_type", SchemaNode_ String
                           (Some (OneOf (DOMAIN_TYPES K)))
                           (Some (PStr (TENSOR_PRODUCT_DOMAIN_TYPE K))) None);
         ("dim", SchemaNode_ Int (Some (Range (Some (PInt 0)) None)) None None)].

Definition BoundedDomainInfo : pyclass :=
  Class "BoundedDomainInfo" [DomainInfo] None None
        [("domain_bounds", new Domain None)].

Definition GradientDescentParametersSchema : pyclass :=
  Class "GradientDescentParametersSchema" [StrictMappingSchema] None None
        [("max_num_steps", SchemaNode_ Int (Some (Range (Some (PInt 1)) None)) None None);
         ("max_num_restarts", SchemaNode_ Int (Some (Range (Some (PInt 1)) None)) None None);
         ("num_steps_averaged", SchemaNode_ Int (Some (Range (Some (PInt 0)) None)) None None);
         ("gamma", SchemaNode_ Float (Some (Range (Some (PFloat f0_0)) None)) None None);
         ("pre_mult", SchemaNode_ Float (Some (Range (Some (PFloat f0_0)) None)) None None);
         ("max_relative_change",
            SchemaNode_ Float (Some (Range (Some (PFloat f0_0)) (Some (PFloat f1_0)))) None None);
         ("tolerance", SchemaNode_ Float (Some (Range (Some (PFloat f0_0)) None)) None None)].

Definition NewtonParametersSchema : pyclass :=
  Class "NewtonParametersSchema" [StrictMappingSchema] None None
        [("max_num_steps", SchemaNode_ Int (Some (Range (Some (PInt 1)) None)) None None);
         ("gamma", SchemaNode_ Float (Some (Range (Some (PFloat f1_0)) None)) None None);
         ("time_factor", SchemaNode_ Float (Some (Range (Some (PFloat f1_0e_16)) None)) None None);
         ("max_relative_change",
            SchemaNode_ Float (Some (Range (Some (PFloat f0_0)) (Some (PFloat f1_0)))) None None);
         ("tolerance", SchemaNode_ Float (Some (Range (Some (PFloat f0_0)) None)) None None)].

Definition NullParametersSchema : pyclass :=
  Class "NullParametersSchema" [StrictMappingSchema] None None [].

Definition CovarianceInfo : pyclass :=
  Class "CovarianceInfo" [StrictMappingSchema] None None
        [("covariance_type", SchemaNode_ String
                               (Some (OneOf (COVARIANCE_TYPES K)))
                               (Some (PStr (SQUARE_EXPONENTIAL_COVARIANCE_TYPE K))) None);
         ("hyperparameters", new ListOfPositiveFloats (Some PNone))].

Definition GpHistoricalInfo : pyclass :=
  Class "GpHistoricalInfo" [StrictMappingSchema] None None
        [("points_sampled", new PointsSampled None)].

Definition ListOfPointsInDomain : pyclass :=
  Class "ListOfPointsInDomain" [SequenceSchema] None None
        [("point_in_domain", new ListOfFloats None)].

Definition ListOfExpectedImprovements : pyclass :=
  Class "ListOfExpectedImprovements" [SequenceSchema] None None
        [("expected_improvement",
            SchemaNode_ Float (Some (Range (Some (PInt 0)) None)) None None)].

Definition MatrixOfFloats : pyclass :=
  Class "MatrixOfFloats" [SequenceSchema] None None
        [("row_of_matrix", new ListOfFloats None)].

(** A dict display: a later entry overrides an earlier one with an
    equal key. *)
Definition OPTIMIZER_TYPES_TO_SCHEMA_CLASSES : list (string * pyclass) :=
  [(NULL_OPTIMIZER K, NullParametersSchema);
   (NEWTON_OPTIMIZER K, NewtonParametersSchema);
   (GRADIENT_DESCENT_OPTIMIZER K, GradientDescentParametersSchema)].

(** [table[key]] for a table written as a dict display *)
Definition table_get (key : string) (table : list (string * pyclass)) : option pyclass :=
  fold_left (fun found kv => if String.eqb key (fst kv) then Some (snd kv) else found)
            table None.

Definition OptimizerInfo : pyclass :=
  Class "OptimizerInfo" [StrictMappingSchema] None None
        [("optimizer_type", SchemaNode_ String
                              (Some (OneOf (OPTIMIZER_TYPES K))) (Some PNone) None);
         ("num_multistarts", SchemaNode_ Int
                               (Some (Range (Some (PInt 1)) None)) (Some PNone) None);
         ("num_random_samples", SchemaNode_ Int
                                  (Some (Range (Some (PInt 0)) None)) (Some PNone) None);
         ("optimizer_parameters", SchemaNode_ (Mapping preserve) None (Some PNone) None)].

Definition GpNextPointsRequest : pyclass :=
  Class "GpNextPointsRequest" [StrictMappingSchema] None None
        [("num_to_sample", SchemaNode_ Int
                             (Some (Range (Some (PInt 1)) None)) (Some (PInt 1)) None);
         ("mc_iterations", SchemaNode_ Int
                             (Some (Range (Some (PInt 1)) None))
                             (Some (PInt (DEFAULT_EXPECTED_IMPROVEMENT_MC_ITERATIONS K))) None);
         ("max_num_threads", SchemaNode_ Int
                               (Some (Range (Some (PInt 1))
                                            (Some (PInt (MAX_ALLOWED_NUM_THREADS K)))))
                               (Some (PInt (DEFAULT_MAX_NUM_THREADS K))) None);
         ("gp_historical_info", new GpHistoricalInfo None);
         ("domain_info", new BoundedDomainInfo None);
         ("covariance_info",
            new CovarianceInfo
                (at_import (deserialize py (new CovarianceInfo None) (PDict []))));
         ("optimizer_info",
            new OptimizerInfo
                (at_import (deserialize py (new OptimizerInfo None) (PDict []))));
         ("points_being_sampled", new ListOfPointsInDomain (Some (PList [])))].

Definition GpNextPointsConstantLiarRequest : pyclass :=
  Class "GpNextPointsConstantLiarRequest" [GpNextPointsRequest] None None
        [("lie_method", SchemaNode_ String
                          (Some (OneOf (CONSTANT_LIAR_METHODS K)))
                          (Some (PStr (DEFAULT_CONSTANT_LIAR_METHOD K))) None);
         ("lie_value", SchemaNode_ Float None (Some PNone) None);
         ("lie_noise_variance",
            SchemaNode_ Float
              (Some (Range (Some (PFloat f0_0)) None))
              (Some (PFloat (DEFAULT_CONSTANT_LIAR_LIE_NOISE_VARIANCE K))) None)].

Definition GpNextPointsKrigingRequest : pyclass :=
  Class "GpNextPointsKrigingRequest" [GpNextPointsRequest] None None
        [("std_deviation_coef",
            SchemaNode_ Float None
              (Some (PFloat (DEFAULT_KRIGING_STD_DEVIATION_COEF K))) None);
         ("kriging_noise_variance",
            SchemaNode_ Float
              (Some (Range (Some (PFloat f0_0)) None))
              (Some (PFloat (DEFAULT_KRIGING_NOISE_VARIANCE K))) None)].

Definition GpNextPointsStatus : pyclass :=
  Class "GpNextPointsStatus" [StrictMappingSchema] None None
        [("expected_improvement",
            SchemaNode_ Float (Some (Range (Some (PFloat f0_0)) None)) None None);
         ("optimizer_success",
            SchemaNode_ (Mapping preserve) None None
                        (Some (PDict [("found_update", PBool false)])))].

Definition GpNextPointsResponse : pyclass :=
  Class "GpNextPointsResponse" [StrictMappingSchema] None None
        [("endpoint", SchemaNode_ String None None None);
         ("points_to_sample", new ListOfPointsInDomain None);
         ("status", new GpNextPointsStatus None)].

Definition GpHyperOptRequest : pyclass :=
  Class "GpHyperOptRequest" [StrictMappingSchema] None None
        [("max_num_threads", SchemaNode_ Int
                               (Some (Range (Some (PInt 1))
                                            (Some (PInt (MAX_ALLOWED_NUM_THREADS K)))))
                               (Some (PInt (DEFAULT_MAX_NUM_THREADS K))) None);
         ("gp_historical_info", new GpHistoricalInfo None);
         ("domain_info", new DomainInfo None);
         ("covariance_info",
            new CovarianceInfo
                (at_import (deserialize py (new CovarianceInfo None) (PDict []))));
         ("hyperparameter_domain_info", new BoundedDomainInfo None);
         ("optimizer_info",
            new OptimizerInfo
                (at_import (deserialize py (new OptimizerInfo None) (PDict []))));
         ("log_likelihood_info", SchemaNode_ String
                                   (Some (OneOf (LIKELIHOOD_TYPES K)))
                                   (Some (PStr (LOG_MARGINAL_LIKELIHOOD K))) None)].

Definition GpHyperOptStatus : pyclass :=
  Class "GpHyperOptStatus" [StrictMappingSchema] None None
        [("log_likelihood", SchemaNode_ Float None None None);
         ("grad_log_likelihood", new ListOfFloats None);
         ("optimizer_success",
            SchemaNode_ (Mapping preserve) None None
                        (Some (PDict [("found_update", PBool false)])))].

Definition GpHyperOptResponse : pyclass :=
  Class "GpHyperOptResponse" [StrictMappingSchema] None None
        [("endpoint", SchemaNode_ String None None None);
         ("covariance_info", new CovarianceInfo None);
         ("status", new GpHyperOptStatus None)].

Definition GpMeanVarRequest : pyclass :=
  Class "GpMeanVarRequest" [StrictMappingSchema] None None
        [("points_to_sample", new ListOfPointsInDomain None);
         ("gp_historical_info", new GpHistoricalInfo None);
         ("domain_info", new DomainInfo None);
         ("covariance_info",
            new CovarianceInfo
                (at_import (deserialize py (new CovarianceInfo None) (PDict []))))].

Definition GpEndpointResponse : pyclass :=
  Class "GpEndpointResponse" [StrictMappingSchema] None None
        [("endpoint", SchemaNode_ String None None None)].

Definition GpMeanMixinResponse : pyclass :=
  Class "GpMeanMixinResponse" [StrictMappingSchema] None None
        [("mean", new ListOfFloats None)].

Definition GpVarMixinResponse : pyclass :=
  Class "GpVarMixinResponse" [StrictMappingSchema] None None
        [("var", new MatrixOfFloats None)].

Definition GpVarDiagMixinResponse : pyclass :=
  Class "GpVarDiagMixinResponse" [StrictMappingSchema] None None
        [("var", new ListOfFloats None)].

Definition GpMeanResponse : pyclass :=
  Class "GpMeanResponse" [GpEndpointResponse; GpMeanMixinResponse] None None [].

Definition GpVarResponse : pyclass :=
  Class "GpVarResponse" [GpEndpointResponse; GpVarMixinResponse] None None [].

Definition GpVarDiagResponse : pyclass :=
  Class "GpVarDiagResponse" [GpEndpointResponse; GpVarDiagMixinResponse] None None [].

Definition GpMeanVarResponse : pyclass :=
  Class "GpMeanVarResponse" [GpMeanResponse; GpVarMixinResponse] None None [].

Definition GpMeanVarDiagResponse : pyclass :=
  Class "GpMeanVarDiagResponse" [GpMeanResponse; GpVarDiagMixinResponse] None None [].

Definition GpEiRequest : pyclass :=
  Class "GpEiRequest" [StrictMappingSchema] None None
        [("points_to_evaluate", new ListOfPointsInDomain None);
         ("points_being_sampled", new ListOfPointsInDomain (Some (PList [])));
         ("mc_iterations", SchemaNode_ Int
                             (Some (Range (Some (PInt 1)) None))
                             (Some (PInt (DEFAULT_EXPECTED_IMPROVEMENT_MC_ITERATIONS K))) None);
         ("max_num_threads", SchemaNode_ Int
                               (Some (Range (Some (PInt 1))
                                            (Some (PInt (MAX_ALLOWED_NUM_THREADS K)))))
                               (Some (PInt (DEFAULT_MAX_NUM_THREADS K))) None);
         ("gp_historical_info", new GpHistoricalInfo None);
         ("domain_info", new DomainInfo None);
         ("covariance_info",
            new CovarianceInfo
                (at_import (deserialize py (new CovarianceInfo None) (PDict []))))].

Definition GpEiResponse : pyclass :=
  Class "GpEiResponse" [StrictMappingSchema] None None
        [("endpoint", SchemaNode_ String None None None);
         ("expected_improvement", new ListOfExpectedImprovements None)].

End Schemas.

(** ** Sample data

    An assignment of the constants, for running the schemas on examples:
    the values that the docstrings of [schemas.py] show, and the names
    of the optimal_learning library for the others. *)

Module sample.

Import colander.
Local Open Scope string_scope.

Definition constants : constant.t := {|
  constant.GRADIENT_DESCENT_OPTIMIZER := "gradient_descent_optimizer";
  constant.TENSOR_PRODUCT_DOMAIN_TYPE := "tensor_product";
  constant.SQUARE_EXPONENTIAL_COVARIANCE_TYPE := "square_exponential";
  constant.NULL_OPTIMIZER := "null_optimizer";
  constant.NEWTON_OPTIMIZER := "newton_optimizer";
  constant.DOMAIN_TYPES := ["tensor_product"; "simplex_intersect_tensor_product"];
  constant.OPTIMIZER_TYPES :=
    ["null_optimizer"; "newton_optimizer"; "gradient_descent_optimizer"];
  constant.COVARIANCE_TYPES := ["square_exponential"];
  constant.CONSTANT_LIAR_METHODS :=
    ["constant_liar_min"; "constant_liar_max"; "constant_liar_mean"];
  constant.DEFAULT_MAX_NUM_THREADS := 1;
  constant.MAX_ALLOWED_NUM_THREADS := 10000;
  constant.DEFAULT_EXPECTED_IMPROVEMENT_MC_ITERATIONS := 10000;
  constant.LIKELIHOOD_TYPES :=
    ["leave_one_out_log_likelihood"; "log_marginal_likelihood"];
  constant.LOG_MARGINAL_LIKELIHOOD := "log_marginal_likelihood";
  constant.DEFAULT_CONSTANT_LIAR_METHOD := "constant_liar_min";
  constant.DEFAULT_CONSTANT_LIAR_LIE_NOISE_VARIANCE := f0_0;
  constant.DEFAULT_KRIGING_NOISE_VARIANCE := f0_0;
  constant.DEFAULT_KRIGING_STD_DEVIATION_COEF := f0_0
|}.

(** Text conversions for payloads in which no string stands where a
    number is expected: they are never consulted on such payloads. *)
Definition py : python := {|
  float_of_str := fun _ => None;
  int_of_str := fun _ => None
|}.

(** Float literals of the examples. *)
Definition f0_1 : spec_float := S754_finite false 7205759403792794 (-56).
Definition f0_01 : spec_float := S754_finite false 5764607523034235 (-59).
Definition f0_5 : spec_float := S754_finite false 4503599627370496 (-53).

(** The historical data of the docstrings' minimal requests, with one
    sampled point. *)
Definition gp_historical_info : pyval :=
  PDict [("points_sampled",
          PList [PDict [("point", PList [PFloat f0_0]);
                        ("value", PFloat f0_1);
                        ("value_var", PFloat f0_01)]])].

(** [{"points_to_evaluate": [[0.1]], "gp_historical_info": ...,
     "domain_info": {"dim": 1}}] *)
Definition minimal_gp_ei : pyval :=
  PDict [("points_to_evaluate", PList [PList [PFloat f0_1]]);
         ("gp_historical_info", gp_historical_info);
         ("domain_info", PDict [("dim", PInt 1)])].

(** The same request without [domain_info]. *)
Definition gp_ei_no_domain : pyval :=
  PDict [("points_to_evaluate", PList [PList [PFloat f0_1]]);
         ("gp_historical_info", gp_historical_info)].

(** A [gp_mean_var] request without [domain_info]. *)
Definition gp_mean_var_no_domain : pyval :=
  PDict [("points_to_sample", PList [PList [PFloat f0_1]]);
         ("gp_historical_info", gp_historical_info)].

(** What the schema returns for [minimal_gp_ei]. *)
Definition minimal_gp_ei_normalized : pyval :=
  PDict [("points_to_evaluate", PList [PList [PFloat f0_1]]);
         ("points_being_sampled", PList []);
         ("mc_iterations", PInt 10000);
         ("max_num_threads", PInt 1);
         ("gp_historical_info", gp_historical_info);
         ("domain_info", PDict [("domain_type", PStr "tensor_product"); ("dim", PInt 1)]);
         ("covariance_info",
          PDict [("covariance_type", PStr "square_exponential");
                 ("hyperparameters", PNone)])].

(** A [gp_ei] request that gives the hyperparameters, and what the
    schema returns for it. *)
Definition gp_ei_with_hyperparameters : pyval :=
  PDict [("points_to_evaluate", PList [PList [PFloat f0_1]]);
         ("gp_historical_info", gp_historical_info);
         ("domain_info", PDict [("dim", PInt 1)]);
         ("covariance_info",
          PDict [("covariance_type", PStr "square_exponential");
                 ("hyperparameters", PList [PFloat f1_0; PFloat f1_0])])].

Definition gp_ei_with_hyperparameters_normalized : pyval :=
  PDict [("points_to_evaluate", PList [PList [PFloat f0_1]]);
         ("points_being_sampled", PList []);
         ("mc_iterations", PInt 10000);
         ("max_num_threads", PInt 1);
         ("gp_historical_info", gp_historical_info);
         ("domain_info", PDict [("domain_type", PStr "tensor_product"); ("dim", PInt 1)]);
         ("covariance_info",
          PDict [("covariance_type", PStr "square_exponential");
                 ("hyperparameters", PList [PFloat f1_0; PFloat f1_0])])].

(** [gp_mean_var_no_domain] with its [domain_info]. *)
Definition minimal_gp_mean_var : pyval :=
  PDict [("points_to_sample", PList [PList [PFloat f0_1]]);
         ("gp_historical_info", gp_historical_info);
         ("domain_info", PDict [("dim", PInt 1)])].

(** A [gp_mean_var] response at one point. *)
Definition gp_mean_var_response : dict :=
  [("endpoint", PStr "gp_mean_var");
   ("mean", PList [PFloat f0_1]);
   ("var", PList [PList [PFloat f0_01]])].

Definition gp_mean_var_response_normalized : pyval :=
  PDict [("var", PList [PList [PFloat f0_01]]);
         ("mean", PList [PFloat f0_1]);
         ("endpoint", PStr "gp_mean_var")].

(** Newton parameters with [gamma = 0.5]. *)
Definition newton_parameters : dict :=
  [("max_num_steps", PInt 100);
   ("gamma", PFloat f0_5);
   ("time_factor", PFloat f1_0);
   ("max_relative_change", PFloat f1_0);
   ("tolerance", PFloat f1_0e_16)].

(** An [optimizer_info] that only names the optimizer. *)
Definition optimizer_info : dict :=
  [("optimizer_type", PStr "gradient_descent_optimizer")].

Definition optimizer_info_normalized : pyval :=
  PDict [("optimizer_type", PStr "gradient_descent_optimizer");
         ("num_multistarts", PNone);
         ("num_random_samples", PNone);
         ("optimizer_parameters", PNone)].

Definition covariance_info_normalized : pyval :=
  PDict [("covariance_type", PStr "square_exponential"); ("hyperparameters", PNone)].

(** [minimal_gp_ei] with a key that the schema does not declare. *)
Definition gp_ei_unknown_key : dict :=
  [("points_to_evaluate", PList [PList [PFloat f0_1]]);
   ("gp_historical_info", gp_historical_info);
   ("domain_info", PDict [("dim", PInt 1)]);
   ("verbose", PBool true)].

(** A status report of an optimizer, with keys no schema declares. *)
Definition optimizer_success : dict :=
  [("gradient_descent_tensor_product_domain_found_update", PBool true)].


(** The minimal [gp_next_points] request of the docstrings (without its
    [num_to_sample]), and what [GpNextPointsRequest] returns for it. *)
Definition minimal_gp_next_points : dict :=
  [("gp_historical_info", gp_historical_info);
   ("domain_info",
    PDict [("dim", PInt 1);
           ("domain_bounds", PList [PDict [("min", PFloat f0_0); ("max", PFloat f1_0)]])])].

Definition minimal_gp_next_points_normalized : dict :=
  [("num_to_sample", PInt 1);
   ("mc_iterations", PInt 10000);
   ("max_num_threads", PInt 1);
   ("gp_historical_info", gp_historical_info);
   ("domain_info",
    PDict [("domain_type", PStr "tensor_product"); ("dim", PInt 1);
           ("domain_bounds", PList [PDict [("min", PFloat f0_0); ("max", PFloat f1_0)]])]);
   ("covariance_info", covariance_info_normalized);
   ("optimizer_info",
    PDict [("optimizer_type", PNone); ("num_multistarts", PNone);
           ("num_random_samples", PNone); ("optimizer_parameters", PNone)]);
   ("points_being_sampled", PList [])].

End sample.

(** ** Auxiliary notions for the statements *)

Module notions.

Import colander.

(** What the loop of [Mapping._impl] hands to a child: the value under
    the child's name, or [null]. *)
Definition arg_of (value : dict) (subnode : SchemaNode) : pyval :=
  fst (dict_pop (node_name subnode) Null value).

(** What the loop leaves in [value]: the keys that no child claims. *)
Definition leftover (children : list SchemaNode) (value : dict) : dict :=
  fold_left (fun v subnode => dict_del (node_name subnode) v) children value.

(** The entries and the errors that the loop accumulates, given the
    outcome of every child. *)
Fixpoint add_results (result : dict) (outs : list (string * outcome)) : dict :=
  match outs with
  | [] => result
  | (name, Ok a) :: rest => add_results (dict_set name a result) rest
  | (_, Invalid _) :: rest => add_results result rest
  end.

Fixpoint add_errors (num : nat) (error : list (nat * reason))
    (outs : list (string * outcome)) : list (nat * reason) :=
  match outs with
  | [] => error
  | (_, Ok _) :: rest => add_errors (S num) error rest
  | (_, Invalid e) :: rest => add_errors (S num) (error ++ [(num, e)]) rest
  end.

Fixpoint distinct (l : list string) : bool :=
  match l with
  | [] => true
  | x :: rest => negb (existsb (String.eqb x) rest) && distinct rest
  end.

Definition declared (n : SchemaNode) : list string :=
  map node_name (node_children n).

(** [node[name]] *)
Definition child (name : string) (n : SchemaNode) : option SchemaNode :=
  find (fun c => String.eqb (node_name c) name) (node_children n).

(** Every node of a schema tree, the root first. *)
Fixpoint nodes_of (n : SchemaNode) : list SchemaNode :=
  match n with
  | Node _ _ children _ _ _ => n :: flat_map nodes_of children
  end.

(** The outcome of every child on what the loop hands to it. *)
Definition outcomes (callback : SchemaNode -> pyval -> outcome)
    (children : list SchemaNode) (value : dict) : list (string * outcome) :=
  map (fun c => (node_name c, callback c (arg_of value c))) children.

(** After the type has produced a value that is not [null], the
    validator decides. *)
Definition validated (validator : option validator_t) (appstruct : pyval) : outcome :=
  match validator with
  | Some v => match v appstruct with Some e => Invalid e | None => Ok appstruct end
  | None => Ok appstruct
  end.

Local Open Scope string_scope.

(** A matrix of floats as a Python value. *)
Definition matrix (rows : list (list spec_float)) : pyval :=
  PList (map (fun r => PList (map PFloat r)) rows).

(** A mapping node is either strict with distinct child names, or one of
    the two open fields, which have neither children nor validator. *)
Definition closed_or_declared_open (n : SchemaNode) : bool :=
  match n with
  | Node name typ children validator _ _ =>
      match typ with
      | Mapping raise => distinct (map node_name children)
      | Mapping preserve =>
          match children, validator with
          | [], None =>
              String.eqb name "optimizer_parameters" || String.eqb name "optimizer_success"
          | _, _ => false
          end
      | Mapping ignore => false
      | Unconstructible => false
      | _ => true
      end
  end.

(** No field typed as a sequence or as a mapping holds [None]. *)
Fixpoint none_free (n : SchemaNode) (a : pyval) {struct n} : bool :=
  match n with
  | Node _ typ children _ _ _ =>
      match typ, a with
      | Mapping _, PNone => false
      | Sequence, PNone => false
      | Mapping _, PDict d =>
          (fix all (chs : list SchemaNode) : bool :=
             match chs with
             | [] => true
             | c :: rest =>
                 match dict_get (node_name c) d with
                 | Some v => none_free c v
                 | None => true
                 end && all rest
             end) children
      | Sequence, PList l =>
          match children with
          | c :: _ => forallb (none_free c) l
          | [] => true
          end
      | _, _ => true
      end
  end.

(** What [SchemaNode.deserialize] does with the outcome of the type. *)
Definition after_typ (v : option validator_t) (m : option pyval) (r : outcome) : outcome :=
  match r with
  | Invalid e => Invalid e
  | Ok Null => match m with Some x => Ok x | None => Invalid Required end
  | Ok a => validated v a
  end.

Section Environment.

Variable py : python.
Variable K : constant.t.
Local Open Scope string_scope.

(** The classes of the module that derive from [StrictMappingSchema]. *)
Definition schema_classes : list pyclass :=
  [StrictMappingSchema; SinglePoint; DomainCoordinate; DomainInfo K; BoundedDomainInfo K;
   GradientDescentParametersSchema; NewtonParametersSchema; NullParametersSchema;
   CovarianceInfo K; GpHistoricalInfo; OptimizerInfo K;
   GpNextPointsRequest py K; GpNextPointsConstantLiarRequest py K;
   GpNextPointsKrigingRequest py K; GpNextPointsStatus; GpNextPointsResponse;
   GpHyperOptRequest py K; GpHyperOptStatus; GpHyperOptResponse K;
   GpMeanVarRequest py K; GpEndpointResponse; GpMeanMixinResponse; GpVarMixinResponse;
   GpVarDiagMixinResponse; GpMeanResponse; GpVarResponse; GpVarDiagResponse;
   GpMeanVarResponse; GpMeanVarDiagResponse; GpEiRequest py K; GpEiResponse].

(** A schema whose [missing] values are accepted by their own nodes
    (unless they hold [None] for a sequence or a mapping), whose
    mappings have distinct child names, and whose open mappings have no
    child. *)
Fixpoint stable (n : SchemaNode) {struct n} : Prop :=
  match n with
  | Node name typ children validator missing default =>
      match missing with
      | Some m =>
          none_free (Node name typ children validator missing default) m = true ->
          deserialize py (Node name typ children validator missing default) m = Ok m
      | None => True
      end
      /\ match typ with
         | Mapping preserve => children = []
         | Mapping _ => NoDup (map node_name children)
         | _ => True
         end
      /\ (fix all (chs : list SchemaNode) : Prop :=
            match chs with
            | [] => True
            | c :: rest => stable c /\ all rest
            end) children
  end.

(** The [deserialize] of the type of a node. *)
Definition typ_deserialize (t : typ) (ch : list SchemaNode) (c : pyval) : outcome :=
  match t with
  | Float => Number_deserialize (py_float py) c
  | Int => Number_deserialize (py_int py) c
  | String => String_deserialize c
  | Mapping u =>
      match c with
      | Null => Ok Null
      | PDict value => Mapping_impl (deserialize py) u ch value
      | _ => Invalid NotAMapping
      end
  | Sequence =>
      match c with
      | Null => Ok Null
      | PList value => Sequence_impl (deserialize py) ch value
      | _ => Invalid NotIterable
      end
  | Unconstructible => Invalid NoType
  end.

(** The default constants satisfy the constraints of the fields they are
    the defaults of. *)
Definition constants_ok : Prop :=
  (1 <= constant.DEFAULT_EXPECTED_IMPROVEMENT_MC_ITERATIONS K)%Z
  /\ (1 <= constant.DEFAULT_MAX_NUM_THREADS K)%Z
  /\ (constant.DEFAULT_MAX_NUM_THREADS K <= constant.MAX_ALLOWED_NUM_THREADS K)%Z
  /\ In (constant.SQUARE_EXPONENTIAL_COVARIANCE_TYPE K) (constant.COVARIANCE_TYPES K)
  /\ In (constant.TENSOR_PRODUCT_DOMAIN_TYPE K) (constant.DOMAIN_TYPES K)
  /\ In (constant.LOG_MARGINAL_LIKELIHOOD K) (constant.LIKELIHOOD_TYPES K)
  /\ In (constant.DEFAULT_CONSTANT_LIAR_METHOD K) (constant.CONSTANT_LIAR_METHODS K)
  /\ SFleb f0_0 (constant.DEFAULT_CONSTANT_LIAR_LIE_NOISE_VARIANCE K) = true
  /\ SFleb f0_0 (constant.DEFAULT_KRIGING_NOISE_VARIANCE K) = true.

(** The request schemas of the module. *)
Definition request_schemas : list pyclass :=
  [GpNextPointsRequest py K; GpNextPointsConstantLiarRequest py K;
   GpNextPointsKrigingRequest py K; GpHyperOptRequest py K;
   GpMeanVarRequest py K; GpEiRequest py K].

End Environment.

(** *** Payloads and readings of the schemas, for the further properties *)

(** A sampled point [{point: coords, value: v, value_var: var}]. *)
Definition sampled_point (p : list spec_float * spec_float * spec_float) : pyval :=
  PDict [("point", PList (map PFloat (fst (fst p))));
         ("value", PFloat (snd (fst p)));
         ("value_var", PFloat (snd p))].

(** A domain interval [{min: a, max: b}]. *)
Definition coordinate (ab : spec_float * spec_float) : pyval :=
  PDict [("min", PFloat (fst ab)); ("max", PFloat (snd ab))].

(** [{points_sampled: [...]}] *)
Definition historical_info (ps : list (list spec_float * spec_float * spec_float)) : pyval :=
  PDict [("points_sampled", PList (map sampled_point ps))].

(** A float below zero: a negative finite float or minus infinity. *)
Definition is_negative (f : spec_float) : bool :=
  match f with
  | S754_finite true _ _ => true
  | S754_infinity true => true
  | _ => false
  end.

(** A finite float above zero. *)
Definition is_positive_finite (f : spec_float) : bool :=
  match f with
  | S754_finite false _ _ => true
  | _ => false
  end.

(** The items of a list of floats that a validator refuses, with their
    positions from [num] on. *)
Fixpoint refused_items (v : option validator_t) (num : nat) (l : list spec_float)
    : list (nat * reason) :=
  match l with
  | [] => []
  | f :: rest =>
      match validated v (PFloat f) with
      | Ok _ => refused_items v (S num) rest
      | Invalid e => (num, e) :: refused_items v (S num) rest
      end
  end.

(** The positions of the floats that satisfy [bad], each with the reason [e]. *)
Fixpoint positions (bad : spec_float -> bool) (e : reason) (num : nat) (l : list spec_float)
    : list (nat * reason) :=
  match l with
  | [] => []
  | f :: rest =>
      if bad f then (num, e) :: positions bad e (S num) rest
      else positions bad e (S num) rest
  end.

(** The fields that a mapping node requires, and the values it gives to
    the others when they are left out. *)
Definition required_fields (n : SchemaNode) : list string :=
  map node_name
      (filter (fun c => match node_missing c with None => true | Some _ => false end)
              (node_children n)).

Definition missing_of (children : list SchemaNode) : dict :=
  flat_map (fun c => match node_missing c with
                     | Some m => [(node_name c, m)]
                     | None => []
                     end)
           children.

Definition defaults (n : SchemaNode) : dict := missing_of (node_children n).

(** The fields that a subclass adds are all left out of [value]. *)
Definition left_out (extra : list SchemaNode) (value : dict) : Prop :=
  Forall (fun c => dict_get (node_name c) value = None) extra.

(** A string that is not empty and stands in an enumeration. *)
Definition enumerated (s : string) (choices : list string) : bool :=
  negb (String.eqb s EmptyString) && existsb (String.eqb s) choices.

(** [{domain_type: s, dim: dim}] and the same with [domain_bounds]. *)
Definition domain_info_of (s : string) (dim : Z) : pyval :=
  PDict [("domain_type", PStr s); ("dim", PInt dim)].

Definition bounded_domain_info_of (s : string) (dim : Z)
    (bounds : list (spec_float * spec_float)) : pyval :=
  PDict [("domain_type", PStr s); ("dim", PInt dim);
         ("domain_bounds", PList (map coordinate bounds))].

(** [{covariance_type: s, hyperparameters: l}] *)
Definition covariance_info_of (s : string) (l : list spec_float) : pyval :=
  PDict [("covariance_type", PStr s); ("hyperparameters", PList (map PFloat l))].

(** [{optimizer_type: t, num_multistarts: n1, num_random_samples: n2,
     optimizer_parameters: params}] *)
Definition optimizer_info_of (t : string) (n1 n2 : Z) (params : dict) : pyval :=
  PDict [("optimizer_type", PStr t); ("num_multistarts", PInt n1);
         ("num_random_samples", PInt n2); ("optimizer_parameters", PDict params)].

(** The value of the float [v] is the integer [z]: a finite float
    [S754_finite s m e] stands for [(-1)^s * m * 2^e]. *)
Definition has_integer_value (v : spec_float) (z : Z) : Prop :=
  match v with
  | S754_zero _ => z = 0%Z
  | S754_finite s m e => (e <= 0)%Z /\ cond_Zopp s (Zpos m) = (z * 2 ^ (- e))%Z
  | _ => False
  end.

End notions.

(** * Properties *)

Import colander notions.

(** ** Facts on dictionaries *)

Lemma dict_get_None_not_In (k : string) (d : dict) :
  dict_get k d = None <-> ~ In k (keys d).
Proof.
  induction d as [|[k' v] d IH]; simpl.
  - tauto.
  - destruct (String.eqb_spec k k') as [->|Hne].
    + split; [discriminate | intros H; exfalso; apply H; now left].
    + rewrite IH. split.
      * intros H [E|E]; [congruence | tauto].
      * tauto.
Qed.

Lemma dict_del_absent (k : string) (d : dict) :
  dict_get k d = None -> dict_del k d = d.
Proof.
  induction d as [|[k' v] d IH]; simpl; auto.
  destruct (String.eqb_spec k k'); [discriminate|].
  simpl. intros H. now rewrite IH.
Qed.

Lemma dict_pop_snd (k : string) (dflt : pyval) (d : dict) :
  snd (dict_pop k dflt d) = dict_del k d.
Proof.
  unfold dict_pop. destruct (dict_get k d) eqn:E; simpl; auto.
  now rewrite dict_del_absent.
Qed.

Lemma dict_get_del_ne (k k' : string) (d : dict) :
  k <> k' -> dict_get k (dict_del k' d) = dict_get k d.
Proof.
  intros Hne. induction d as [|[k0 v] d IH]; simpl; auto.
  destruct (String.eqb_spec k' k0) as [->|H0]; simpl.
  - destruct (String.eqb_spec k k0); [congruence | auto].
  - now rewrite IH.
Qed.

Lemma dict_get_del_eq (k : string) (d : dict) :
  dict_get k (dict_del k d) = None.
Proof.
  induction d as [|[k0 v] d IH]; simpl; auto.
  destruct (String.eqb_spec k k0) as [->|H0]; simpl; auto.
  destruct (String.eqb_spec k k0); [congruence | auto].
Qed.

Lemma keys_dict_del (k k' : string) (d : dict) :
  In k (keys (dict_del k' d)) <-> In k (keys d) /\ k <> k'.
Proof.
  unfold keys, dict_del. rewrite !in_map_iff. split.
  - intros [[a b] [E H]]. apply filter_In in H as [H1 H2]. simpl in *. subst a.
    split; [exists (k, b); auto|].
    intros ->. now rewrite String.eqb_refl in H2.
  - intros [[[a b] [E H]] Hne]. simpl in E. subst a.
    exists (k, b). split; auto. apply filter_In. split; auto. simpl.
    destruct (String.eqb_spec k' k) as [E|E]; [subst; tauto | reflexivity].
Qed.

Lemma keys_leftover (k : string) (children : list SchemaNode) (d : dict) :
  In k (keys (leftover children d)) <->
  In k (keys d) /\ ~ In k (map node_name children).
Proof.
  revert d. induction children as [|c cs IH]; intros d; simpl.
  - tauto.
  - unfold leftover in *. simpl. rewrite IH, keys_dict_del. intuition congruence.
Qed.

Lemma dict_set_fresh (k : string) (v : pyval) (d : dict) :
  ~ In k (keys d) -> dict_set k v d = d ++ [(k, v)].
Proof.
  induction d as [|[k' v'] d IH]; simpl; auto.
  intros H. destruct (String.eqb_spec k k') as [->|Hne]; [tauto|].
  rewrite IH; tauto.
Qed.

Lemma dict_update_fresh (d other : dict) :
  NoDup (keys (d ++ other)) -> dict_update d other = d ++ other.
Proof.
  revert d. induction other as [|[k v] other IH]; intros d H; simpl.
  - now rewrite app_nil_r.
  - unfold dict_update in *. simpl.
    assert (Hk : ~ In k (keys d)).
    { unfold keys in H. rewrite map_app in H. simpl in H.
      apply NoDup_remove_2 in H. intros Hin. apply H. apply in_or_app. now left. }
    rewrite dict_set_fresh by exact Hk.
    rewrite IH; rewrite <- app_assoc; simpl; auto.
Qed.

Lemma distinct_NoDup (l : list string) : distinct l = true -> NoDup l.
Proof.
  induction l as [|x l IH]; simpl; intros H; constructor.
  - apply andb_prop in H as [H _]. intros Hin.
    apply negb_true_iff in H.
    assert (existsb (String.eqb x) l = true); [|congruence].
    apply existsb_exists. exists x. split; auto. apply String.eqb_refl.
  - apply IH. now apply andb_prop in H as [_ H].
Qed.

(** ** Facts on the loops of [Mapping._impl] and [Sequence._impl] *)

Section Loops.

Variable callback : SchemaNode -> pyval -> outcome.

Lemma arg_of_del (value : dict) (k : string) (c : SchemaNode) :
  node_name c <> k -> arg_of (dict_del k value) c = arg_of value c.
Proof.
  intros H. unfold arg_of, dict_pop. rewrite dict_get_del_ne by exact H.
  now destruct (dict_get (node_name c) value).
Qed.

Lemma Mapping_children_spec (children : list SchemaNode) :
  NoDup (map node_name children) ->
  forall num value result error,
    Mapping_children callback children num value result error =
    (leftover children value,
     add_results result (outcomes callback children value),
     add_errors num error (outcomes callback children value)).
Proof.
  induction children as [|c cs IH]; intros Hnd num value result error; simpl.
  - reflexivity.
  - inversion Hnd as [|? ? Hc Hcs]; subst.
    assert (Hout : outcomes callback cs (dict_del (node_name c) value) = outcomes callback cs value).
    { unfold outcomes. apply map_ext_in. intros c' Hin.
      rewrite arg_of_del; auto.
      intros E. apply Hc. rewrite <- E. now apply in_map. }
    pose proof (dict_pop_snd (node_name c) Null value) as Hsnd.
    unfold arg_of at 1 2.
    destruct (dict_pop (node_name c) Null value) as [subval value'].
    simpl in Hsnd. subst value'. simpl.
    destruct (callback c subval); rewrite IH by assumption; rewrite Hout; reflexivity.
Qed.

Lemma add_errors_nil (outs : list (string * outcome)) :
  forall num error,
    add_errors num error outs = [] ->
    error = [] /\ Forall (fun o => exists a, snd o = Ok a) outs.
Proof.
  induction outs as [|[k o] outs IH]; intros num error H; simpl in *.
  - auto.
  - destruct o as [a|e].
    + apply IH in H as [-> H]. split; auto. constructor; [now exists a | exact H].
    + apply IH in H as [H _]. now destruct error.
Qed.

Lemma add_errors_ok (outs : list (string * outcome)) :
  Forall (fun o => exists a, snd o = Ok a) outs ->
  forall num error, add_errors num error outs = error.
Proof.
  induction 1 as [|[k o] outs [a Ha] _ IH]; intros; simpl in *; auto.
  subst o. apply IH.
Qed.

Lemma add_errors_failed (outs : list (string * outcome)) :
  forall num error,
    Exists (fun o => exists e, snd o = Invalid e) outs ->
    add_errors num error outs <> [].
Proof.
  intros num error Hex Hnil. apply add_errors_nil in Hnil as [_ Hall].
  rewrite Forall_forall in Hall. apply Exists_exists in Hex as [o [Hin [e He]]].
  destruct (Hall o Hin) as [a Ha]. congruence.
Qed.

(** The entries that the loop builds when every child succeeds. *)
Lemma add_results_ok (outs : list (string * outcome)) (vals : list pyval) :
  Forall2 (fun o a => snd o = Ok a) outs vals ->
  forall result,
    NoDup (keys result ++ map fst outs) ->
    add_results result outs = result ++ combine (map fst outs) vals.
Proof.
  induction 1 as [|[k o] a outs vals Ha _ IH]; intros result Hnd; simpl in *.
  - now rewrite app_nil_r.
  - subst o.
    assert (Hk : ~ In k (keys result)).
    { apply NoDup_remove_2 in Hnd. intros Hin. apply Hnd. apply in_or_app. now left. }
    rewrite dict_set_fresh by exact Hk.
    rewrite IH.
    + now rewrite <- app_assoc.
    + unfold keys in *. rewrite map_app. simpl. now rewrite <- app_assoc.
Qed.

Lemma Forall_Ok_Forall2 (outs : list (string * outcome)) :
  Forall (fun o => exists a, snd o = Ok a) outs ->
  exists vals, Forall2 (fun o a => snd o = Ok a) outs vals.
Proof.
  induction 1 as [|o outs [a Ha] _ [vals IH]].
  - exists []. constructor.
  - exists (a :: vals). now constructor.
Qed.

Lemma Sequence_items_spec (subnode : SchemaNode) (value : list pyval) :
  forall num result error,
  exists res err,
    Sequence_items callback subnode num value result error = (result ++ res, error ++ err) /\
    (err = [] -> Forall2 (fun c a => callback subnode c = Ok a) value res) /\
    (Forall (fun c => exists a, callback subnode c = Ok a) value -> err = []).
Proof.
  induction value as [|c cs IH]; intros num result error; simpl.
  - exists [], []. rewrite !app_nil_r. repeat split; auto.
  - destruct (callback subnode c) as [a|e] eqn:E.
    + destruct (IH (S num) (result ++ [a]) error) as (res & err & H1 & H2 & H3).
      exists (a :: res), err. rewrite H1, <- app_assoc. repeat split.
      * intros Herr. constructor; auto.
      * intros Hall. inversion Hall; subst. auto.
    + destruct (IH (S num) result (error ++ [(num, e)])) as (res & err & H1 & H2 & H3).
      exists res, ((num, e) :: err). rewrite H1, <- app_assoc. repeat split.
      * discriminate.
      * intros Hall. inversion Hall as [|? ? [a Ha] ?]; subst. congruence.
Qed.

End Loops.

Lemma Mapping_impl_spec (callback : SchemaNode -> pyval -> outcome)
    (unknown : unknown_t) (children : list SchemaNode) (value : dict) :
  NoDup (map node_name children) ->
  Mapping_impl callback unknown children value =
  let outs := outcomes callback children value in
  let result := add_results [] outs in
  let error := add_errors 0 [] outs in
  match unknown with
  | raise =>
      match leftover children value with
      | [] => finish (PDict result) error
      | rest => Invalid (UnrecognizedKeys rest)
      end
  | preserve => finish (PDict (dict_update result (leftover children value))) error
  | ignore => finish (PDict result) error
  end.
Proof.
  intros Hnd. unfold Mapping_impl. rewrite Mapping_children_spec by exact Hnd.
  destruct unknown; try reflexivity.
  now destruct (leftover children value).
Qed.

(** ** Facts on [deserialize] *)

Section DeserializeFacts.

Variable py : python.

Lemma float_is_not_null (f : spec_float) :
  py_ne_zero (PFloat f) && negb (truthy (PFloat f)) = false.
Proof.
  destruct f as [s|s| |s m e]; try reflexivity.
  - destruct s; reflexivity.
  - replace (truthy (PFloat (S754_finite s m e))) with true
      by (destruct s; reflexivity).
    apply andb_false_r.
Qed.

Lemma int_is_not_null (z : Z) :
  py_ne_zero (PInt z) && negb (truthy (PInt z)) = false.
Proof.
  unfold py_ne_zero, truthy. simpl.
  destruct (Z.eqb_spec z 0) as [->|H]; simpl.
  - reflexivity.
  - apply andb_false_r.
Qed.

Lemma Float_deserialize_float (f : spec_float) :
  Number_deserialize (py_float py) (PFloat f) = Ok (PFloat f).
Proof. unfold Number_deserialize. now rewrite float_is_not_null. Qed.

Lemma Int_deserialize_int (z : Z) :
  Number_deserialize (py_int py) (PInt z) = Ok (PInt z).
Proof. unfold Number_deserialize. now rewrite int_is_not_null. Qed.

(** A node given [null] answers with its [missing] value. *)
Lemma deserialize_null (n : SchemaNode) :
  node_typ n <> Unconstructible ->
  deserialize py n Null =
  match node_missing n with Some m => Ok m | None => Invalid Required end.
Proof.
  destruct n as [nm t ch v m d]. simpl. intros Ht.
  destruct t; try reflexivity. congruence.
Qed.

(** [None] is [null] for a number or a string, but neither a sequence
    nor a mapping. *)
Lemma deserialize_None_scalar (n : SchemaNode) :
  node_typ n = Float \/ node_typ n = Int \/ node_typ n = String ->
  deserialize py n PNone =
  match node_missing n with Some m => Ok m | None => Invalid Required end.
Proof.
  destruct n as [nm t ch v m d]. simpl.
  intros [->|[->| ->]]; reflexivity.
Qed.

Lemma deserialize_None_Sequence (n : SchemaNode) :
  node_typ n = Sequence -> deserialize py n PNone = Invalid NotIterable.
Proof. destruct n as [nm t ch v m d]. simpl. now intros ->. Qed.

Lemma deserialize_None_Mapping (n : SchemaNode) (u : unknown_t) :
  node_typ n = Mapping u -> deserialize py n PNone = Invalid NotAMapping.
Proof. destruct n as [nm t ch v m d]. simpl. now intros ->. Qed.

Lemma deserialize_Mapping (nm : string) (u : unknown_t) (ch : list SchemaNode)
    (v : option validator_t) (m d : option pyval) (value : dict) :
  deserialize py (Node nm (Mapping u) ch v m d) (PDict value) =
  match Mapping_impl (deserialize py) u ch value with
  | Invalid e => Invalid e
  | Ok Null => match m with Some x => Ok x | None => Invalid Required end
  | Ok a => validated v a
  end.
Proof. reflexivity. Qed.

Lemma deserialize_Sequence (nm : string) (ch : list SchemaNode)
    (v : option validator_t) (m d : option pyval) (value : list pyval) :
  deserialize py (Node nm Sequence ch v m d) (PList value) =
  match Sequence_impl (deserialize py) ch value with
  | Invalid e => Invalid e
  | Ok Null => match m with Some x => Ok x | None => Invalid Required end
  | Ok a => validated v a
  end.
Proof. reflexivity. Qed.

Lemma finish_PDict_inv (r : dict) (error : list (nat * reason)) (a : pyval) :
  finish (PDict r) error = Ok a -> error = [] /\ a = PDict r.
Proof. destruct error; simpl; intros H; inversion H; auto. Qed.

(** A strict mapping refuses a dictionary with a key that no child
    declares, whatever the other keys hold. *)
Lemma strict_rejects_unknown (n : SchemaNode) (value : dict) (k : string) :
  node_typ n = Mapping raise ->
  NoDup (declared n) ->
  In k (keys value) -> ~ In k (declared n) ->
  exists rest, rest <> [] /\
    deserialize py n (PDict value) = Invalid (UnrecognizedKeys rest).
Proof.
  destruct n as [nm t ch v m d]. unfold declared. cbn [node_typ node_children].
  intros -> Hnd Hin Hnot.
  exists (leftover ch value).
  assert (Hne : leftover ch value <> []).
  { intros E. assert (H : In k (keys (leftover ch value))).
    { apply keys_leftover. auto. }
    rewrite E in H. exact H. }
  split; auto.
  rewrite deserialize_Mapping, Mapping_impl_spec by exact Hnd. simpl.
  destruct (leftover ch value); [congruence | reflexivity].
Qed.

(** A mapping fails as soon as one child fails on what it is given. *)
Lemma Mapping_child_fails (n c : SchemaNode) (u : unknown_t) (value : dict) (e : reason) :
  node_typ n = Mapping u ->
  NoDup (declared n) ->
  In c (node_children n) ->
  deserialize py c (arg_of value c) = Invalid e ->
  exists e', deserialize py n (PDict value) = Invalid e'.
Proof.
  destruct n as [nm t ch v m d]. unfold declared. cbn [node_typ node_children].
  intros -> Hnd Hin Hc.
  rewrite deserialize_Mapping, Mapping_impl_spec by exact Hnd. simpl.
  assert (Herr : add_errors 0 [] (outcomes (deserialize py) ch value) <> []).
  { apply add_errors_failed. apply Exists_exists.
    exists (node_name c, deserialize py c (arg_of value c)). split.
    - unfold outcomes. apply in_map_iff. eauto.
    - simpl. eauto. }
  destruct (add_errors 0 [] (outcomes (deserialize py) ch value)) eqn:E; [congruence|].
  destruct u; simpl; eauto.
  destruct (leftover ch value); simpl; eauto.
Qed.

(** What a successful mapping returns. *)
Lemma Mapping_succeeds_inv (n : SchemaNode) (u : unknown_t) (value : dict) (a : pyval) :
  node_typ n = Mapping u ->
  NoDup (declared n) ->
  deserialize py n (PDict value) = Ok a ->
  exists vals,
    Forall2 (fun c x => deserialize py c (arg_of value c) = Ok x) (node_children n) vals /\
    (u = raise -> leftover (node_children n) value = []) /\
    a = PDict (match u with
               | preserve => dict_update (combine (declared n) vals)
                                         (leftover (node_children n) value)
               | _ => combine (declared n) vals
               end).
Proof.
  destruct n as [nm t ch v m d]. unfold declared. cbn [node_typ node_children].
  intros -> Hnd.
  rewrite deserialize_Mapping, Mapping_impl_spec by exact Hnd. simpl.
  intros H.
  assert (Hfin : exists r, a = PDict r /\
            add_errors 0 [] (outcomes (deserialize py) ch value) = [] /\
            (u = raise -> leftover ch value = []) /\
            r = match u with
                | preserve => dict_update (add_results [] (outcomes (deserialize py) ch value))
                                          (leftover ch value)
                | _ => add_results [] (outcomes (deserialize py) ch value)
                end).
  { destruct u.
    - destruct (finish _ _) as [x|] eqn:F; [|discriminate].
      apply finish_PDict_inv in F as [F ->].
      unfold validated in H. eexists; repeat split; eauto; try discriminate.
      destruct v as [f|]; [destruct (f _)|]; congruence.
    - destruct (leftover ch value) eqn:L; [|discriminate].
      destruct (finish _ _) as [x|] eqn:F; [|discriminate].
      apply finish_PDict_inv in F as [F ->].
      unfold validated in H. eexists; repeat split; eauto.
      destruct v as [f|]; [destruct (f _)|]; congruence.
    - destruct (finish _ _) as [x|] eqn:F; [|discriminate].
      apply finish_PDict_inv in F as [F ->].
      unfold validated in H. eexists; repeat split; eauto; try discriminate.
      destruct v as [f|]; [destruct (f _)|]; congruence. }
  destruct Hfin as (r & -> & Herr & Hlo & ->).
  apply add_errors_nil in Herr as [_ Hall].
  destruct (Forall_Ok_Forall2 Hall) as [vals Hvals].
  exists vals. split; [|split; auto].
  - clear - Hvals. unfold outcomes in Hvals.
    revert vals Hvals. induction ch as [|c cs IH]; intros vals H; inversion H; subst.
    + constructor.
    + constructor; auto.
  - assert (Hres : add_results [] (outcomes (deserialize py) ch value) =
                   combine (map node_name ch) vals).
    { rewrite (add_results_ok Hvals); simpl.
      - unfold outcomes. now rewrite map_map.
      - unfold outcomes. now rewrite map_map. }
    now rewrite Hres.
Qed.

End DeserializeFacts.

(** ** Facts on the schemas of the module *)

Section SchemaFacts.

Variable py : python.
Variable K : constant.t.
Local Open Scope string_scope.

Lemma PositiveFloat_node :
  new PositiveFloat None =
  Node EmptyString Float [] (Some PositiveFloat_validator) None None.
Proof. reflexivity. Qed.

Lemma deserialize_Float_PFloat nm ch v m d (f : spec_float) :
  deserialize py (Node nm Float ch v m d) (PFloat f) = validated v (PFloat f).
Proof. cbn [deserialize]. now rewrite Float_deserialize_float. Qed.

Lemma deserialize_Int_PInt nm ch v m d (z : Z) :
  deserialize py (Node nm Int ch v m d) (PInt z) = validated v (PInt z).
Proof. cbn [deserialize]. now rewrite Int_deserialize_int. Qed.

Lemma deserialize_String_PStr nm ch v m d (s : string) :
  s <> EmptyString ->
  deserialize py (Node nm String ch v m d) (PStr s) = validated v (PStr s).
Proof.
  intros Hs. cbn [deserialize]. unfold String_deserialize. cbn [truthy].
  destruct (String.eqb_spec s EmptyString); [congruence | reflexivity].
Qed.

Ltac mapping_spec :=
  rewrite deserialize_Mapping, Mapping_impl_spec
    by (apply distinct_NoDup; reflexivity);
  cbv [outcomes map arg_of dict_pop dict_get fst snd node_name leftover fold_left
       dict_del filter negb String.eqb Ascii.eqb Bool.eqb].

Lemma SFcompare_antisym (a b : spec_float) :
  SFcompare b a = option_map CompOpp (SFcompare a b).
Proof.
  destruct a as [[|]|[|]| |[|] m1 e1], b as [[|]|[|]| |[|] m2 e2]; simpl;
    try reflexivity;
    rewrite (Z.compare_antisym e1 e2);
    destruct (e1 ?= e2)%Z; simpl; try reflexivity;
    change (Pos.compare_cont Eq m2 m1) with (Pos.compare m2 m1);
    change (Pos.compare_cont Eq m1 m2) with (Pos.compare m1 m2);
    rewrite (Pos.compare_antisym m1 m2); destruct (m1 ?= m2)%positive; reflexivity.
Qed.

Lemma SFleb_not_gt (a b : spec_float) :
  SFleb a b = true -> SFltb b a = false.
Proof.
  unfold SFleb, SFltb. rewrite (SFcompare_antisym a b).
  destruct (SFcompare a b) as [[| |]|]; simpl; congruence.
Qed.

Lemma Range_min_float (lo v : spec_float) :
  SFleb lo v = true -> Range (Some (PFloat lo)) None (PFloat v) = None.
Proof.
  intros H. unfold Range, py_lt. cbn [as_num num_compare].
  fold (SFltb v lo). now rewrite (SFleb_not_gt _ _ H).
Qed.

Lemma Range_min_max_float (lo hi v : spec_float) :
  SFleb lo v = true -> SFleb v hi = true ->
  Range (Some (PFloat lo)) (Some (PFloat hi)) (PFloat v) = None.
Proof.
  intros H1 H2. unfold Range, py_gt, py_lt. cbn [as_num num_compare].
  fold (SFltb v lo). fold (SFltb hi v).
  now rewrite (SFleb_not_gt _ _ H1), (SFleb_not_gt _ _ H2).
Qed.

Lemma Range_min_int (lo z : Z) :
  (lo <= z)%Z -> Range (Some (PInt lo)) None (PInt z) = None.
Proof.
  intros H. unfold Range, py_lt. cbn [as_num num_compare].
  destruct (Z.compare_spec z lo); try reflexivity; lia.
Qed.

Lemma Range_min_float_cases (lo v : spec_float) :
  Range (Some (PFloat lo)) None (PFloat v) =
  if SFltb v lo then Some BelowMin else None.
Proof. reflexivity. Qed.

Lemma arg_of_absent (value : dict) (c : SchemaNode) :
  dict_get (node_name c) value = None -> arg_of value c = Null.
Proof. intros H. unfold arg_of, dict_pop. now rewrite H. Qed.

Lemma Forall2_In_l {A B} (R : A -> B -> Prop) (l : list A) (l' : list B) (x : A) :
  Forall2 R l l' -> In x l -> exists y, In y l' /\ R x y.
Proof.
  induction 1 as [|a b l l' Hab _ IH]; simpl; [tauto|].
  intros [->|Hin]; [eauto|].
  destruct (IH Hin) as [y [Hy HR]]. eauto.
Qed.

(** A strict mapping whose children are all required accepts only the
    dictionaries that bind exactly the declared names. *)
Lemma strict_required_keys (n : SchemaNode) (value : dict) (a : pyval) :
  node_typ n = Mapping raise ->
  NoDup (declared n) ->
  Forall (fun c => node_missing c = None /\ node_typ c <> Unconstructible)
         (node_children n) ->
  deserialize py n (PDict value) = Ok a ->
  forall k, In k (keys value) <-> In k (declared n).
Proof.
  intros Ht Hnd Hreq H k.
  destruct (Mapping_succeeds_inv py n value Ht Hnd H) as (vals & Hvals & Hlo & _).
  specialize (Hlo eq_refl). split.
  - intros Hin. destruct (in_dec string_dec k (declared n)) as [|Hnot]; auto.
    assert (Hk : In k (keys (leftover (node_children n) value))).
    { apply keys_leftover. auto. }
    rewrite Hlo in Hk. destruct Hk.
  - intros Hin. unfold declared in Hin. apply in_map_iff in Hin as [c [<- Hc]].
    destruct (Forall2_In_l _ Hvals Hc) as [x [_ Hx]].
    rewrite Forall_forall in Hreq. destruct (Hreq c Hc) as [Hm Hty].
    destruct (dict_get (node_name c) value) eqn:E.
    + destruct (in_dec string_dec (node_name c) (keys value)) as [|Hnot]; auto.
      apply dict_get_None_not_In in Hnot. congruence.
    + rewrite arg_of_absent in Hx by exact E.
      rewrite deserialize_null in Hx by exact Hty. rewrite Hm in Hx. discriminate.
Qed.

Lemma Forall2_eq_Ok (f : pyval -> outcome) (l r r' : list pyval) :
  Forall2 (fun c a => f c = Ok a) l r ->
  Forall2 (fun c a => f c = Ok a) l r' -> r = r'.
Proof.
  intros H. revert r'. induction H as [|c a l r Hc _ IH]; intros r' H'; inversion H'; subst.
  - reflexivity.
  - f_equal; [congruence | auto].
Qed.

(** A sequence without validator succeeds when every item does. *)
Lemma deserialize_Sequence_ok nm c cs m d (value res : list pyval) :
  Forall2 (fun x a => deserialize py c x = Ok a) value res ->
  deserialize py (Node nm Sequence (c :: cs) None m d) (PList value) = Ok (PList res).
Proof.
  intros H. rewrite deserialize_Sequence. unfold Sequence_impl.
  destruct (Sequence_items_spec (deserialize py) c value 0 [] [])
    as (res' & err & E & H2 & H3).
  rewrite E. simpl.
  assert (Herr : err = []).
  { apply H3. clear - H. induction H; constructor; eauto. }
  subst err. rewrite (Forall2_eq_Ok _ H (H2 eq_refl)). reflexivity.
Qed.

Lemma ListOfFloats_floats nm m (l : list spec_float) :
  deserialize py (Node nm Sequence [Node "float_in_list" Float [] None None None] None m None)
              (PList (map PFloat l))
  = Ok (PList (map PFloat l)).
Proof.
  apply deserialize_Sequence_ok.
  induction l; cbn [map]; constructor; auto.
  apply deserialize_Float_PFloat.
Qed.

Lemma combine_get (R : SchemaNode -> pyval -> Prop) (chs : list SchemaNode)
    (vals : list pyval) (c : SchemaNode) :
  Forall2 R chs vals -> NoDup (map node_name chs) -> In c chs ->
  exists x, dict_get (node_name c) (combine (map node_name chs) vals) = Some x /\ R c x.
Proof.
  induction 1 as [|c0 x0 chs vals H0 _ IH]; intros Hnd Hin; [destruct Hin|].
  cbn [map combine dict_get]. inversion Hnd as [|? ? Hnot Hnd']; subst.
  destruct Hin as [->|Hin].
  - rewrite String.eqb_refl. eauto.
  - destruct (String.eqb_spec (node_name c) (node_name c0)) as [E|_].
    + exfalso. apply Hnot. rewrite <- E. now apply in_map.
    + auto.
Qed.

(** A field left out of a strict mapping comes back with the [missing]
    value of its node. *)
Lemma omitted_field_gets_missing (n c : SchemaNode) (value : dict) (a m : pyval) :
  node_typ n = Mapping raise ->
  NoDup (declared n) ->
  deserialize py n (PDict value) = Ok a ->
  In c (node_children n) ->
  node_missing c = Some m ->
  node_typ c <> Unconstructible ->
  dict_get (node_name c) value = None ->
  exists d, a = PDict d /\ dict_get (node_name c) d = Some m.
Proof.
  intros Ht Hnd H Hc Hm Hty Habs.
  destruct (Mapping_succeeds_inv py n value Ht Hnd H) as (vals & Hvals & _ & ->).
  eexists. split; [reflexivity|].
  destruct (combine_get _ Hvals Hnd Hc) as [x [Hx Hd]].
  unfold declared. rewrite Hx.
  rewrite arg_of_absent in Hd by exact Habs.
  rewrite deserialize_null, Hm in Hd by exact Hty. congruence.
Qed.

Lemma schema_nodes_checked (cls : pyclass) (missing : option pyval) :
  In cls (schema_classes py K) ->
  forallb closed_or_declared_open (nodes_of (new cls missing)) = true
  /\ node_typ (new cls missing) = Mapping raise.
Proof.
  unfold schema_classes. cbn [In]. intros H.
  repeat (destruct H as [<-|H]; [split; vm_compute; reflexivity|]).
  destruct H.
Qed.

Lemma open_mapping_preserves nm m d (value : dict) :
  NoDup (keys value) ->
  deserialize py (Node nm (Mapping preserve) [] None m d) (PDict value) = Ok (PDict value).
Proof.
  intros Hnd. rewrite deserialize_Mapping. unfold Mapping_impl. cbn [Mapping_children].
  rewrite dict_update_fresh by exact Hnd. reflexivity.
Qed.

Lemma deserialize_eq nm t ch v m d (c : pyval) :
  deserialize py (Node nm t ch v m d) c = after_typ v m (typ_deserialize py t ch c).
Proof. destruct t; reflexivity. Qed.

Lemma validated_Ok v (x a : pyval) : validated v x = Ok a -> a = x.
Proof.
  unfold validated. destruct v as [f|]; [destruct (f x)|]; congruence.
Qed.

Lemma after_typ_Ok v m (r : outcome) (a : pyval) :
  after_typ v m r = Ok a ->
  (r = Ok Null /\ m = Some a) \/
  (r = Ok a /\ a <> Null /\ validated v a = Ok a).
Proof.
  destruct r as [x|e]; [|discriminate]. simpl.
  destruct x; try (intros H; right; pose proof (validated_Ok _ _ H) as ->;
                   repeat split; [discriminate | exact H]).
  destruct m; [|discriminate]. intros H; left. split; congruence.
Qed.

Lemma after_typ_value v m (a : pyval) :
  a <> Null -> after_typ v m (Ok a) = validated v a.
Proof. destruct a; simpl; congruence. Qed.

Lemma SchemaNode_induction (P : SchemaNode -> Prop) :
  (forall nm t ch v m d, Forall P ch -> P (Node nm t ch v m d)) ->
  forall n, P n.
Proof.
  intros Hnode. fix IH 1. intros [nm t ch v m d]. apply Hnode.
  induction ch as [|c cs IHcs]; constructor; [apply IH | exact IHcs].
Qed.

Lemma py_float_shape (c x : pyval) :
  py_float py c = Some x -> exists f, x = PFloat f.
Proof.
  destruct c; simpl; try discriminate.
  - destruct (float_of_Z (Z.b2z b)); simpl; intros H; inversion H; eauto.
  - destruct (float_of_Z z); simpl; intros H; inversion H; eauto.
  - intros H; inversion H; eauto.
  - destruct (float_of_str py s); simpl; intros H; inversion H; eauto.
Qed.

Lemma py_int_shape (c x : pyval) :
  py_int py c = Some x -> exists z, x = PInt z.
Proof.
  destruct c; simpl; try discriminate.
  - intros H; inversion H; eauto.
  - intros H; inversion H; eauto.
  - destruct (Z_of_float f); simpl; intros H; inversion H; eauto.
  - destruct (int_of_str py s); simpl; intros H; inversion H; eauto.
Qed.

Lemma Number_deserialize_Ok num (c a : pyval) :
  Number_deserialize num c = Ok a -> a = Null \/ num c = Some a.
Proof.
  unfold Number_deserialize.
  destruct (py_ne_zero c && negb (truthy c)).
  - intros H; inversion H; auto.
  - destruct (num c); [|discriminate]. intros H; inversion H; auto.
Qed.

Lemma String_deserialize_Ok (c a : pyval) :
  String_deserialize c = Ok a -> a = Null \/ exists s, a = PStr s /\ s <> EmptyString.
Proof.
  unfold String_deserialize.
  destruct (truthy c) eqn:T; simpl.
  - intros H. right. destruct c; inversion H; subst.
    exists s. split; auto. simpl in T. intros ->. discriminate.
  - intros H; inversion H; auto.
Qed.

Lemma Forall2_impl_In {A B} (R R' : A -> B -> Prop) (l : list A) (l' : list B) :
  Forall2 R l l' ->
  (forall x y, In x l -> R x y -> R' x y) ->
  Forall2 R' l l'.
Proof.
  induction 1 as [|x y l l' Hxy _ IH]; intros Himp; constructor.
  - apply Himp; [now left | exact Hxy].
  - apply IH. intros x' y' Hin. apply Himp. now right.
Qed.

Lemma Forall2_outcomes (cb : SchemaNode -> pyval -> outcome) (ch : list SchemaNode)
    (value : dict) (vals : list pyval) :
  Forall2 (fun c x => cb c (arg_of value c) = Ok x) ch vals ->
  Forall2 (fun o a => snd o = Ok a) (outcomes cb ch value) vals.
Proof. induction 1; cbn [outcomes map]; constructor; auto. Qed.

Lemma outcomes_Forall2 (cb : SchemaNode -> pyval -> outcome) (ch : list SchemaNode)
    (value : dict) (vals : list pyval) :
  Forall2 (fun o a => snd o = Ok a) (outcomes cb ch value) vals ->
  Forall2 (fun c x => cb c (arg_of value c) = Ok x) ch vals.
Proof.
  revert vals. induction ch as [|c cs IH]; intros vals H; inversion H; subst;
    constructor; auto.
Qed.

Lemma Mapping_impl_ok (cb : SchemaNode -> pyval -> outcome) (u : unknown_t)
    (ch : list SchemaNode) (value : dict) (vals : list pyval) :
  NoDup (map node_name ch) ->
  Forall2 (fun c x => cb c (arg_of value c) = Ok x) ch vals ->
  Mapping_impl cb u ch value =
  match u with
  | raise =>
      match leftover ch value with
      | [] => Ok (PDict (combine (map node_name ch) vals))
      | rest => Invalid (UnrecognizedKeys rest)
      end
  | preserve => Ok (PDict (dict_update (combine (map node_name ch) vals) (leftover ch value)))
  | ignore => Ok (PDict (combine (map node_name ch) vals))
  end.
Proof.
  intros Hnd H. rewrite Mapping_impl_spec by exact Hnd. cbv zeta.
  pose proof (@Forall2_outcomes cb ch value vals H) as Ho.
  assert (Hres : add_results [] (outcomes cb ch value) = combine (map node_name ch) vals).
  { rewrite (add_results_ok Ho); simpl; unfold outcomes; now rewrite map_map. }
  assert (Herr : add_errors 0 [] (outcomes cb ch value) = []).
  { apply add_errors_ok. clear - Ho. induction Ho; constructor; eauto. }
  rewrite Hres, Herr. destruct u; reflexivity.
Qed.

Lemma Mapping_impl_inv (cb : SchemaNode -> pyval -> outcome) (u : unknown_t)
    (ch : list SchemaNode) (value : dict) (a : pyval) :
  NoDup (map node_name ch) ->
  Mapping_impl cb u ch value = Ok a ->
  exists vals,
    Forall2 (fun c x => cb c (arg_of value c) = Ok x) ch vals /\
    (u = raise -> leftover ch value = []) /\
    a = PDict (match u with
               | preserve => dict_update (combine (map node_name ch) vals) (leftover ch value)
               | _ => combine (map node_name ch) vals
               end).
Proof.
  intros Hnd H.
  assert (Herr : add_errors 0 [] (outcomes cb ch value) = []).
  { rewrite Mapping_impl_spec in H by exact Hnd. cbv zeta in H.
    destruct (add_errors 0 [] (outcomes cb ch value)); auto.
    destruct u; try discriminate. destruct (leftover ch value); discriminate. }
  apply add_errors_nil in Herr as [_ Hall].
  destruct (Forall_Ok_Forall2 Hall) as [vals Hvals].
  apply outcomes_Forall2 in Hvals.
  rewrite (@Mapping_impl_ok cb u ch value vals Hnd Hvals) in H.
  exists vals. split; [exact Hvals|].
  destruct u.
  - split; [discriminate | congruence].
  - destruct (leftover ch value); [|discriminate]. split; [auto | congruence].
  - split; [discriminate | congruence].
Qed.

Lemma Sequence_impl_ok (cb : SchemaNode -> pyval -> outcome) c cs (l res : list pyval) :
  Forall2 (fun x a => cb c x = Ok a) l res ->
  Sequence_impl cb (c :: cs) l = Ok (PList res).
Proof.
  intros H. unfold Sequence_impl.
  destruct (Sequence_items_spec cb c l 0 [] []) as (res' & err & E & H2 & H3).
  rewrite E. simpl.
  assert (Herr : err = []).
  { apply H3. clear - H. induction H; constructor; eauto. }
  subst err. rewrite (Forall2_eq_Ok _ H (H2 eq_refl)). reflexivity.
Qed.

Lemma Sequence_impl_inv (cb : SchemaNode -> pyval -> outcome) (ch : list SchemaNode)
    (l : list pyval) (a : pyval) :
  Sequence_impl cb ch l = Ok a ->
  (ch = [] /\ l = [] /\ a = PList []) \/
  (exists c cs res, ch = c :: cs /\ Forall2 (fun x y => cb c x = Ok y) l res /\ a = PList res).
Proof.
  unfold Sequence_impl. destruct ch as [|c cs].
  - destruct l; [|discriminate]. intros H; inversion H. auto.
  - destruct (Sequence_items_spec cb c l 0 [] []) as (res & err & E & H2 & H3).
    rewrite E. simpl. intros H. right.
    destruct err; [|discriminate]. inversion H.
    exists c, cs, res. auto.
Qed.

Lemma keys_dict_set (k : string) (v : pyval) (d : dict) :
  keys (dict_set k v d) = if existsb (String.eqb k) (keys d) then keys d else (keys d ++ [k])%list.
Proof.
  induction d as [|[k' v'] d IH]; simpl; auto.
  destruct (String.eqb_spec k k') as [->|Hne]; simpl; auto.
  rewrite IH. now destruct (existsb (String.eqb k) (keys d)).
Qed.

Lemma NoDup_keys_dict_set (k : string) (v : pyval) (d : dict) :
  NoDup (keys d) -> NoDup (keys (dict_set k v d)).
Proof.
  intros H. rewrite keys_dict_set.
  destruct (existsb (String.eqb k) (keys d)) eqn:E; auto.
  apply NoDup_app; auto.
  - repeat constructor. simpl. tauto.
  - intros x Hx [E'|[]]. subst x.
    assert (existsb (String.eqb k) (keys d) = true); [|congruence].
    apply existsb_exists. exists k. split; auto. apply String.eqb_refl.
Qed.

Lemma NoDup_keys_dict_update (d other : dict) :
  NoDup (keys d) -> NoDup (keys (dict_update d other)).
Proof.
  revert d. induction other as [|[k v] other IH]; intros d H; simpl; auto.
  apply IH. now apply NoDup_keys_dict_set.
Qed.

Lemma dict_update_idem (value : dict) :
  dict_update [] (dict_update [] value) = dict_update [] value.
Proof.
  apply (dict_update_fresh []). simpl. apply NoDup_keys_dict_update. constructor.
Qed.

Lemma leftover_combine (ch : list SchemaNode) (vals : list pyval) :
  leftover ch (combine (map node_name ch) vals) = [].
Proof.
  destruct (leftover ch (combine (map node_name ch) vals)) as [|[k v] rest] eqn:E; auto.
  assert (H : In k (keys (leftover ch (combine (map node_name ch) vals)))).
  { rewrite E. now left. }
  apply keys_leftover in H as [Hin Hnot]. exfalso. apply Hnot.
  unfold keys in Hin. apply in_map_iff in Hin as [[k' v'] [<- Hin]].
  now apply in_combine_l in Hin.
Qed.

Lemma stable_missing (n : SchemaNode) (m : pyval) :
  stable py n -> node_missing n = Some m -> none_free n m = true ->
  deserialize py n m = Ok m.
Proof.
  destruct n as [nm t ch v mi d]. intros (H & _ & _) Hm. cbn [node_missing] in Hm.
  subst mi. exact H.
Qed.

Lemma stable_shape (n : SchemaNode) :
  stable py n ->
  match node_typ n with
  | Mapping preserve => node_children n = []
  | Mapping _ => NoDup (declared n)
  | _ => True
  end.
Proof. destruct n as [nm t ch v mi d]. intros (_ & H & _). exact H. Qed.

Lemma stable_children (n : SchemaNode) :
  stable py n -> Forall (stable py) (node_children n).
Proof.
  destruct n as [nm t ch v mi d]. intros (_ & _ & H). cbn [node_children].
  induction ch as [|c cs IH]; constructor.
  - apply H.
  - apply IH, H.
Qed.

Lemma none_free_Mapping nm u ch v m d (out : dict) (c : SchemaNode) (x : pyval) :
  none_free (Node nm (Mapping u) ch v m d) (PDict out) = true ->
  In c ch -> dict_get (node_name c) out = Some x -> none_free c x = true.
Proof.
  cbn [none_free]. induction ch as [|c0 cs IH]; intros H Hin Hx; [destruct Hin|].
  apply andb_prop in H as [H0 H]. destruct Hin as [->|Hin].
  - now rewrite Hx in H0.
  - auto.
Qed.

Lemma none_free_Sequence nm c cs v m d (l : list pyval) :
  none_free (Node nm Sequence (c :: cs) v m d) (PList l) = true ->
  Forall (fun x => none_free c x = true) l.
Proof. cbn [none_free]. intros H. apply Forall_forall. now apply forallb_forall. Qed.

Lemma arg_of_present (value : dict) (c : SchemaNode) (x : pyval) :
  dict_get (node_name c) value = Some x -> arg_of value c = x.
Proof. intros H. unfold arg_of, dict_pop. now rewrite H. Qed.

(** Deserializing an accepted output again gives it back, as long as no
    sequence- or mapping-typed field of it holds [None]. *)
Lemma deserialize_idempotent (n : SchemaNode) :
  stable py n ->
  forall c a, deserialize py n c = Ok a -> none_free n a = true ->
              deserialize py n a = Ok a.
Proof.
  induction n as [nm t ch v m d IH] using SchemaNode_induction.
  intros Hst c a H Hcl.
  rewrite deserialize_eq in H. apply after_typ_Ok in H as [[Hr Hm]|(Hr & Hnn & Hv)].
  { apply stable_missing; auto. }
  rewrite deserialize_eq.
  enough (E : typ_deserialize py t ch a = Ok a).
  { rewrite E, after_typ_value by exact Hnn. exact Hv. }
  pose proof (stable_shape _ Hst) as Hshape.
  pose proof (stable_children _ Hst) as Hch.
  cbn [node_typ node_children] in Hshape, Hch. unfold declared in Hshape.
  cbn [node_children] in Hshape.
  destruct t as [| | |u| |]; cbn [typ_deserialize] in Hr |- *.
  - apply Number_deserialize_Ok in Hr as [->|Hr]; [congruence|].
    apply py_float_shape in Hr as [f ->]. apply Float_deserialize_float.
  - apply Number_deserialize_Ok in Hr as [->|Hr]; [congruence|].
    apply py_int_shape in Hr as [z ->]. apply Int_deserialize_int.
  - apply String_deserialize_Ok in Hr as [->|[s [-> Hs]]]; [congruence|].
    unfold String_deserialize. cbn [truthy].
    destruct (String.eqb_spec s EmptyString); [congruence | reflexivity].
  - destruct c as [| | | | | | |value]; try discriminate; [congruence|].
    assert (Hnd : NoDup (map node_name ch)).
    { destruct u; auto. rewrite Hshape. constructor. }
    destruct (@Mapping_impl_inv _ u ch value a Hnd Hr) as (vals & Hvals & Hlo & ->).
    destruct u.
    + (* ignore *)
      assert (H2 : Forall2 (fun c x => deserialize py c
                     (arg_of (combine (map node_name ch) vals) c) = Ok x) ch vals).
      { apply Forall2_impl_In with (1 := Hvals). intros c x Hin Hc.
        destruct (combine_get _ Hvals Hnd Hin) as [x' [Hx' Hc']].
        assert (x' = x) by congruence. subst x'.
        rewrite (arg_of_present _ _ Hx').
        rewrite Forall_forall in IH, Hch.
        apply (IH c Hin (Hch c Hin) _ _ Hc).
        eapply none_free_Mapping; eauto. }
      rewrite (@Mapping_impl_ok _ ignore ch _ vals Hnd H2). reflexivity.
    + (* raise *)
      assert (H2 : Forall2 (fun c x => deserialize py c
                     (arg_of (combine (map node_name ch) vals) c) = Ok x) ch vals).
      { apply Forall2_impl_In with (1 := Hvals). intros c x Hin Hc.
        destruct (combine_get _ Hvals Hnd Hin) as [x' [Hx' Hc']].
        assert (x' = x) by congruence. subst x'.
        rewrite (arg_of_present _ _ Hx').
        rewrite Forall_forall in IH, Hch.
        apply (IH c Hin (Hch c Hin) _ _ Hc).
        eapply none_free_Mapping; eauto. }
      rewrite (@Mapping_impl_ok _ raise ch _ vals Hnd H2), leftover_combine. reflexivity.
    + (* preserve *)
      subst ch. inversion Hvals; subst. cbn [map combine leftover fold_left].
      unfold Mapping_impl. cbn [Mapping_children]. now rewrite dict_update_idem.
  - destruct c as [| | | | | |l|]; try discriminate; [congruence|].
    apply Sequence_impl_inv in Hr as [(-> & -> & ->)|(c0 & cs & res & -> & Hres & ->)].
    + reflexivity.
    + apply Sequence_impl_ok.
      inversion IH as [|? ? IH0 _]; subst. inversion Hch as [|? ? Hst0 _]; subst.
      pose proof (none_free_Sequence _ _ _ _ _ _ _ Hcl) as Hcl'.
      clear - Hres IH0 Hst0 Hcl'.
      induction Hres as [|x y l res Hxy _ IHres]; constructor.
      * inversion Hcl'; subst. eapply IH0; eauto.
      * inversion Hcl'; subst. auto.
  - discriminate.
Qed.

Lemma CovarianceInfo_default :
  at_import (deserialize py (new (CovarianceInfo K) None) (PDict [])) =
  Some (PDict [("covariance_type", PStr (constant.SQUARE_EXPONENTIAL_COVARIANCE_TYPE K));
               ("hyperparameters", PNone)]).
Proof. reflexivity. Qed.

Lemma OptimizerInfo_default :
  at_import (deserialize py (new (OptimizerInfo K) None) (PDict [])) =
  Some (PDict [("optimizer_type", PNone); ("num_multistarts", PNone);
               ("num_random_samples", PNone); ("optimizer_parameters", PNone)]).
Proof. reflexivity. Qed.

Lemma Range_min_max_int (lo hi z : Z) :
  (lo <= z)%Z -> (z <= hi)%Z ->
  Range (Some (PInt lo)) (Some (PInt hi)) (PInt z) = None.
Proof.
  intros H1 H2. unfold Range, py_gt, py_lt. cbn [as_num num_compare].
  destruct (Z.compare_spec z lo); try lia; destruct (Z.compare_spec hi z); try lia; reflexivity.
Qed.

Lemma default_string_ok nm ch (choices : list string) (s : string) d :
  In s choices ->
  deserialize py (Node nm String ch (Some (OneOf choices)) (Some (PStr s)) d) (PStr s)
  = Ok (PStr s).
Proof.
  intros Hin. destruct (String.eqb_spec s EmptyString) as [->|Hs].
  - reflexivity.
  - rewrite deserialize_String_PStr by exact Hs. unfold validated, OneOf.
    replace (existsb (String.eqb s) choices) with true; auto.
    symmetry. apply existsb_exists. exists s. split; auto. apply String.eqb_refl.
Qed.

Ltac stable_leaf Hok :=
  lazymatch goal with
  | |- True => exact I
  | |- NoDup _ => apply distinct_NoDup; reflexivity
  | |- false = true -> _ => discriminate
  | |- @eq (list _) _ _ => reflexivity
  | |- true = true -> deserialize _ (Node _ Int _ _ _ _) (PInt _) = _ =>
      intros _; rewrite deserialize_Int_PInt; unfold validated;
      first [ rewrite Range_min_int by (reflexivity || apply Hok)
            | rewrite Range_min_max_int by (reflexivity || apply Hok) ];
      reflexivity
  | |- true = true -> deserialize _ (Node _ Float _ None _ _) (PFloat _) = _ =>
      intros _; rewrite deserialize_Float_PFloat; reflexivity
  | |- true = true -> deserialize _ (Node _ Float _ _ _ _) (PFloat _) = _ =>
      intros _; rewrite deserialize_Float_PFloat; unfold validated;
      rewrite Range_min_float by (reflexivity || apply Hok); reflexivity
  | |- true = true -> deserialize _ (Node _ String _ _ _ _) (PStr _) = _ =>
      intros _; apply default_string_ok; apply Hok
  | |- true = true -> _ => intros _; reflexivity
  end.

Lemma stable_GpEiRequest (Hok : constants_ok K) : stable py (new (GpEiRequest py K) None).
Proof.
  unfold GpEiRequest. rewrite CovarianceInfo_default.
  cbv -[Range OneOf PositiveFloat_validator deserialize].
  repeat split; stable_leaf Hok.
Qed.

Ltac prove_stable Hok :=
  rewrite ?CovarianceInfo_default, ?OptimizerInfo_default;
  cbv -[Range OneOf PositiveFloat_validator deserialize];
  repeat split; stable_leaf Hok.

Lemma stable_GpMeanVarRequest (Hok : constants_ok K) :
  stable py (new (GpMeanVarRequest py K) None).
Proof. unfold GpMeanVarRequest. prove_stable Hok. Qed.

Lemma stable_GpHyperOptRequest (Hok : constants_ok K) :
  stable py (new (GpHyperOptRequest py K) None).
Proof. unfold GpHyperOptRequest. prove_stable Hok. Qed.

Lemma stable_GpNextPointsRequest (Hok : constants_ok K) :
  stable py (new (GpNextPointsRequest py K) None).
Proof. unfold GpNextPointsRequest. prove_stable Hok. Qed.

Lemma stable_GpNextPointsConstantLiarRequest (Hok : constants_ok K) :
  stable py (new (GpNextPointsConstantLiarRequest py K) None).
Proof.
  unfold GpNextPointsConstantLiarRequest, GpNextPointsRequest. prove_stable Hok.
Qed.

Lemma stable_GpNextPointsKrigingRequest (Hok : constants_ok K) :
  stable py (new (GpNextPointsKrigingRequest py K) None).
Proof.
  unfold GpNextPointsKrigingRequest, GpNextPointsRequest. prove_stable Hok.
Qed.

(** [CovarianceInfo] refuses [None] for the hyperparameters: the
    sequence type takes it for a value that is not iterable. *)
Lemma CovarianceInfo_refuses_None_hyperparameters (missing : option pyval) (value : dict) :
  dict_get "hyperparameters" value = Some PNone ->
  exists e, deserialize py (new (CovarianceInfo K) missing) (PDict value) = Invalid e.
Proof.
  intros H.
  pose (c := set_name "hyperparameters" (new ListOfPositiveFloats (Some PNone))).
  apply (@Mapping_child_fails py (new (CovarianceInfo K) missing) c raise value NotIterable).
  - reflexivity.
  - apply distinct_NoDup. reflexivity.
  - right; left; reflexivity.
  - rewrite (@arg_of_present value c PNone H). reflexivity.
Qed.

(** [OptimizerInfo] refuses [None] for the optimizer parameters. *)
Lemma OptimizerInfo_refuses_None_parameters (missing : option pyval) (value : dict) :
  dict_get "optimizer_parameters" value = Some PNone ->
  exists e, deserialize py (new (OptimizerInfo K) missing) (PDict value) = Invalid e.
Proof.
  intros H.
  pose (c := Node "optimizer_parameters" (Mapping preserve) [] None (Some PNone) None).
  apply (@Mapping_child_fails py (new (OptimizerInfo K) missing) c raise value NotAMapping).
  - reflexivity.
  - apply distinct_NoDup. reflexivity.
  - do 3 right; left; reflexivity.
  - rewrite (@arg_of_present value c PNone H). reflexivity.
Qed.

(** Hence no request schema accepts an output whose covariance
    information holds [None] for the hyperparameters, as the defaulted
    one does. *)
Lemma None_hyperparameters_are_refused (cls : pyclass) (value cov : dict) :
  In cls (request_schemas py K) ->
  dict_get "covariance_info" value = Some (PDict cov) ->
  dict_get "hyperparameters" cov = Some PNone ->
  exists e, deserialize py (new cls None) (PDict value) = Invalid e.
Proof.
  intros Hcls Hcov Hhyp.
  pose (c := set_name "covariance_info"
               (new (CovarianceInfo K)
                    (at_import (deserialize py (new (CovarianceInfo K) None) (PDict []))))).
  assert (Hc : exists e, deserialize py c (arg_of value c) = Invalid e).
  { rewrite (@arg_of_present value c (PDict cov) Hcov).
    destruct (CovarianceInfo_refuses_None_hyperparameters
                (at_import (deserialize py (new (CovarianceInfo K) None) (PDict []))) 
                cov Hhyp) as [e He].
    exists e. rewrite <- He. reflexivity. }
  destruct Hc as [e Hc].
  unfold request_schemas in Hcls. cbn [In] in Hcls.
  destruct Hcls as [<-|[<-|[<-|[<-|[<-|[<-|[]]]]]]];
    (eapply (@Mapping_child_fails py _ c raise value e);
     [ reflexivity
     | apply distinct_NoDup; reflexivity
     | cbn; tauto
     | exact Hc ]).
Qed.

(** ** The claims *)

(** C1. Every schema class of the module is a strict mapping, and so is
    every mapping node of its tree but the two open fields: a strict
    node refuses any dictionary with a key it does not declare, with
    [Unrecognized keys]; the open fields [optimizer_parameters] (of
    [OptimizerInfo]) and [optimizer_success] (of the two status schemas)
    accept any dictionary and return it unchanged, also inside their
    enclosing schemas. *)
Theorem closed_schemas_reject_unknown_keys (cls : pyclass) (missing : option pyval)
    (n : SchemaNode) (value : dict) (ei ll : spec_float) (grad : list spec_float)
    (Hcls : In cls (schema_classes py K))
    (Hn : In n (nodes_of (new cls missing)))
    (Hvalue : NoDup (keys value))
    (Hei : SFleb f0_0 ei = true) :
  node_typ (new cls missing) = Mapping raise
  /\ match node_typ n with
     | Mapping raise =>
         forall input k, In k (keys input) -> ~ In k (declared n) ->
           exists rest, rest <> [] /\
             deserialize py n (PDict input) = Invalid (UnrecognizedKeys rest)
     | Mapping preserve =>
         (node_name n = "optimizer_parameters" \/ node_name n = "optimizer_success")
         /\ deserialize py n (PDict value) = Ok (PDict value)
     | Mapping ignore => False
     | _ => True
     end
  /\ deserialize py (new (OptimizerInfo K) None)
       (PDict [("optimizer_parameters", PDict value)])
     = Ok (PDict [("optimizer_type", PNone); ("num_multistarts", PNone);
                  ("num_random_samples", PNone);
                  ("optimizer_parameters", PDict value)])
  /\ deserialize py (new GpNextPointsStatus None)
       (PDict [("expected_improvement", PFloat ei); ("optimizer_success", PDict value)])
     = Ok (PDict [("expected_improvement", PFloat ei);
                  ("optimizer_success", PDict value)])
  /\ deserialize py (new GpHyperOptStatus None)
       (PDict [("log_likelihood", PFloat ll);
               ("grad_log_likelihood", PList (map PFloat grad));
               ("optimizer_success", PDict value)])
     = Ok (PDict [("log_likelihood", PFloat ll);
                  ("grad_log_likelihood", PList (map PFloat grad));
                  ("optimizer_success", PDict value)]).
Proof.
  destruct (@schema_nodes_checked cls missing Hcls) as [Hall Hroot].
  split; [exact Hroot|]. split; [|split; [|split]].
  - rewrite forallb_forall in Hall. specialize (Hall n Hn).
    destruct n as [nm t ch v m d]. cbn [closed_or_declared_open] in Hall.
    cbn [node_typ]. destruct t as [| | |[| |]| |]; try exact I; try discriminate.
    + intros input k Hin Hnot.
      apply strict_rejects_unknown with (k := k); auto.
      apply distinct_NoDup. exact Hall.
    + destruct ch; [|discriminate]. destruct v; [discriminate|].
      split.
      * cbn [node_name]. apply orb_prop in Hall as [H|H];
          apply String.eqb_eq in H; auto.
      * apply open_mapping_preserves. exact Hvalue.
  - assert (N : new (OptimizerInfo K) None =
      Node EmptyString (Mapping raise)
        [Node "optimizer_type" String [] (Some (OneOf (constant.OPTIMIZER_TYPES K)))
              (Some PNone) None;
         Node "num_multistarts" Int [] (Some (Range (Some (PInt 1)) None)) (Some PNone) None;
         Node "num_random_samples" Int [] (Some (Range (Some (PInt 0)) None))
              (Some PNone) None;
         Node "optimizer_parameters" (Mapping preserve) [] None (Some PNone) None]
        None None None) by reflexivity.
    rewrite N. mapping_spec. rewrite open_mapping_preserves by exact Hvalue. reflexivity.
  - assert (N : new GpNextPointsStatus None =
      Node EmptyString (Mapping raise)
        [Node "expected_improvement" Float [] (Some (Range (Some (PFloat f0_0)) None))
              None None;
         Node "optimizer_success" (Mapping preserve) [] None None
              (Some (PDict [("found_update", PBool false)]))]
        None None None) by reflexivity.
    rewrite N. mapping_spec.
    rewrite open_mapping_preserves, deserialize_Float_PFloat by exact Hvalue.
    unfold validated. rewrite Range_min_float by exact Hei. reflexivity.
  - assert (N : new GpHyperOptStatus None =
      Node EmptyString (Mapping raise)
        [Node "log_likelihood" Float [] None None None;
         Node "grad_log_likelihood" Sequence
              [Node "float_in_list" Float [] None None None] None None None;
         Node "optimizer_success" (Mapping preserve) [] None None
              (Some (PDict [("found_update", PBool false)]))]
        None None None) by reflexivity.
    rewrite N. mapping_spec.
    rewrite open_mapping_preserves, deserialize_Float_PFloat, ListOfFloats_floats
      by exact Hvalue.
    reflexivity.
Qed.

(** C2. [PositiveFloat] accepts a float [v] exactly when
    [0.0 < v < inf], that is when [v] is finite and positive; both
    zeros, the negative floats, both infinities and NaN are refused. *)
Theorem PositiveFloat_accepts_iff_positive_finite (v : spec_float) :
  deserialize py (new PositiveFloat None) (PFloat v) =
    (if SFltb f0_0 v && SFltb v float_inf
     then Ok (PFloat v) else Invalid NotPositiveFinite)
  /\ SFltb f0_0 v && SFltb v float_inf =
       match v with S754_finite false _ _ => true | _ => false end
  /\ deserialize py (new PositiveFloat None) (PFloat (S754_zero false)) = Invalid NotPositiveFinite
  /\ deserialize py (new PositiveFloat None) (PFloat (S754_zero true)) = Invalid NotPositiveFinite
  /\ (forall m e, deserialize py (new PositiveFloat None) (PFloat (S754_finite true m e))
                  = Invalid NotPositiveFinite)
  /\ deserialize py (new PositiveFloat None) (PFloat (S754_infinity true)) = Invalid NotPositiveFinite
  /\ deserialize py (new PositiveFloat None) (PFloat (S754_infinity false)) = Invalid NotPositiveFinite
  /\ deserialize py (new PositiveFloat None) (PFloat S754_nan) = Invalid NotPositiveFinite.
Proof.
  assert (G : forall w, deserialize py (new PositiveFloat None) (PFloat w) =
                        if SFltb f0_0 w && SFltb w float_inf
                        then Ok (PFloat w) else Invalid NotPositiveFinite).
  { intros w. rewrite PositiveFloat_node.
    cbn [deserialize]. rewrite Float_deserialize_float.
    unfold PositiveFloat_validator, py_lt. cbn [as_num num_compare].
    fold (SFltb f0_0 w). fold (SFltb w float_inf).
    now destruct (SFltb f0_0 w && SFltb w float_inf). }
  split; [apply G|].
  split; [destruct v as [[|]|[|]| |[|] m e]; reflexivity|].
  repeat split; intros; rewrite G; reflexivity.
Qed.

(** C3. A mapping with [gamma = 0.5] is refused by the Newton schema,
    whatever else it holds, and accepted by the gradient-descent schema
    when the other six fields are present and in range: the lower bound
    of [gamma] is 1.0 in the first and 0.0 in the second. *)
Theorem gamma_bounds_differ (value : dict) (n1 n2 n3 : Z) (pm mrc tol : spec_float)
    (Hgamma : dict_get "gamma" value = Some (PFloat sample.f0_5))
    (H1 : (1 <= n1)%Z) (H2 : (1 <= n2)%Z) (H3 : (0 <= n3)%Z)
    (Hpm : SFleb f0_0 pm = true)
    (Hmrc0 : SFleb f0_0 mrc = true) (Hmrc1 : SFleb mrc f1_0 = true)
    (Htol : SFleb f0_0 tol = true) :
  (exists e, deserialize py (new NewtonParametersSchema None) (PDict value) = Invalid e)
  /\ deserialize py (new GradientDescentParametersSchema None)
       (PDict [("max_num_steps", PInt n1); ("max_num_restarts", PInt n2);
               ("num_steps_averaged", PInt n3); ("gamma", PFloat sample.f0_5);
               ("pre_mult", PFloat pm); ("max_relative_change", PFloat mrc);
               ("tolerance", PFloat tol)])
     = Ok (PDict [("max_num_steps", PInt n1); ("max_num_restarts", PInt n2);
                  ("num_steps_averaged", PInt n3); ("gamma", PFloat sample.f0_5);
                  ("pre_mult", PFloat pm); ("max_relative_change", PFloat mrc);
                  ("tolerance", PFloat tol)])
  /\ (forall g, exists c,
        child "gamma" (new NewtonParametersSchema None) = Some c /\
        deserialize py c (PFloat g) =
          if SFltb g f1_0 then Invalid BelowMin else Ok (PFloat g))
  /\ (forall g, exists c,
        child "gamma" (new GradientDescentParametersSchema None) = Some c /\
        deserialize py c (PFloat g) =
          if SFltb g f0_0 then Invalid BelowMin else Ok (PFloat g)).
Proof.
  split; [|split; [|split]].
  - pose (c := Node "gamma" Float [] (Some (Range (Some (PFloat f1_0)) None)) None None).
    apply (@Mapping_child_fails py (new NewtonParametersSchema None) c raise value BelowMin).
    + reflexivity.
    + apply distinct_NoDup. reflexivity.
    + right; left; reflexivity.
    + unfold arg_of, dict_pop. cbn [node_name c]. rewrite Hgamma. reflexivity.
  - assert (N : new GradientDescentParametersSchema None =
      Node EmptyString (Mapping raise)
        [Node "max_num_steps" Int [] (Some (Range (Some (PInt 1)) None)) None None;
         Node "max_num_restarts" Int [] (Some (Range (Some (PInt 1)) None)) None None;
         Node "num_steps_averaged" Int [] (Some (Range (Some (PInt 0)) None)) None None;
         Node "gamma" Float [] (Some (Range (Some (PFloat f0_0)) None)) None None;
         Node "pre_mult" Float [] (Some (Range (Some (PFloat f0_0)) None)) None None;
         Node "max_relative_change" Float []
              (Some (Range (Some (PFloat f0_0)) (Some (PFloat f1_0)))) None None;
         Node "tolerance" Float [] (Some (Range (Some (PFloat f0_0)) None)) None None]
        None None None) by reflexivity.
    rewrite N. mapping_spec.
    rewrite !deserialize_Float_PFloat, !deserialize_Int_PInt.
    unfold validated.
    rewrite !Range_min_int by assumption.
    rewrite (Range_min_max_float _ _ _ Hmrc0 Hmrc1).
    rewrite !Range_min_float by (assumption || reflexivity).
    reflexivity.
  - intros g.
    exists (Node "gamma" Float [] (Some (Range (Some (PFloat f1_0)) None)) None None).
    split; [reflexivity|].
    rewrite deserialize_Float_PFloat. unfold validated.
    rewrite Range_min_float_cases. now destruct (SFltb g f1_0).
  - intros g.
    exists (Node "gamma" Float [] (Some (Range (Some (PFloat f0_0)) None)) None None).
    split; [reflexivity|].
    rewrite deserialize_Float_PFloat. unfold validated.
    rewrite Range_min_float_cases. now destruct (SFltb g f0_0).
Qed.

(** C4. A field among [optimizer_type], [num_multistarts],
    [num_random_samples] and [optimizer_parameters] that an accepted
    [OptimizerInfo] mapping leaves out comes back as [None], and so does
    [hyperparameters] left out of a [CovarianceInfo] mapping; the empty
    mappings are accepted and give [None] for all of them. *)
Theorem omitted_fields_are_None (value value' : dict) (a a' : pyval) (k : string)
    (Hopt : deserialize py (new (OptimizerInfo K) None) (PDict value) = Ok a)
    (Hk : In k ["optimizer_type"; "num_multistarts"; "num_random_samples";
                "optimizer_parameters"])
    (Habsent : dict_get k value = None)
    (Hcov : deserialize py (new (CovarianceInfo K) None) (PDict value') = Ok a')
    (Habsent' : dict_get "hyperparameters" value' = None) :
  (exists d, a = PDict d /\ dict_get k d = Some PNone)
  /\ (exists d', a' = PDict d' /\ dict_get "hyperparameters" d' = Some PNone)
  /\ deserialize py (new (OptimizerInfo K) None) (PDict []) =
     Ok (PDict [("optimizer_type", PNone); ("num_multistarts", PNone);
                ("num_random_samples", PNone); ("optimizer_parameters", PNone)])
  /\ deserialize py (new (CovarianceInfo K) None) (PDict []) =
     Ok (PDict [("covariance_type", PStr (constant.SQUARE_EXPONENTIAL_COVARIANCE_TYPE K));
                ("hyperparameters", PNone)]).
Proof.
  split; [|split; [|split; reflexivity]].
  - assert (Hc : exists c, In c (node_children (new (OptimizerInfo K) None)) /\
                           node_name c = k /\ node_missing c = Some PNone /\
                           node_typ c <> Unconstructible).
    { destruct Hk as [<-|[<-|[<-|[<-|[]]]]]; eexists; (split; [|split; [|split]]).
      1: (left; reflexivity). 1-3: (reflexivity || discriminate).
      1: (right; left; reflexivity). 1-3: (reflexivity || discriminate).
      1: (do 2 right; left; reflexivity). 1-3: (reflexivity || discriminate).
      1: (do 3 right; left; reflexivity). 1-3: (reflexivity || discriminate). }
    destruct Hc as (c & Hin & <- & Hm & Hty).
    apply (@omitted_field_gets_missing (new (OptimizerInfo K) None) c value a PNone); auto.
    apply distinct_NoDup. reflexivity.
  - pose (c := set_name "hyperparameters" (new ListOfPositiveFloats (Some PNone))).
    apply (@omitted_field_gets_missing (new (CovarianceInfo K) None) c value' a' PNone); auto.
    + apply distinct_NoDup. reflexivity.
    + right; left; reflexivity.
    + discriminate.
Qed.

Lemma add_errors_keeps (outs : list (string * outcome)) :
  forall num error x, In x error -> In x (add_errors num error outs).
Proof.
  induction outs as [|[k [a|e]] outs IH]; intros num error x Hx; cbn [add_errors]; auto.
  apply IH. apply in_or_app. now left.
Qed.

(** The loop reports the error of a child under the child's position. *)
Lemma add_errors_nth (outs : list (string * outcome)) :
  forall num error i k e,
    nth_error outs i = Some (k, Invalid e) ->
    In ((num + i)%nat, e) (add_errors num error outs).
Proof.
  induction outs as [|[k0 o] outs IH]; intros num error i k e Hi.
  - destruct i; discriminate.
  - destruct i as [|i]; cbn [nth_error] in Hi.
    + injection Hi as -> ->. cbn [add_errors]. rewrite Nat.add_0_r.
      apply add_errors_keeps. apply in_or_app. right. now left.
    + rewrite Nat.add_succ_r.
      destruct o as [a|e0]; cbn [add_errors];
        apply (IH (S num) _ i k e Hi).
Qed.

Lemma leftover_declared (children : list SchemaNode) (value : dict) :
  (forall k, In k (keys value) -> In k (map node_name children)) ->
  leftover children value = [].
Proof.
  intros H. destruct (leftover children value) as [|[k v] rest] eqn:E; [reflexivity|].
  assert (Hk : In k (keys (leftover children value))).
  { rewrite E. now left. }
  apply keys_leftover in Hk. destruct Hk as [Hin Hnot]. elim Hnot. auto.
Qed.

(** A strict mapping whose payload holds declared keys only reports the
    error of a child under the position of the child. *)
Lemma Mapping_child_reported (n c : SchemaNode) (value : dict) (i : nat) (e : reason) :
  node_typ n = Mapping raise ->
  NoDup (declared n) ->
  nth_error (node_children n) i = Some c ->
  deserialize py c (arg_of value c) = Invalid e ->
  (forall k, In k (keys value) -> In k (declared n)) ->
  exists errs, deserialize py n (PDict value) = Invalid (ChildErrors errs)
               /\ In (i, e) errs.
Proof.
  destruct n as [nm t ch v m d]. unfold declared. cbn [node_typ node_children].
  intros -> Hnd Hi Hc Hkeys.
  rewrite deserialize_Mapping, Mapping_impl_spec by exact Hnd. cbv zeta.
  rewrite (leftover_declared _ _ Hkeys).
  assert (Hin : In (i, e) (add_errors 0 [] (outcomes (deserialize py) ch value))).
  { apply (@add_errors_nth _ 0 [] i (node_name c) e).
    unfold outcomes. rewrite nth_error_map, Hi. cbn [option_map]. now rewrite Hc. }
  destruct (add_errors 0 [] (outcomes (deserialize py) ch value)) as [|p errs] eqn:E;
    [destruct Hin|].
  exists (p :: errs). split; [reflexivity | exact Hin].
Qed.

(** C5 (amended). A [gp_mean_var] or [gp_ei] request without
    [domain_info] is refused: the field is declared without a [missing]
    value in both schemas, hence required.  When the request holds
    declared keys only, the error reports [Required] under the position
    of [domain_info] (2 and 5); when it also holds a key that the schema
    does not declare, the error is the one for unrecognized keys. *)
Theorem domain_info_is_required (value : dict)
    (Habsent : dict_get "domain_info" value = None) :
  (exists e, deserialize py (new (GpMeanVarRequest py K) None) (PDict value) = Invalid e)
  /\ (exists e, deserialize py (new (GpEiRequest py K) None) (PDict value) = Invalid e)
  /\ (exists c, child "domain_info" (new (GpMeanVarRequest py K) None) = Some c
                /\ node_missing c = None)
  /\ (exists c, child "domain_info" (new (GpEiRequest py K) None) = Some c
                /\ node_missing c = None)
  /\ ((forall k, In k (keys value) ->
                 In k ["points_to_sample"; "gp_historical_info"; "domain_info";
                       "covariance_info"]) ->
      exists errs,
        deserialize py (new (GpMeanVarRequest py K) None) (PDict value)
        = Invalid (ChildErrors errs)
        /\ In (2%nat, Required) errs)
  /\ ((forall k, In k (keys value) ->
                 In k ["points_to_evaluate"; "points_being_sampled"; "mc_iterations";
                       "max_num_threads"; "gp_historical_info"; "domain_info";
                       "covariance_info"]) ->
      exists errs,
        deserialize py (new (GpEiRequest py K) None) (PDict value)
        = Invalid (ChildErrors errs)
        /\ In (5%nat, Required) errs)
  /\ (forall k, In k (keys value) ->
                ~ In k ["points_to_sample"; "gp_historical_info"; "domain_info";
                        "covariance_info"] ->
      exists rest, rest <> [] /\
        deserialize py (new (GpMeanVarRequest py K) None) (PDict value)
        = Invalid (UnrecognizedKeys rest))
  /\ (forall k, In k (keys value) ->
                ~ In k ["points_to_evaluate"; "points_being_sampled"; "mc_iterations";
                        "max_num_threads"; "gp_historical_info"; "domain_info";
                        "covariance_info"] ->
      exists rest, rest <> [] /\
        deserialize py (new (GpEiRequest py K) None) (PDict value)
        = Invalid (UnrecognizedKeys rest)).
Proof.
  pose (c := set_name "domain_info" (new (DomainInfo K) None)).
  assert (Hc : deserialize py c (arg_of value c) = Invalid Required).
  { rewrite arg_of_absent by exact Habsent. reflexivity. }
  split; [|split; [|split; [|split; [|split; [|split; [|split]]]]]].
  - apply (@Mapping_child_fails py (new (GpMeanVarRequest py K) None) c raise value Required);
      auto.
    + apply distinct_NoDup. reflexivity.
    + right; right; left; reflexivity.
  - apply (@Mapping_child_fails py (new (GpEiRequest py K) None) c raise value Required);
      auto.
    + apply distinct_NoDup. reflexivity.
    + do 5 right. left. reflexivity.
  - eexists. split; reflexivity.
  - eexists. split; reflexivity.
  - intros Hkeys.
    apply (@Mapping_child_reported (new (GpMeanVarRequest py K) None) c value 2 Required);
      auto.
    apply distinct_NoDup. reflexivity.
  - intros Hkeys.
    apply (@Mapping_child_reported (new (GpEiRequest py K) None) c value 5 Required);
      auto.
    apply distinct_NoDup. reflexivity.
  - intros k Hin Hnot.
    apply (@strict_rejects_unknown py (new (GpMeanVarRequest py K) None) value k); auto.
    apply distinct_NoDup. reflexivity.
  - intros k Hin Hnot.
    apply (@strict_rejects_unknown py (new (GpEiRequest py K) None) value k); auto.
    apply distinct_NoDup. reflexivity.
Qed.

(** C6. The minimal [gp_ei] request is accepted; [mc_iterations] and
    [max_num_threads] get the default constants and [covariance_info]
    the defaulted [CovarianceInfo]: the square-exponential type and
    [None] for the hyperparameters. *)
Theorem minimal_gp_ei_gets_defaults :
  deserialize py (new (GpEiRequest py K) None) sample.minimal_gp_ei =
  Ok (PDict
        [("points_to_evaluate", PList [PList [PFloat sample.f0_1]]);
         ("points_being_sampled", PList []);
         ("mc_iterations", PInt (constant.DEFAULT_EXPECTED_IMPROVEMENT_MC_ITERATIONS K));
         ("max_num_threads", PInt (constant.DEFAULT_MAX_NUM_THREADS K));
         ("gp_historical_info", sample.gp_historical_info);
         ("domain_info",
          PDict [("domain_type", PStr (constant.TENSOR_PRODUCT_DOMAIN_TYPE K));
                 ("dim", PInt 1)]);
         ("covariance_info",
          PDict [("covariance_type", PStr (constant.SQUARE_EXPONENTIAL_COVARIANCE_TYPE K));
                 ("hyperparameters", PNone)])])
  /\ deserialize py (new (CovarianceInfo K) None) (PDict []) =
     Ok (PDict [("covariance_type", PStr (constant.SQUARE_EXPONENTIAL_COVARIANCE_TYPE K));
                ("hyperparameters", PNone)]).
Proof. split; vm_compute; reflexivity. Qed.

(** C7 (amended). When a request schema accepts a payload and the output
    holds [None] in no field typed as a sequence or as a mapping, the
    schema accepts the output and returns it unchanged, provided the
    default constants satisfy the constraints of their own fields. *)
Theorem revalidation_is_idempotent_without_None_composites
    (cls : pyclass) (cstruct appstruct : pyval)
    (Hok : constants_ok K)
    (Hcls : In cls (request_schemas py K))
    (Haccepted : deserialize py (new cls None) cstruct = Ok appstruct)
    (Hnone : none_free (new cls None) appstruct = true) :
  deserialize py (new cls None) appstruct = Ok appstruct.
Proof.
  apply (@deserialize_idempotent (new cls None)) with (c := cstruct); auto.
  unfold request_schemas in Hcls. cbn [In] in Hcls.
  destruct Hcls as [<-|[<-|[<-|[<-|[<-|[<-|[]]]]]]].
  - now apply stable_GpNextPointsRequest.
  - now apply stable_GpNextPointsConstantLiarRequest.
  - now apply stable_GpNextPointsKrigingRequest.
  - now apply stable_GpHyperOptRequest.
  - now apply stable_GpMeanVarRequest.
  - now apply stable_GpEiRequest.
Qed.

(** C8. The [gp_mean_var] response schema declares the fields [var],
    [mean] and [endpoint]: the nodes of its three parts, each once.  It
    accepts only dictionaries whose keys are exactly these three, and
    accepts every such dictionary that holds a non-empty string, a list
    of floats and a matrix of floats. *)
Theorem GpMeanVarResponse_fields (value : dict) (a : pyval) (s : string)
    (ms : list spec_float) (vs : list (list spec_float))
    (Hok : deserialize py (new GpMeanVarResponse None) (PDict value) = Ok a)
    (Hs : s <> EmptyString) :
  declared (new GpMeanVarResponse None) = ["var"; "mean"; "endpoint"]
  /\ node_children (new GpMeanVarResponse None) =
       (node_children (new GpVarMixinResponse None)
        ++ node_children (new GpMeanMixinResponse None)
        ++ node_children (new GpEndpointResponse None))%list
  /\ (forall k, In k (keys value) <-> In k ["endpoint"; "mean"; "var"])
  /\ deserialize py (new GpMeanVarResponse None)
       (PDict [("endpoint", PStr s); ("mean", PList (map PFloat ms)); ("var", matrix vs)])
     = Ok (PDict [("var", matrix vs); ("mean", PList (map PFloat ms)); ("endpoint", PStr s)]).
Proof.
  split; [reflexivity|]. split; [reflexivity|]. split.
  - intros k.
    rewrite (strict_required_keys (new GpMeanVarResponse None) value) with (a := a); auto.
    + simpl. tauto.
    + apply distinct_NoDup. reflexivity.
    + repeat constructor; discriminate.
  - assert (N : new GpMeanVarResponse None =
      Node EmptyString (Mapping raise)
        [Node "var" Sequence
           [Node "row_of_matrix" Sequence
              [Node "float_in_list" Float [] None None None] None None None]
           None None None;
         Node "mean" Sequence [Node "float_in_list" Float [] None None None] None None None;
         Node "endpoint" String [] None None None]
        None None None) by reflexivity.
    rewrite N. mapping_spec.
    rewrite ListOfFloats_floats, deserialize_String_PStr by exact Hs.
    unfold matrix.
    rewrite (@deserialize_Sequence_ok _ _ _ _ _ _
               (map (fun r => PList (map PFloat r)) vs)).
    + reflexivity.
    + induction vs; cbn [map]; constructor; auto. apply ListOfFloats_floats.
Qed.

(** C9. [DomainCoordinate] accepts [{min: a, max: b}] for all floats [a]
    and [b], in either key order, also when [a > b] as for 1.0 and
    0.0. *)
Theorem DomainCoordinate_min_max_unordered (a b : spec_float) :
  deserialize py (new DomainCoordinate None)
              (PDict [("min", PFloat a); ("max", PFloat b)])
    = Ok (PDict [("min", PFloat a); ("max", PFloat b)])
  /\ deserialize py (new DomainCoordinate None)
              (PDict [("max", PFloat b); ("min", PFloat a)])
    = Ok (PDict [("min", PFloat a); ("max", PFloat b)])
  /\ deserialize py (new DomainCoordinate None)
              (PDict [("min", PFloat f1_0); ("max", PFloat f0_0)])
    = Ok (PDict [("min", PFloat f1_0); ("max", PFloat f0_0)])
  /\ SFltb f0_0 f1_0 = true.
Proof.
  assert (N : new DomainCoordinate None =
      Node EmptyString (Mapping raise)
            [Node "min" Float [] None None None; Node "max" Float [] None None None]
            None None None) by reflexivity.
  rewrite N.
  repeat split; mapping_spec; rewrite !deserialize_Float_PFloat; reflexivity.
Qed.

(** C10. When the tag of the null optimizer differs from the two other
    tags, the dispatch table maps it to [NullParametersSchema], which
    accepts the empty mapping and refuses every other one for its
    unrecognized keys. *)
Theorem NullParametersSchema_accepts_only_empty (value : dict)
    (Hnewton : constant.NULL_OPTIMIZER K <> constant.NEWTON_OPTIMIZER K)
    (Hgd : constant.NULL_OPTIMIZER K <> constant.GRADIENT_DESCENT_OPTIMIZER K)
    (Hvalue : value <> []) :
  table_get (constant.NULL_OPTIMIZER K) (OPTIMIZER_TYPES_TO_SCHEMA_CLASSES K)
    = Some NullParametersSchema
  /\ deserialize py (new NullParametersSchema None) (PDict []) = Ok (PDict [])
  /\ deserialize py (new NullParametersSchema None) (PDict value)
     = Invalid (UnrecognizedKeys value).
Proof.
  split; [|split].
  - unfold table_get, OPTIMIZER_TYPES_TO_SCHEMA_CLASSES. cbn [fold_left fst snd].
    rewrite String.eqb_refl.
    destruct (String.eqb_spec (constant.NULL_OPTIMIZER K) (constant.NEWTON_OPTIMIZER K));
      [contradiction|].
    destruct (String.eqb_spec (constant.NULL_OPTIMIZER K)
                              (constant.GRADIENT_DESCENT_OPTIMIZER K));
      [contradiction|].
    reflexivity.
  - reflexivity.
  - destruct value as [|kv rest]; [contradiction|]. reflexivity.
Qed.

(** ** Further properties of the schemas *)

(** The name that the metaclass gives to an attribute does not change
    what its node accepts. *)
Lemma deserialize_attr (k : string) (n : SchemaNode) (c : pyval) :
  deserialize py (set_name k n) c = deserialize py n c.
Proof. destruct n. unfold set_name. now rewrite !deserialize_eq. Qed.

Lemma node_name_new (k : string) (cls : pyclass) (m : option pyval) :
  node_name (set_name k (new cls m)) = k.
Proof. reflexivity. Qed.

Lemma node_name_SchemaNode_ (k : string) t v m d :
  node_name (set_name k (SchemaNode_ t v m d)) = k.
Proof. reflexivity. Qed.

Lemma Range_min_int_cases (lo z : Z) :
  Range (Some (PInt lo)) None (PInt z) = if (z <? lo)%Z then Some BelowMin else None.
Proof.
  unfold Range, py_lt, Z.ltb. cbn [as_num num_compare].
  now destruct (z ?= lo)%Z.
Qed.

Lemma Range_min_max_int_cases (lo hi z : Z) :
  Range (Some (PInt lo)) (Some (PInt hi)) (PInt z) =
  if (z <? lo)%Z then Some BelowMin
  else if (hi <? z)%Z then Some AboveMax else None.
Proof.
  unfold Range, py_gt, py_lt, Z.ltb. cbn [as_num num_compare].
  destruct (z ?= lo)%Z; destruct (hi ?= z)%Z; reflexivity.
Qed.

Lemma Range_min_max_float_cases (lo hi v : spec_float) :
  Range (Some (PFloat lo)) (Some (PFloat hi)) (PFloat v) =
  if SFltb v lo then Some BelowMin
  else if SFltb hi v then Some AboveMax else None.
Proof. reflexivity. Qed.

Lemma SFltb_zero_is_negative (f : spec_float) : SFltb f f0_0 = is_negative f.
Proof. destruct f as [[|]|[|]| |[|] m e]; reflexivity. Qed.

Lemma PositiveFloat_validator_cases (f : spec_float) :
  PositiveFloat_validator (PFloat f) =
  if is_positive_finite f then None else Some NotPositiveFinite.
Proof. destruct f as [[|]|[|]| |[|] m e]; reflexivity. Qed.

(** Opening a class that derives from [StrictMappingSchema] alone: its
    instance has the nodes of its body for children. *)
Ltac open_class cls hd :=
  match goal with
  | |- context [new cls ?m] =>
      change (new cls m)
        with (Node EmptyString (Mapping raise) (class_schema_nodes cls) None m None);
      unfold class_schema_nodes, hd; cbn [class_attrs map fst snd]
  end.

(** One pass of [Mapping._impl] over named attributes. *)
Ltac open_mapping :=
  rewrite deserialize_Mapping, Mapping_impl_spec
    by (apply distinct_NoDup; reflexivity);
  unfold outcomes, arg_of, leftover; cbn [map fold_left];
  rewrite ?node_name_new, ?node_name_SchemaNode_, ?deserialize_attr;
  unfold dict_pop;
  cbn [dict_get dict_del filter fst snd negb String.eqb Ascii.eqb Bool.eqb].

(** A sequence of floats reports every item that its validator refuses. *)
Lemma Sequence_items_floats nm v d (l : list spec_float) :
  forall num res err,
    Sequence_items (deserialize py) (Node nm Float [] v None d) num (map PFloat l) res err =
    ((res ++ map PFloat (filter (fun f => match validated v (PFloat f) with
                                          | Ok _ => true
                                          | Invalid _ => false
                                          end) l))%list,
     (err ++ refused_items v num l)%list).
Proof.
  induction l as [|f l IH]; intros num res err; cbn [map Sequence_items filter refused_items].
  - now rewrite !app_nil_r.
  - rewrite deserialize_Float_PFloat.
    destruct (validated v (PFloat f)) as [a|e] eqn:E.
    + apply validated_Ok in E as ->. rewrite IH. now rewrite <- app_assoc.
    + rewrite IH. now rewrite <- app_assoc.
Qed.

Lemma refused_items_nil v (l : list spec_float) :
  forall num, refused_items v num l = [] ->
  filter (fun f => match validated v (PFloat f) with
                   | Ok _ => true
                   | Invalid _ => false
                   end) l = l.
Proof.
  induction l as [|f l IH]; intros num H; cbn [filter refused_items] in *; auto.
  destruct (validated v (PFloat f)); [|discriminate].
  f_equal. eauto.
Qed.

Lemma Sequence_of_floats nm cn v m d d' (l : list spec_float) :
  deserialize py (Node nm Sequence [Node cn Float [] v None d'] None m d)
              (PList (map PFloat l))
  = match refused_items v 0 l with
    | [] => Ok (PList (map PFloat l))
    | errs => Invalid (ChildErrors errs)
    end.
Proof.
  rewrite deserialize_Sequence. unfold Sequence_impl.
  rewrite Sequence_items_floats. cbn [app].
  destruct (refused_items v 0 l) eqn:E.
  - now rewrite (refused_items_nil v l 0 E).
  - reflexivity.
Qed.

Lemma refused_items_positions (bad : spec_float -> bool) (e : reason) v (l : list spec_float) :
  (forall f, validated v (PFloat f) = if bad f then Invalid e else Ok (PFloat f)) ->
  forall num, refused_items v num l = positions bad e num l.
Proof.
  intros Hv. induction l as [|f l IH]; intros num; cbn [refused_items positions]; auto.
  rewrite Hv. destruct (bad f); now rewrite IH.
Qed.

Lemma positions_nil (bad : spec_float -> bool) (e : reason) (l : list spec_float) :
  forall num, positions bad e num l = [] <-> existsb bad l = false.
Proof.
  induction l as [|f l IH]; intros num; cbn [positions existsb].
  - tauto.
  - destruct (bad f); simpl; [split; discriminate | apply IH].
Qed.

(** [ListOfFloats] accepts every list of floats. *)
Lemma ListOfFloats_accepts (m : option pyval) (l : list spec_float) :
  deserialize py (new ListOfFloats m) (PList (map PFloat l)) = Ok (PList (map PFloat l)).
Proof.
  change (new ListOfFloats m)
    with (Node EmptyString Sequence [Node "float_in_list" Float [] None None None]
               None m None).
  apply ListOfFloats_floats.
Qed.

(** X1. A sampled point with a negative [value_var] is refused, and returned
    as it is otherwise; an omitted [value_var] is read as 0.0, and a
    point without [value] is refused. *)
Theorem SinglePoint_value_var (coords : list spec_float) (value var : spec_float) :
  deserialize py (new SinglePoint None) (sampled_point (coords, value, var))
    = (if is_negative var then Invalid (ChildErrors [(2, BelowMin)])
       else Ok (sampled_point (coords, value, var)))
  /\ deserialize py (new SinglePoint None)
       (PDict [("point", PList (map PFloat coords)); ("value", PFloat value)])
     = Ok (sampled_point (coords, value, f0_0))
  /\ (exists e, deserialize py (new SinglePoint None)
                  (PDict [("point", PList (map PFloat coords));
                          ("value_var", PFloat var)]) = Invalid e).
Proof.
  unfold sampled_point. cbn [fst snd].
  split; [|split].
  - open_class SinglePoint SinglePoint. open_mapping.
    rewrite ListOfFloats_accepts. unfold SchemaNode_.
    rewrite !deserialize_Float_PFloat. unfold validated.
    rewrite Range_min_float_cases, SFltb_zero_is_negative.
    now destruct (is_negative var).
  - open_class SinglePoint SinglePoint. open_mapping.
    rewrite ListOfFloats_accepts. unfold SchemaNode_.
    rewrite !deserialize_Float_PFloat. reflexivity.
  - open_class SinglePoint SinglePoint. open_mapping.
    rewrite ListOfFloats_accepts. unfold SchemaNode_.
    rewrite !deserialize_Float_PFloat. unfold validated.
    rewrite Range_min_float_cases. destruct (SFltb var f0_0); eexists; reflexivity.
Qed.

Ltac open_subclass cls hd base bhd :=
  match goal with
  | |- context [new cls ?m] =>
      change (new cls m)
        with (Node EmptyString (Mapping raise)
                   (class_schema_nodes base ++ class_schema_nodes cls)%list None m None);
      unfold class_schema_nodes, hd, bhd; cbn [class_attrs map fst snd app]
  end.

(** A sequence accepts a list when its child accepts every item. *)
Lemma Sequence_map_accepts {A} (f : A -> pyval) nm c m d (l : list A) :
  Forall (fun x => deserialize py c (f x) = Ok (f x)) l ->
  deserialize py (Node nm Sequence [c] None m d) (PList (map f l)) = Ok (PList (map f l)).
Proof.
  intros H. apply deserialize_Sequence_ok.
  induction H; cbn [map]; constructor; auto.
Qed.

(** A sequence refuses a list as soon as its child refuses one item. *)
Lemma Sequence_item_refused nm c cs v m d (l : list pyval) (x : pyval) (e : reason) :
  In x l -> deserialize py c x = Invalid e ->
  exists e', deserialize py (Node nm Sequence (c :: cs) v m d) (PList l) = Invalid e'.
Proof.
  intros Hin Hx. rewrite deserialize_Sequence. unfold Sequence_impl.
  destruct (Sequence_items_spec (deserialize py) c l 0 [] []) as (res & err & E & H2 & _).
  rewrite E. cbn [app].
  destruct err as [|p err]; [|cbn; eauto].
  exfalso. specialize (H2 eq_refl).
  destruct (Forall2_In_l _ H2 Hin) as [y [_ Hy]]. congruence.
Qed.

Lemma DomainCoordinate_accepts (m : option pyval) (ab : spec_float * spec_float) :
  deserialize py (new DomainCoordinate m) (coordinate ab) = Ok (coordinate ab).
Proof.
  unfold coordinate. open_class DomainCoordinate DomainCoordinate. open_mapping.
  unfold SchemaNode_. rewrite !deserialize_Float_PFloat. reflexivity.
Qed.

Lemma Domain_accepts (m : option pyval) (bounds : list (spec_float * spec_float)) :
  deserialize py (new Domain m) (PList (map coordinate bounds))
  = Ok (PList (map coordinate bounds)).
Proof.
  change (new Domain m)
    with (Node EmptyString Sequence
               [set_name "domain_coordinates" (new DomainCoordinate None)] None m None).
  apply Sequence_map_accepts. apply Forall_forall. intros ab _.
  rewrite deserialize_attr. apply DomainCoordinate_accepts.
Qed.

Lemma ListOfPointsInDomain_accepts (m : option pyval) (rows : list (list spec_float)) :
  deserialize py (new ListOfPointsInDomain m) (matrix rows) = Ok (matrix rows).
Proof.
  change (new ListOfPointsInDomain m)
    with (Node EmptyString Sequence
               [set_name "point_in_domain" (new ListOfFloats None)] None m None).
  unfold matrix. apply Sequence_map_accepts. apply Forall_forall. intros r _.
  rewrite deserialize_attr. apply ListOfFloats_accepts.
Qed.

Lemma MatrixOfFloats_accepts (m : option pyval) (rows : list (list spec_float)) :
  deserialize py (new MatrixOfFloats m) (matrix rows) = Ok (matrix rows).
Proof.
  change (new MatrixOfFloats m)
    with (Node EmptyString Sequence
               [set_name "row_of_matrix" (new ListOfFloats None)] None m None).
  unfold matrix. apply Sequence_map_accepts. apply Forall_forall. intros r _.
  rewrite deserialize_attr. apply ListOfFloats_accepts.
Qed.

Lemma SinglePoint_accepts (m : option pyval) (p : list spec_float * spec_float * spec_float) :
  is_negative (snd p) = false ->
  deserialize py (new SinglePoint m) (sampled_point p) = Ok (sampled_point p).
Proof.
  destruct p as [[coords value] var]. cbn [snd]. intros Hvar.
  unfold sampled_point. cbn [fst snd].
  open_class SinglePoint SinglePoint. open_mapping.
  rewrite ListOfFloats_accepts. unfold SchemaNode_.
  rewrite !deserialize_Float_PFloat. unfold validated.
  rewrite Range_min_float_cases, SFltb_zero_is_negative, Hvar. reflexivity.
Qed.

Lemma SinglePoint_refuses (m : option pyval) (p : list spec_float * spec_float * spec_float) :
  is_negative (snd p) = true ->
  deserialize py (new SinglePoint m) (sampled_point p) = Invalid (ChildErrors [(2, BelowMin)]).
Proof.
  destruct p as [[coords value] var]. cbn [snd]. intros Hvar.
  unfold sampled_point. cbn [fst snd].
  open_class SinglePoint SinglePoint. open_mapping.
  rewrite ListOfFloats_accepts. unfold SchemaNode_.
  rewrite !deserialize_Float_PFloat. unfold validated.
  rewrite Range_min_float_cases, SFltb_zero_is_negative, Hvar. reflexivity.
Qed.

Lemma GpHistoricalInfo_accepts (m : option pyval)
    (ps : list (list spec_float * spec_float * spec_float)) :
  existsb (fun p => is_negative (snd p)) ps = false ->
  deserialize py (new GpHistoricalInfo m) (historical_info ps) = Ok (historical_info ps).
Proof.
  intros Hps. unfold historical_info.
  open_class GpHistoricalInfo GpHistoricalInfo. open_mapping.
  change (new PointsSampled None)
    with (Node EmptyString Sequence
               [set_name "point_sampled" (new SinglePoint None)] None None None).
  rewrite Sequence_map_accepts; [reflexivity|].
  apply Forall_forall. intros p Hp. rewrite deserialize_attr. apply SinglePoint_accepts.
  destruct (is_negative (snd p)) eqn:E; auto.
  assert (existsb (fun p => is_negative (snd p)) ps = true); [|congruence].
  apply existsb_exists. eauto.
Qed.

(** X2. The default domain type, the bound of [dim] and the enumeration of
    the domain types; all violations are reported together.  An empty
    string counts as an omitted type. *)
Theorem DomainInfo_accepts_iff (s : string) (dim : Z) :
  deserialize py (new (DomainInfo K) None)
              (PDict [("domain_type", PStr s); ("dim", PInt dim)])
    = finish (PDict [("domain_type",
                      PStr (if String.eqb s EmptyString
                            then constant.TENSOR_PRODUCT_DOMAIN_TYPE K else s));
                     ("dim", PInt dim)])
             ((if negb (String.eqb s EmptyString)
                  && negb (existsb (String.eqb s) (constant.DOMAIN_TYPES K))
               then [(0, NotOneOf)] else [])
              ++ (if (dim <? 0)%Z then [(1, BelowMin)] else []))%list
  /\ deserialize py (new (DomainInfo K) None) (PDict [("dim", PInt dim)])
     = finish (PDict [("domain_type", PStr (constant.TENSOR_PRODUCT_DOMAIN_TYPE K));
                      ("dim", PInt dim)])
              (if (dim <? 0)%Z then [(1, BelowMin)] else [])
  /\ deserialize py (new (DomainInfo K) None) (PDict [("domain_type", PStr s)])
     = Invalid (ChildErrors
                  ((if negb (String.eqb s EmptyString)
                       && negb (existsb (String.eqb s) (constant.DOMAIN_TYPES K))
                    then [(0, NotOneOf)] else [])
                   ++ [(1, Required)])%list).
Proof.
  split; [|split].
  - open_class (DomainInfo K) DomainInfo. open_mapping. unfold SchemaNode_.
    rewrite deserialize_Int_PInt. unfold validated. rewrite Range_min_int_cases.
    destruct (String.eqb_spec s EmptyString) as [->|Hs].
    + cbn. now destruct (dim <? 0)%Z.
    + rewrite deserialize_String_PStr by exact Hs. unfold validated, OneOf.
      destruct (existsb (String.eqb s) (constant.DOMAIN_TYPES K));
        destruct (dim <? 0)%Z; reflexivity.
  - open_class (DomainInfo K) DomainInfo. open_mapping. unfold SchemaNode_.
    rewrite deserialize_Int_PInt. unfold validated. rewrite Range_min_int_cases.
    now destruct (dim <? 0)%Z.
  - open_class (DomainInfo K) DomainInfo. open_mapping. unfold SchemaNode_.
    destruct (String.eqb_spec s EmptyString) as [->|Hs].
    + reflexivity.
    + rewrite deserialize_String_PStr by exact Hs. unfold validated, OneOf.
      destruct (existsb (String.eqb s) (constant.DOMAIN_TYPES K)); reflexivity.
Qed.

(** X3. [BoundedDomainInfo] has the fields of [DomainInfo] and the bounds:
    it accepts any number of intervals for any [dim >= 0], whatever
    their order. *)
Theorem BoundedDomainInfo_no_cross_validation (dim : Z)
    (bounds : list (spec_float * spec_float)) :
  declared (new (BoundedDomainInfo K) None) = ["domain_type"; "dim"; "domain_bounds"]
  /\ deserialize py (new (BoundedDomainInfo K) None)
       (PDict [("dim", PInt dim); ("domain_bounds", PList (map coordinate bounds))])
     = finish (PDict [("domain_type", PStr (constant.TENSOR_PRODUCT_DOMAIN_TYPE K));
                      ("dim", PInt dim);
                      ("domain_bounds", PList (map coordinate bounds))])
              (if (dim <? 0)%Z then [(1, BelowMin)] else [])
  /\ deserialize py (new (BoundedDomainInfo K) None) (PDict [("dim", PInt dim)])
     = Invalid (ChildErrors ((if (dim <? 0)%Z then [(1, BelowMin)] else [])
                             ++ [(2, Required)])%list).
Proof.
  split; [reflexivity|]. split.
  - open_subclass (BoundedDomainInfo K) BoundedDomainInfo (DomainInfo K) DomainInfo.
    open_mapping. rewrite Domain_accepts. unfold SchemaNode_.
    rewrite deserialize_Int_PInt. unfold validated. rewrite Range_min_int_cases.
    now destruct (dim <? 0)%Z.
  - open_subclass (BoundedDomainInfo K) BoundedDomainInfo (DomainInfo K) DomainInfo.
    open_mapping. unfold SchemaNode_.
    rewrite deserialize_Int_PInt. unfold validated. rewrite Range_min_int_cases.
    now destruct (dim <? 0)%Z.
Qed.

Ltac leaves :=
  unfold SchemaNode_;
  rewrite ?deserialize_Float_PFloat, ?deserialize_Int_PInt;
  unfold validated;
  rewrite ?Range_min_int_cases, ?Range_min_max_int_cases,
          ?Range_min_max_float_cases, ?Range_min_float_cases,
          ?SFltb_zero_is_negative.

(** X4. The gradient-descent parameters: every field has its own bound, and
    the positions of all the fields out of range are reported. *)
Theorem GradientDescentParametersSchema_accepts_iff
    (n1 n2 n3 : Z) (g pm mrc tol : spec_float) :
  deserialize py (new GradientDescentParametersSchema None)
    (PDict [("max_num_steps", PInt n1); ("max_num_restarts", PInt n2);
            ("num_steps_averaged", PInt n3); ("gamma", PFloat g);
            ("pre_mult", PFloat pm); ("max_relative_change", PFloat mrc);
            ("tolerance", PFloat tol)])
  = finish
      (PDict [("max_num_steps", PInt n1); ("max_num_restarts", PInt n2);
              ("num_steps_averaged", PInt n3); ("gamma", PFloat g);
              ("pre_mult", PFloat pm); ("max_relative_change", PFloat mrc);
              ("tolerance", PFloat tol)])
      ((if (n1 <? 1)%Z then [(0, BelowMin)] else [])
       ++ (if (n2 <? 1)%Z then [(1, BelowMin)] else [])
       ++ (if (n3 <? 0)%Z then [(2, BelowMin)] else [])
       ++ (if is_negative g then [(3, BelowMin)] else [])
       ++ (if is_negative pm then [(4, BelowMin)] else [])
       ++ (if is_negative mrc then [(5, BelowMin)]
           else if SFltb f1_0 mrc then [(5, AboveMax)] else [])
       ++ (if is_negative tol then [(6, BelowMin)] else []))%list.
Proof.
  open_class GradientDescentParametersSchema GradientDescentParametersSchema.
  open_mapping. leaves.
  destruct (n1 <? 1)%Z, (n2 <? 1)%Z, (n3 <? 0)%Z, (is_negative g), (is_negative pm),
           (is_negative mrc), (SFltb f1_0 mrc), (is_negative tol); reflexivity.
Qed.

(** X5. The Newton parameters, likewise: [gamma] from 1.0 and [time_factor]
    from 1.0e-16. *)
Theorem NewtonParametersSchema_accepts_iff (n1 : Z) (g tf mrc tol : spec_float) :
  deserialize py (new NewtonParametersSchema None)
    (PDict [("max_num_steps", PInt n1); ("gamma", PFloat g);
            ("time_factor", PFloat tf); ("max_relative_change", PFloat mrc);
            ("tolerance", PFloat tol)])
  = finish
      (PDict [("max_num_steps", PInt n1); ("gamma", PFloat g);
              ("time_factor", PFloat tf); ("max_relative_change", PFloat mrc);
              ("tolerance", PFloat tol)])
      ((if (n1 <? 1)%Z then [(0, BelowMin)] else [])
       ++ (if SFltb g f1_0 then [(1, BelowMin)] else [])
       ++ (if SFltb tf f1_0e_16 then [(2, BelowMin)] else [])
       ++ (if is_negative mrc then [(3, BelowMin)]
           else if SFltb f1_0 mrc then [(3, AboveMax)] else [])
       ++ (if is_negative tol then [(4, BelowMin)] else []))%list.
Proof.
  open_class NewtonParametersSchema NewtonParametersSchema.
  open_mapping. leaves.
  destruct (n1 <? 1)%Z, (SFltb g f1_0), (SFltb tf f1_0e_16),
           (is_negative mrc), (SFltb f1_0 mrc), (is_negative tol); reflexivity.
Qed.

Lemma ListOfPositiveFloats_floats (m : option pyval) (l : list spec_float) :
  deserialize py (new ListOfPositiveFloats m) (PList (map PFloat l))
  = finish (PList (map PFloat l))
           (positions (fun f => negb (is_positive_finite f)) NotPositiveFinite 0 l).
Proof.
  change (new ListOfPositiveFloats m)
    with (Node EmptyString Sequence
               [Node "float_in_list" Float [] (Some PositiveFloat_validator) None None]
               None m None).
  rewrite Sequence_of_floats.
  rewrite (@refused_items_positions (fun f => negb (is_positive_finite f))
             NotPositiveFinite).
  - unfold finish. now destruct (positions _ _ _ _).
  - intros f. unfold validated. rewrite PositiveFloat_validator_cases.
    now destruct (is_positive_finite f).
Qed.

(** X6. A list of hyperparameters is accepted exactly when all of them are
    finite and positive; otherwise the positions of the others are
    reported.  The empty list is accepted. *)
Theorem ListOfPositiveFloats_accepts_iff (l : list spec_float) :
  deserialize py (new ListOfPositiveFloats None) (PList (map PFloat l))
    = finish (PList (map PFloat l))
             (positions (fun f => negb (is_positive_finite f)) NotPositiveFinite 0 l)
  /\ (positions (fun f => negb (is_positive_finite f)) NotPositiveFinite 0 l = []
      <-> forallb is_positive_finite l = true)
  /\ deserialize py (new ListOfPositiveFloats None) (PList []) = Ok (PList []).
Proof.
  split; [apply ListOfPositiveFloats_floats|]. split; [|reflexivity].
  rewrite positions_nil. clear.
  induction l as [|f l IH]; cbn [existsb forallb]; [tauto|].
  destruct (is_positive_finite f); cbn; [exact IH | split; discriminate].
Qed.

Lemma String_enumerated_cases nm ch (choices : list string) (dflt : pyval) (s : string) d :
  deserialize py (Node nm String ch (Some (OneOf choices)) (Some dflt) d) (PStr s)
  = if String.eqb s EmptyString then Ok dflt
    else if existsb (String.eqb s) choices then Ok (PStr s) else Invalid NotOneOf.
Proof.
  destruct (String.eqb_spec s EmptyString) as [->|Hs]; [reflexivity|].
  rewrite deserialize_String_PStr by exact Hs. unfold validated, OneOf.
  now destruct (existsb (String.eqb s) choices).
Qed.

Lemma String_required_cases nm ch d (s : string) :
  deserialize py (Node nm String ch None None d) (PStr s)
  = if String.eqb s EmptyString then Invalid Required else Ok (PStr s).
Proof.
  destruct (String.eqb_spec s EmptyString) as [->|Hs]; [reflexivity|].
  now rewrite deserialize_String_PStr by exact Hs.
Qed.

(** X7. The covariance information: the type is enumerated (an empty string
    counts as omitted) and the hyperparameters are finite and positive;
    violations of both are reported together. *)
Theorem CovarianceInfo_accepts_iff (s : string) (l : list spec_float) :
  deserialize py (new (CovarianceInfo K) None)
    (PDict [("covariance_type", PStr s); ("hyperparameters", PList (map PFloat l))])
  = finish
      (PDict [("covariance_type",
               PStr (if String.eqb s EmptyString
                     then constant.SQUARE_EXPONENTIAL_COVARIANCE_TYPE K else s));
              ("hyperparameters", PList (map PFloat l))])
      ((if negb (String.eqb s EmptyString)
           && negb (existsb (String.eqb s) (constant.COVARIANCE_TYPES K))
        then [(0, NotOneOf)] else [])
       ++ match positions (fun f => negb (is_positive_finite f)) NotPositiveFinite 0 l with
          | [] => []
          | errs => [(1, ChildErrors errs)]
          end)%list.
Proof.
  open_class (CovarianceInfo K) CovarianceInfo. open_mapping.
  rewrite ListOfPositiveFloats_floats. unfold SchemaNode_.
  rewrite String_enumerated_cases. unfold finish.
  destruct (String.eqb s EmptyString);
    [|destruct (existsb (String.eqb s) (constant.COVARIANCE_TYPES K))];
    destruct (positions _ _ _ _); reflexivity.
Qed.

Lemma Range_zero_float_cases (f : spec_float) :
  Range (Some (PInt 0)) None (PFloat f) = if is_negative f then Some BelowMin else None.
Proof.
  unfold Range, py_lt. cbn [as_num num_compare].
  destruct f as [[|]|[|]| |s m e]; try reflexivity.
  unfold Z_SF_compare.
  destruct (Z.leb_spec 0 e) as [He|He]; cbn [option_map].
  - assert (Hp : (0 < 2 ^ e)%Z) by (apply Z.pow_pos_nonneg; lia).
    destruct s; cbn [cond_Zopp is_negative].
    + destruct (Z.compare_spec 0 (- Z.pos m * 2 ^ e)); try reflexivity; nia.
    + destruct (Z.compare_spec 0 (Z.pos m * 2 ^ e)); try reflexivity; nia.
  - rewrite Z.mul_0_l. destruct s; reflexivity.
Qed.

Lemma ListOfExpectedImprovements_floats (m : option pyval) (l : list spec_float) :
  deserialize py (new ListOfExpectedImprovements m) (PList (map PFloat l))
  = finish (PList (map PFloat l)) (positions is_negative BelowMin 0 l).
Proof.
  change (new ListOfExpectedImprovements m)
    with (Node EmptyString Sequence
               [Node "expected_improvement" Float []
                     (Some (Range (Some (PInt 0)) None)) None None]
               None m None).
  rewrite Sequence_of_floats.
  rewrite (@refused_items_positions is_negative BelowMin).
  - unfold finish. now destruct (positions _ _ _ _).
  - intros f. unfold validated. rewrite Range_zero_float_cases.
    now destruct (is_negative f).
Qed.

(** X8. The [gp_ei] response: the endpoint name may not be empty and no
    expected improvement may be below zero; NaN and the negative zero
    pass the bound. *)
Theorem GpEiResponse_accepts_iff (s : string) (l : list spec_float) :
  deserialize py (new GpEiResponse None)
    (PDict [("endpoint", PStr s); ("expected_improvement", PList (map PFloat l))])
    = finish
        (PDict [("endpoint", PStr s); ("expected_improvement", PList (map PFloat l))])
        ((if String.eqb s EmptyString then [(0, Required)] else [])
         ++ match positions is_negative BelowMin 0 l with
            | [] => []
            | errs => [(1, ChildErrors errs)]
            end)%list
  /\ is_negative S754_nan = false
  /\ is_negative (S754_zero true) = false.
Proof.
  split; [|split; reflexivity].
  open_class GpEiResponse GpEiResponse. open_mapping.
  rewrite ListOfExpectedImprovements_floats. unfold SchemaNode_.
  rewrite String_required_cases. unfold finish.
  destruct (String.eqb s EmptyString); destruct (positions _ _ _ _); reflexivity.
Qed.

(** X9. Lists of points and matrices are lists of lists of floats of any
    lengths: rows need not have the same length.  A float in the place
    of a row is refused. *)
Theorem rows_need_not_be_aligned (rows : list (list spec_float)) (f : spec_float)
    (others : list pyval) :
  deserialize py (new MatrixOfFloats None) (matrix rows) = Ok (matrix rows)
  /\ deserialize py (new ListOfPointsInDomain None) (matrix rows) = Ok (matrix rows)
  /\ (exists e, deserialize py (new MatrixOfFloats None) (PList (PFloat f :: others))
                = Invalid e)
  /\ (exists e, deserialize py (new ListOfPointsInDomain None) (PList (PFloat f :: others))
                = Invalid e).
Proof.
  split; [apply MatrixOfFloats_accepts|]. split; [apply ListOfPointsInDomain_accepts|].
  split.
  - change (new MatrixOfFloats None)
      with (Node EmptyString Sequence
                 [set_name "row_of_matrix" (new ListOfFloats None)] None None None).
    apply Sequence_item_refused with (x := PFloat f) (e := NotIterable).
    + now left.
    + reflexivity.
  - change (new ListOfPointsInDomain None)
      with (Node EmptyString Sequence
                 [set_name "point_in_domain" (new ListOfFloats None)] None None None).
    apply Sequence_item_refused with (x := PFloat f) (e := NotIterable).
    + now left.
    + reflexivity.
Qed.

(** A mapping refuses a dictionary when the node of one of its keys
    refuses the value under that key. *)
Lemma Mapping_field_refused (n c : SchemaNode) (u : unknown_t) (value : dict)
    (x : pyval) (e : reason) :
  node_typ n = Mapping u ->
  NoDup (declared n) ->
  In c (node_children n) ->
  dict_get (node_name c) value = Some x ->
  deserialize py c x = Invalid e ->
  exists e', deserialize py n (PDict value) = Invalid e'.
Proof.
  intros Ht Hnd Hin Hx Hc.
  apply (@Mapping_child_fails py n c u value e); auto.
  now rewrite (@arg_of_present value c x Hx).
Qed.

Ltac open_two cls a ahd b bhd :=
  match goal with
  | |- context [new cls ?m] =>
      change (new cls m)
        with (Node EmptyString (Mapping raise)
                   (class_schema_nodes a ++ class_schema_nodes b)%list None m None);
      unfold class_schema_nodes, ahd, bhd; cbn [class_attrs map fst snd app]
  end.

Lemma ListOfFloats_refuses_rows (m : option pyval) (r : list spec_float)
    (rows : list (list spec_float)) :
  exists e, deserialize py (new ListOfFloats m) (matrix (r :: rows)) = Invalid e.
Proof.
  change (new ListOfFloats m)
    with (Node EmptyString Sequence [Node "float_in_list" Float [] None None None]
               None m None).
  unfold matrix. cbn [map].
  destruct r as [|f r].
  - apply Sequence_item_refused with (x := PList []) (e := Required);
      [now left | reflexivity].
  - apply Sequence_item_refused with (x := PList (map PFloat (f :: r))) (e := NotANumber);
      [now left | reflexivity].
Qed.

Lemma rows_refuse_floats nm cn (m : option pyval) (f : spec_float) (fs : list spec_float) :
  exists e,
    deserialize py (Node nm Sequence [set_name cn (new ListOfFloats None)] None m None)
                (PList (map PFloat (f :: fs))) = Invalid e.
Proof.
  cbn [map]. apply Sequence_item_refused with (x := PFloat f) (e := NotIterable);
    [now left | reflexivity].
Qed.

(** X10. The variance of [gp_var] is a matrix and that of [gp_var_diag] a
    list: each schema accepts its own shape and refuses the other one
    whenever it is not empty. *)
Theorem variance_matrix_and_diagonal_differ (s : string) (f : spec_float)
    (fs r : list spec_float) (rows : list (list spec_float)) :
  deserialize py (new GpVarResponse None)
    (PDict [("endpoint", PStr s); ("var", matrix (r :: rows))])
    = finish (PDict [("var", matrix (r :: rows)); ("endpoint", PStr s)])
             (if String.eqb s EmptyString then [(1, Required)] else [])
  /\ deserialize py (new GpVarDiagResponse None)
       (PDict [("endpoint", PStr s); ("var", PList (map PFloat (f :: fs)))])
     = finish (PDict [("var", PList (map PFloat (f :: fs))); ("endpoint", PStr s)])
              (if String.eqb s EmptyString then [(1, Required)] else [])
  /\ (exists e, deserialize py (new GpVarDiagResponse None)
                  (PDict [("endpoint", PStr s); ("var", matrix (r :: rows))]) = Invalid e)
  /\ (exists e, deserialize py (new GpVarResponse None)
                  (PDict [("endpoint", PStr s); ("var", PList (map PFloat (f :: fs)))])
                = Invalid e)
  /\ deserialize py (new GpVarResponse None) (PDict [("endpoint", PStr s); ("var", PList [])])
     = deserialize py (new GpVarDiagResponse None)
         (PDict [("endpoint", PStr s); ("var", PList [])]).
Proof.
  split; [|split; [|split; [|split]]].
  - open_two GpVarResponse GpVarMixinResponse GpVarMixinResponse
             GpEndpointResponse GpEndpointResponse.
    open_mapping. rewrite MatrixOfFloats_accepts. unfold SchemaNode_.
    rewrite String_required_cases. now destruct (String.eqb s EmptyString).
  - generalize (f :: fs). intros l.
    open_two GpVarDiagResponse GpVarDiagMixinResponse GpVarDiagMixinResponse
             GpEndpointResponse GpEndpointResponse.
    open_mapping. rewrite ListOfFloats_accepts. unfold SchemaNode_.
    rewrite String_required_cases. now destruct (String.eqb s EmptyString).
  - destruct (ListOfFloats_refuses_rows None r rows) as [e He].
    apply (@Mapping_field_refused (new GpVarDiagResponse None)
             (set_name "var" (new ListOfFloats None)) raise _ (matrix (r :: rows)) e).
    + reflexivity.
    + apply distinct_NoDup. reflexivity.
    + left. reflexivity.
    + reflexivity.
    + now rewrite deserialize_attr.
  - destruct (rows_refuse_floats EmptyString "row_of_matrix" None f fs) as [e He].
    apply (@Mapping_field_refused (new GpVarResponse None)
             (set_name "var" (new MatrixOfFloats None)) raise _
             (PList (map PFloat (f :: fs))) e).
    + reflexivity.
    + apply distinct_NoDup. reflexivity.
    + left. reflexivity.
    + reflexivity.
    + rewrite deserialize_attr. exact He.
  - transitivity (finish (PDict [("var", PList []); ("endpoint", PStr s)])
                         (if String.eqb s EmptyString then [(1, Required)] else [])).
    + open_two GpVarResponse GpVarMixinResponse GpVarMixinResponse
               GpEndpointResponse GpEndpointResponse.
      open_mapping. change (PList []) with (matrix []) at 1.
      rewrite (MatrixOfFloats_accepts None []). unfold matrix. cbn [map]. unfold SchemaNode_.
      rewrite String_required_cases. now destruct (String.eqb s EmptyString).
    + symmetry.
      open_two GpVarDiagResponse GpVarDiagMixinResponse GpVarDiagMixinResponse
               GpEndpointResponse GpEndpointResponse.
      open_mapping. change (PList []) with (PList (map PFloat [])) at 1.
      rewrite (ListOfFloats_accepts None []). cbn [map]. unfold SchemaNode_.
      rewrite String_required_cases. now destruct (String.eqb s EmptyString).
Qed.

(** X11. [OptimizerInfo] checks the optimizer type and the two counts, and
    returns the optimizer parameters as they are: no content of
    [optimizer_parameters] is ever an error. *)
Theorem OptimizerInfo_does_not_validate_parameters (t : string) (n1 n2 : Z)
    (params : dict) (Hparams : NoDup (keys params)) :
  deserialize py (new (OptimizerInfo K) None)
    (PDict [("optimizer_type", PStr t); ("num_multistarts", PInt n1);
            ("num_random_samples", PInt n2); ("optimizer_parameters", PDict params)])
  = finish
      (PDict [("optimizer_type", if String.eqb t EmptyString then PNone else PStr t);
              ("num_multistarts", PInt n1); ("num_random_samples", PInt n2);
              ("optimizer_parameters", PDict params)])
      ((if negb (String.eqb t EmptyString)
           && negb (existsb (String.eqb t) (constant.OPTIMIZER_TYPES K))
        then [(0, NotOneOf)] else [])
       ++ (if (n1 <? 1)%Z then [(1, BelowMin)] else [])
       ++ (if (n2 <? 0)%Z then [(2, BelowMin)] else []))%list.
Proof.
  open_class (OptimizerInfo K) OptimizerInfo. open_mapping. unfold SchemaNode_.
  rewrite open_mapping_preserves by exact Hparams.
  rewrite String_enumerated_cases. leaves.
  destruct (String.eqb t EmptyString);
    [|destruct (existsb (String.eqb t) (constant.OPTIMIZER_TYPES K))];
    destruct (n1 <? 1)%Z, (n2 <? 0)%Z; reflexivity.
Qed.

(** X12. With pairwise distinct tags, the dispatch table maps each of the
    three tags to its own schema class and has no entry for any other
    key. *)
Theorem OPTIMIZER_TYPES_TO_SCHEMA_CLASSES_entries (t : string)
    (H1 : constant.NULL_OPTIMIZER K <> constant.NEWTON_OPTIMIZER K)
    (H2 : constant.NULL_OPTIMIZER K <> constant.GRADIENT_DESCENT_OPTIMIZER K)
    (H3 : constant.NEWTON_OPTIMIZER K <> constant.GRADIENT_DESCENT_OPTIMIZER K)
    (Ht1 : t <> constant.NULL_OPTIMIZER K)
    (Ht2 : t <> constant.NEWTON_OPTIMIZER K)
    (Ht3 : t <> constant.GRADIENT_DESCENT_OPTIMIZER K) :
  table_get (constant.NEWTON_OPTIMIZER K) (OPTIMIZER_TYPES_TO_SCHEMA_CLASSES K)
    = Some NewtonParametersSchema
  /\ table_get (constant.GRADIENT_DESCENT_OPTIMIZER K) (OPTIMIZER_TYPES_TO_SCHEMA_CLASSES K)
     = Some GradientDescentParametersSchema
  /\ table_get t (OPTIMIZER_TYPES_TO_SCHEMA_CLASSES K) = None
  /\ declared (new NewtonParametersSchema None)
     = ["max_num_steps"; "gamma"; "time_factor"; "max_relative_change"; "tolerance"]
  /\ declared (new GradientDescentParametersSchema None)
     = ["max_num_steps"; "max_num_restarts"; "num_steps_averaged"; "gamma"; "pre_mult";
        "max_relative_change"; "tolerance"].
Proof.
  unfold table_get, OPTIMIZER_TYPES_TO_SCHEMA_CLASSES. cbn [fold_left fst snd].
  repeat split.
  - rewrite String.eqb_refl.
    destruct (String.eqb_spec (constant.NEWTON_OPTIMIZER K)
                              (constant.GRADIENT_DESCENT_OPTIMIZER K)); [contradiction|].
    destruct (String.eqb_spec (constant.NEWTON_OPTIMIZER K) (constant.NULL_OPTIMIZER K));
      reflexivity.
  - now rewrite String.eqb_refl.
  - destruct (String.eqb_spec t (constant.NULL_OPTIMIZER K)); [contradiction|].
    destruct (String.eqb_spec t (constant.NEWTON_OPTIMIZER K)); [contradiction|].
    destruct (String.eqb_spec t (constant.GRADIENT_DESCENT_OPTIMIZER K)); [contradiction|].
    reflexivity.
Qed.

(** ** What holds of every schema of the module *)

Lemma schema_class_shape (cls : pyclass) :
  In cls (schema_classes py K) ->
  node_typ (new cls None) = Mapping raise
  /\ NoDup (declared (new cls None))
  /\ (forall c, In c (node_children (new cls None)) -> node_typ c <> Unconstructible).
Proof.
  intros Hcls.
  assert (H : node_typ (new cls None) = Mapping raise
              /\ distinct (declared (new cls None)) = true
              /\ forallb (fun c => match node_typ c with
                                   | Unconstructible => false
                                   | _ => true
                                   end) (node_children (new cls None)) = true).
  { revert Hcls. unfold schema_classes. cbn [In]. intros H.
    repeat (destruct H as [<-|H]; [repeat split; vm_compute; reflexivity|]).
    destruct H. }
  destruct H as (Ht & Hd & Hc). split; [exact Ht|]. split; [now apply distinct_NoDup|].
  intros c Hin. rewrite forallb_forall in Hc. specialize (Hc c Hin).
  intros E. rewrite E in Hc. discriminate.
Qed.

Lemma keys_combine (l : list string) (vals : list pyval) :
  List.length l = List.length vals -> keys (combine l vals) = l.
Proof.
  revert vals. induction l as [|k l IH]; intros [|v vals]; simpl; try discriminate; auto.
  intros H. f_equal. apply IH. now injection H.
Qed.

(** X13. A field declared without [missing] cannot be left out: every schema
    of the module refuses a payload that omits one of its required
    fields. [default=] does not make a field optional, so that a status
    requires its [optimizer_success]. *)
Theorem required_fields_cannot_be_omitted (cls : pyclass) (value : dict) (k : string)
    (Hcls : In cls (schema_classes py K))
    (Hk : In k (required_fields (new cls None)))
    (Habsent : dict_get k value = None) :
  (exists e, deserialize py (new cls None) (PDict value) = Invalid e)
  /\ required_fields (new (GpNextPointsRequest py K) None)
     = ["gp_historical_info"; "domain_info"]
  /\ required_fields (new (GpNextPointsConstantLiarRequest py K) None)
     = ["gp_historical_info"; "domain_info"]
  /\ required_fields (new (GpNextPointsKrigingRequest py K) None)
     = ["gp_historical_info"; "domain_info"]
  /\ required_fields (new (GpHyperOptRequest py K) None)
     = ["gp_historical_info"; "domain_info"; "hyperparameter_domain_info"]
  /\ required_fields (new (GpMeanVarRequest py K) None)
     = ["points_to_sample"; "gp_historical_info"; "domain_info"]
  /\ required_fields (new (GpEiRequest py K) None)
     = ["points_to_evaluate"; "gp_historical_info"; "domain_info"]
  /\ required_fields (new GpNextPointsStatus None)
     = ["expected_improvement"; "optimizer_success"]
  /\ required_fields (new GpHyperOptStatus None)
     = ["log_likelihood"; "grad_log_likelihood"; "optimizer_success"]
  /\ required_fields (new GpNextPointsResponse None)
     = ["endpoint"; "points_to_sample"; "status"]
  /\ required_fields (new (GpHyperOptResponse K) None)
     = ["endpoint"; "covariance_info"; "status"]
  /\ required_fields (new GpHistoricalInfo None) = ["points_sampled"]
  /\ required_fields (new (OptimizerInfo K) None) = []
  /\ required_fields (new (CovarianceInfo K) None) = [].
Proof.
  split; [|repeat split; vm_compute; reflexivity].
  destruct (schema_class_shape Hcls) as (Ht & Hnd & Hty).
  unfold required_fields in Hk. apply in_map_iff in Hk. destruct Hk as (c & Hname & Hc).
  apply filter_In in Hc. destruct Hc as [Hin Hm].
  apply (@Mapping_child_fails py (new cls None) c raise value Required); auto.
  rewrite arg_of_absent by (rewrite Hname; exact Habsent).
  rewrite deserialize_null by (apply Hty; exact Hin).
  destruct (node_missing c); [discriminate|reflexivity].
Qed.

(** X14. A field declared with [missing] and left out of an accepted payload
    comes back with that value, in every schema of the module; the
    values are those of the tables below, where the covariance and the
    optimizer information are the readings of an empty mapping. *)
Theorem omitted_optional_fields_get_defaults (cls : pyclass) (value : dict) (a m : pyval)
    (k : string)
    (Hcls : In cls (schema_classes py K))
    (Hok : deserialize py (new cls None) (PDict value) = Ok a)
    (Hk : In (k, m) (defaults (new cls None)))
    (Habsent : dict_get k value = None) :
  (exists d, a = PDict d /\ dict_get k d = Some m)
  /\ defaults (new (GpNextPointsRequest py K) None)
     = [("num_to_sample", PInt 1);
        ("mc_iterations", PInt (constant.DEFAULT_EXPECTED_IMPROVEMENT_MC_ITERATIONS K));
        ("max_num_threads", PInt (constant.DEFAULT_MAX_NUM_THREADS K));
        ("covariance_info",
         PDict [("covariance_type", PStr (constant.SQUARE_EXPONENTIAL_COVARIANCE_TYPE K));
                ("hyperparameters", PNone)]);
        ("optimizer_info",
         PDict [("optimizer_type", PNone); ("num_multistarts", PNone);
                ("num_random_samples", PNone); ("optimizer_parameters", PNone)]);
        ("points_being_sampled", PList [])]
  /\ defaults (new (GpHyperOptRequest py K) None)
     = [("max_num_threads", PInt (constant.DEFAULT_MAX_NUM_THREADS K));
        ("covariance_info",
         PDict [("covariance_type", PStr (constant.SQUARE_EXPONENTIAL_COVARIANCE_TYPE K));
                ("hyperparameters", PNone)]);
        ("optimizer_info",
         PDict [("optimizer_type", PNone); ("num_multistarts", PNone);
                ("num_random_samples", PNone); ("optimizer_parameters", PNone)]);
        ("log_likelihood_info", PStr (constant.LOG_MARGINAL_LIKELIHOOD K))]
  /\ defaults (new (GpMeanVarRequest py K) None)
     = [("covariance_info",
         PDict [("covariance_type", PStr (constant.SQUARE_EXPONENTIAL_COVARIANCE_TYPE K));
                ("hyperparameters", PNone)])]
  /\ defaults (new (GpEiRequest py K) None)
     = [("points_being_sampled", PList []);
        ("mc_iterations", PInt (constant.DEFAULT_EXPECTED_IMPROVEMENT_MC_ITERATIONS K));
        ("max_num_threads", PInt (constant.DEFAULT_MAX_NUM_THREADS K));
        ("covariance_info",
         PDict [("covariance_type", PStr (constant.SQUARE_EXPONENTIAL_COVARIANCE_TYPE K));
                ("hyperparameters", PNone)])]
  /\ defaults (new SinglePoint None) = [("value_var", PFloat f0_0)]
  /\ defaults (new GpNextPointsStatus None) = []
  /\ defaults (new GpHyperOptStatus None) = [].
Proof.
  split; [|repeat split; vm_compute; reflexivity].
  destruct (schema_class_shape Hcls) as (Ht & Hnd & Hty).
  unfold defaults, missing_of in Hk. apply in_flat_map in Hk. destruct Hk as (c & Hin & Hc).
  destruct (node_missing c) as [m'|] eqn:Hm; [|destruct Hc].
  destruct Hc as [Hc|[]]. injection Hc as Hname <-.
  rewrite <- Hname in Habsent |- *.
  apply (@omitted_field_gets_missing (new cls None) c value a m' Ht Hnd Hok Hin Hm);
    auto.
Qed.

(** X15. Every schema of the module names its fields: an accepted payload
    holds declared keys only, and what comes back binds exactly the
    declared names, in the order of their declaration. *)
Theorem accepted_payloads_have_the_declared_keys (cls : pyclass) (value : dict) (a : pyval)
    (Hcls : In cls (schema_classes py K))
    (Hok : deserialize py (new cls None) (PDict value) = Ok a) :
  (forall k, In k (keys value) -> In k (declared (new cls None)))
  /\ exists d, a = PDict d /\ keys d = declared (new cls None).
Proof.
  destruct (schema_class_shape Hcls) as (Ht & Hnd & _).
  destruct (Mapping_succeeds_inv py (new cls None) value Ht Hnd Hok)
    as (vals & Hvals & Hlo & ->).
  specialize (Hlo eq_refl). split.
  - intros k Hin. destruct (in_dec string_dec k (declared (new cls None))) as [|Hnot]; auto.
    assert (Hk : In k (keys (leftover (node_children (new cls None)) value))).
    { apply keys_leftover. auto. }
    rewrite Hlo in Hk. destruct Hk.
  - eexists. split; [reflexivity|]. apply keys_combine.
    unfold declared. rewrite length_map. exact (Forall2_length Hvals).
Qed.

(** ** Schemas that extend a schema *)

Lemma leftover_app (base extra : list SchemaNode) (value : dict) :
  leftover (base ++ extra) value = leftover extra (leftover base value).
Proof. unfold leftover. apply fold_left_app. Qed.

Lemma leftover_left_out (extra : list SchemaNode) (value : dict) :
  Forall (fun c => ~ In (node_name c) (keys value)) extra ->
  leftover extra value = value.
Proof.
  induction 1 as [|c extra Hc _ IH]; [reflexivity|].
  unfold leftover in *. cbn [fold_left].
  rewrite dict_del_absent by (apply dict_get_None_not_In; exact Hc). exact IH.
Qed.

Lemma add_results_app (o1 o2 : list (string * outcome)) :
  forall r, add_results r (o1 ++ o2) = add_results (add_results r o1) o2.
Proof.
  induction o1 as [|[k [a|e]] o1 IH]; intros r; cbn [app add_results]; auto.
Qed.

Lemma add_errors_app (o1 o2 : list (string * outcome)) :
  forall n e,
    add_errors n e (o1 ++ o2) = add_errors (n + List.length o1) (add_errors n e o1) o2.
Proof.
  induction o1 as [|[k [a|x]] o1 IH]; intros n e; cbn [app add_errors List.length].
  - now rewrite Nat.add_0_r.
  - rewrite IH. now rewrite Nat.add_succ_r.
  - rewrite IH. now rewrite Nat.add_succ_r.
Qed.

Lemma outcomes_left_out (extra : list SchemaNode) (value : dict) :
  left_out extra value ->
  Forall (fun c => node_missing c <> None /\ node_typ c <> Unconstructible) extra ->
  Forall2 (fun o a => snd o = Ok a) (outcomes (deserialize py) extra value)
          (map snd (missing_of extra))
  /\ map fst (outcomes (deserialize py) extra value) = map fst (missing_of extra)
  /\ map fst (missing_of extra) = map node_name extra.
Proof.
  unfold left_out. induction 1 as [|c extra Hc _ IH]; intros Hall.
  - repeat split. constructor.
  - inversion Hall as [|? ? Hhd Hall']; subst. destruct Hhd as [Hm Hty].
    destruct (IH Hall') as (H1 & H2 & H3).
    unfold outcomes, missing_of in *. cbn [map flat_map].
    rewrite arg_of_absent by exact Hc. rewrite deserialize_null by exact Hty.
    destruct (node_missing c) as [m|]; [|now elim Hm].
    cbn [app map fst snd]. repeat split.
    + constructor; [reflexivity | exact H1].
    + now rewrite H2.
    + now rewrite H3.
Qed.

(** A strict mapping whose children are those of another one followed by
    optional fields reads a dictionary without these fields as the other
    mapping does, and appends the [missing] values of the fields. *)
Lemma strict_extension nm nm' (base extra : list SchemaNode) m m' d d' (value : dict) :
  NoDup (map node_name (base ++ extra)) ->
  left_out extra value ->
  Forall (fun c => node_missing c <> None /\ node_typ c <> Unconstructible) extra ->
  deserialize py (Node nm' (Mapping raise) (base ++ extra) None m' d') (PDict value)
  = match deserialize py (Node nm (Mapping raise) base None m d) (PDict value) with
    | Ok (PDict r) => Ok (PDict (r ++ missing_of extra))
    | other => other
    end.
Proof.
  intros Hnd Hout Hopt.
  assert (Hnd1 : NoDup (map node_name base)).
  { rewrite map_app in Hnd. exact (NoDup_app_remove_r _ _ Hnd). }
  rewrite !deserialize_Mapping.
  rewrite (Mapping_impl_spec (deserialize py) raise (base ++ extra) value Hnd).
  rewrite (Mapping_impl_spec (deserialize py) raise base value Hnd1).
  cbv zeta.
  assert (Hlo : leftover (base ++ extra) value = leftover base value).
  { rewrite leftover_app. apply leftover_left_out.
    unfold left_out in Hout. rewrite Forall_forall in Hout |- *. intros c Hc Hin.
    apply keys_leftover in Hin. destruct Hin as [Hin _].
    specialize (Hout c Hc). apply dict_get_None_not_In in Hout. auto. }
  rewrite Hlo. destruct (leftover base value) as [|kv rest]; [|reflexivity].
  destruct (outcomes_left_out Hout Hopt) as (Hvals & Hfst & Hnames).
  assert (Hok2 : Forall (fun o => exists a, snd o = Ok a)
                        (outcomes (deserialize py) extra value)).
  { clear - Hvals. induction Hvals; constructor; eauto. }
  unfold outcomes at 1 2. rewrite map_app. fold (outcomes (deserialize py) base value).
  fold (outcomes (deserialize py) extra value).
  rewrite add_errors_app, add_results_app.
  rewrite (add_errors_ok Hok2).
  destruct (add_errors 0 [] (outcomes (deserialize py) base value)) as [|p err] eqn:Herr;
    [|reflexivity].
  cbn [finish validated]. do 2 f_equal.
  apply add_errors_nil in Herr. destruct Herr as [_ Hok1].
  destruct (Forall_Ok_Forall2 Hok1) as [vals1 Hvals1].
  assert (Hfst1 : map fst (outcomes (deserialize py) base value) = map node_name base).
  { unfold outcomes. rewrite map_map. reflexivity. }
  assert (Hr : add_results [] (outcomes (deserialize py) base value)
               = combine (map node_name base) vals1).
  { rewrite (add_results_ok Hvals1) by (cbn [keys map app]; rewrite Hfst1; exact Hnd1).
    now rewrite Hfst1. }
  rewrite (add_results_ok Hvals).
  - rewrite Hfst. f_equal. clear.
    induction (missing_of extra) as [|[k v] l IH]; [reflexivity|].
    cbn [map combine fst snd]. congruence.
  - rewrite Hr, keys_combine.
    + rewrite Hfst, Hnames, <- map_app. exact Hnd.
    + rewrite length_map, <- (Forall2_length Hvals1). unfold outcomes.
      now rewrite length_map.
Qed.

(** ** The requests *)

Lemma enumerated_cases nm ch (choices : list string) (dflt : pyval) (s : string) d :
  enumerated s choices = true ->
  deserialize py (Node nm String ch (Some (OneOf choices)) (Some dflt) d) (PStr s)
  = Ok (PStr s).
Proof.
  unfold enumerated. intros H. apply andb_prop in H. destruct H as [H1 H2].
  rewrite String_enumerated_cases.
  destruct (String.eqb s EmptyString); [discriminate|]. now rewrite H2.
Qed.

Lemma DomainInfo_accepts (m : option pyval) (s : string) (dim : Z) :
  enumerated s (constant.DOMAIN_TYPES K) = true -> (0 <= dim)%Z ->
  deserialize py (new (DomainInfo K) m) (domain_info_of s dim) = Ok (domain_info_of s dim).
Proof.
  intros Hs Hdim. unfold domain_info_of.
  open_class (DomainInfo K) DomainInfo. open_mapping. unfold SchemaNode_.
  rewrite enumerated_cases by exact Hs.
  rewrite deserialize_Int_PInt. unfold validated. rewrite Range_min_int_cases.
  replace (dim <? 0)%Z with false by (symmetry; apply Z.ltb_ge; exact Hdim).
  reflexivity.
Qed.

Lemma BoundedDomainInfo_accepts (m : option pyval) (s : string) (dim : Z)
    (bounds : list (spec_float * spec_float)) :
  enumerated s (constant.DOMAIN_TYPES K) = true -> (0 <= dim)%Z ->
  deserialize py (new (BoundedDomainInfo K) m) (bounded_domain_info_of s dim bounds)
  = Ok (bounded_domain_info_of s dim bounds).
Proof.
  intros Hs Hdim. unfold bounded_domain_info_of.
  open_subclass (BoundedDomainInfo K) BoundedDomainInfo (DomainInfo K) DomainInfo.
  open_mapping. rewrite Domain_accepts. unfold SchemaNode_.
  rewrite enumerated_cases by exact Hs.
  rewrite deserialize_Int_PInt. unfold validated. rewrite Range_min_int_cases.
  replace (dim <? 0)%Z with false by (symmetry; apply Z.ltb_ge; exact Hdim).
  reflexivity.
Qed.

Lemma forallb_existsb_negb {A} (f : A -> bool) (l : list A) :
  forallb f l = true -> existsb (fun x => negb (f x)) l = false.
Proof.
  induction l as [|x l IH]; cbn [forallb existsb]; [reflexivity|].
  intros H. apply andb_prop in H. destruct H as [H1 H2]. now rewrite H1, IH.
Qed.

Lemma CovarianceInfo_accepts (m : option pyval) (s : string) (l : list spec_float) :
  enumerated s (constant.COVARIANCE_TYPES K) = true ->
  forallb is_positive_finite l = true ->
  deserialize py (new (CovarianceInfo K) m) (covariance_info_of s l)
  = Ok (covariance_info_of s l).
Proof.
  intros Hs Hl. unfold covariance_info_of.
  open_class (CovarianceInfo K) CovarianceInfo. open_mapping.
  rewrite ListOfPositiveFloats_floats. unfold SchemaNode_.
  rewrite enumerated_cases by exact Hs.
  replace (positions (fun f => negb (is_positive_finite f)) NotPositiveFinite 0 l)
    with (@nil (nat * reason)); [reflexivity|].
  symmetry. apply positions_nil. now apply forallb_existsb_negb.
Qed.

Lemma OptimizerInfo_accepts (m : option pyval) (t : string) (n1 n2 : Z) (params : dict) :
  enumerated t (constant.OPTIMIZER_TYPES K) = true ->
  (1 <= n1)%Z -> (0 <= n2)%Z -> NoDup (keys params) ->
  deserialize py (new (OptimizerInfo K) m) (optimizer_info_of t n1 n2 params)
  = Ok (optimizer_info_of t n1 n2 params).
Proof.
  intros Ht H1 H2 Hnd. unfold optimizer_info_of.
  open_class (OptimizerInfo K) OptimizerInfo. open_mapping. unfold SchemaNode_.
  rewrite open_mapping_preserves by exact Hnd.
  rewrite enumerated_cases by exact Ht. leaves.
  replace (n1 <? 1)%Z with false by (symmetry; apply Z.ltb_ge; exact H1).
  replace (n2 <? 0)%Z with false by (symmetry; apply Z.ltb_ge; exact H2).
  reflexivity.
Qed.

Lemma Int_in_range nm ch m d (lo hi z : Z) :
  (lo <= z <= hi)%Z ->
  deserialize py (Node nm Int ch (Some (Range (Some (PInt lo)) (Some (PInt hi)))) m d) (PInt z)
  = Ok (PInt z).
Proof.
  intros [H1 H2]. rewrite deserialize_Int_PInt. unfold validated.
  rewrite Range_min_max_int_cases.
  replace (z <? lo)%Z with false by (symmetry; apply Z.ltb_ge; exact H1).
  replace (hi <? z)%Z with false by (symmetry; apply Z.ltb_ge; exact H2).
  reflexivity.
Qed.

Lemma Int_above nm ch m d (lo z : Z) :
  (lo <= z)%Z ->
  deserialize py (Node nm Int ch (Some (Range (Some (PInt lo)) None)) m d) (PInt z)
  = Ok (PInt z).
Proof.
  intros H1. rewrite deserialize_Int_PInt. unfold validated.
  rewrite Range_min_int_cases.
  replace (z <? lo)%Z with false by (symmetry; apply Z.ltb_ge; exact H1).
  reflexivity.
Qed.

(** X16. A [gp_mean_var] or [gp_ei] request whose parts are well formed is
    accepted and returned as it is. Nothing relates the parts to each
    other: the points, the sampled points and the hyperparameters may
    have any length, whatever [dim] says, and the history may be empty. *)
Theorem mean_var_and_ei_requests_do_not_cross_check
    (rows rows' : list (list spec_float))
    (ps : list (list spec_float * spec_float * spec_float))
    (s s' : string) (dim mc t : Z) (l : list spec_float)
    (Hps : existsb (fun p => is_negative (snd p)) ps = false)
    (Hs : enumerated s (constant.DOMAIN_TYPES K) = true)
    (Hdim : (0 <= dim)%Z)
    (Hs' : enumerated s' (constant.COVARIANCE_TYPES K) = true)
    (Hl : forallb is_positive_finite l = true)
    (Hmc : (1 <= mc)%Z)
    (Ht : (1 <= t <= constant.MAX_ALLOWED_NUM_THREADS K)%Z) :
  deserialize py (new (GpMeanVarRequest py K) None)
    (PDict [("points_to_sample", matrix rows);
            ("gp_historical_info", historical_info ps);
            ("domain_info", domain_info_of s dim);
            ("covariance_info", covariance_info_of s' l)])
  = Ok (PDict [("points_to_sample", matrix rows);
               ("gp_historical_info", historical_info ps);
               ("domain_info", domain_info_of s dim);
               ("covariance_info", covariance_info_of s' l)])
  /\ deserialize py (new (GpEiRequest py K) None)
       (PDict [("points_to_evaluate", matrix rows);
               ("points_being_sampled", matrix rows');
               ("mc_iterations", PInt mc);
               ("max_num_threads", PInt t);
               ("gp_historical_info", historical_info ps);
               ("domain_info", domain_info_of s dim);
               ("covariance_info", covariance_info_of s' l)])
     = Ok (PDict [("points_to_evaluate", matrix rows);
                  ("points_being_sampled", matrix rows');
                  ("mc_iterations", PInt mc);
                  ("max_num_threads", PInt t);
                  ("gp_historical_info", historical_info ps);
                  ("domain_info", domain_info_of s dim);
                  ("covariance_info", covariance_info_of s' l)]).
Proof.
  split.
  - open_class (GpMeanVarRequest py K) GpMeanVarRequest. open_mapping.
    rewrite ListOfPointsInDomain_accepts.
    rewrite GpHistoricalInfo_accepts by exact Hps.
    rewrite DomainInfo_accepts by assumption.
    rewrite CovarianceInfo_accepts by assumption.
    reflexivity.
  - open_class (GpEiRequest py K) GpEiRequest. open_mapping.
    rewrite !ListOfPointsInDomain_accepts.
    rewrite GpHistoricalInfo_accepts by exact Hps.
    rewrite DomainInfo_accepts by assumption.
    rewrite CovarianceInfo_accepts by assumption.
    unfold SchemaNode_.
    rewrite Int_above by exact Hmc. rewrite Int_in_range by exact Ht.
    reflexivity.
Qed.

(** X17. A [gp_next_points] or [gp_hyper_opt] request whose parts are well
    formed is accepted and returned as it is. The number of intervals of
    a bounded domain is not compared with its [dim], nor the domain of
    the hyperparameters with their number, and the optimizer parameters
    are not looked at. *)
Theorem next_points_and_hyper_opt_requests_accept
    (rows : list (list spec_float))
    (ps : list (list spec_float * spec_float * spec_float))
    (s s' s'' ot ll : string) (dim dim' n mc t n1 n2 : Z) (l : list spec_float)
    (bounds bounds' : list (spec_float * spec_float)) (params : dict)
    (Hps : existsb (fun p => is_negative (snd p)) ps = false)
    (Hs : enumerated s (constant.DOMAIN_TYPES K) = true)
    (Hdim : (0 <= dim)%Z)
    (Hs'' : enumerated s'' (constant.DOMAIN_TYPES K) = true)
    (Hdim' : (0 <= dim')%Z)
    (Hs' : enumerated s' (constant.COVARIANCE_TYPES K) = true)
    (Hl : forallb is_positive_finite l = true)
    (Hot : enumerated ot (constant.OPTIMIZER_TYPES K) = true)
    (Hn1 : (1 <= n1)%Z) (Hn2 : (0 <= n2)%Z)
    (Hparams : NoDup (keys params))
    (Hll : enumerated ll (constant.LIKELIHOOD_TYPES K) = true)
    (Hn : (1 <= n)%Z)
    (Hmc : (1 <= mc)%Z)
    (Ht : (1 <= t <= constant.MAX_ALLOWED_NUM_THREADS K)%Z) :
  deserialize py (new (GpNextPointsRequest py K) None)
    (PDict [("num_to_sample", PInt n);
            ("mc_iterations", PInt mc);
            ("max_num_threads", PInt t);
            ("gp_historical_info", historical_info ps);
            ("domain_info", bounded_domain_info_of s dim bounds);
            ("covariance_info", covariance_info_of s' l);
            ("optimizer_info", optimizer_info_of ot n1 n2 params);
            ("points_being_sampled", matrix rows)])
  = Ok (PDict [("num_to_sample", PInt n);
               ("mc_iterations", PInt mc);
               ("max_num_threads", PInt t);
               ("gp_historical_info", historical_info ps);
               ("domain_info", bounded_domain_info_of s dim bounds);
               ("covariance_info", covariance_info_of s' l);
               ("optimizer_info", optimizer_info_of ot n1 n2 params);
               ("points_being_sampled", matrix rows)])
  /\ deserialize py (new (GpHyperOptRequest py K) None)
       (PDict [("max_num_threads", PInt t);
               ("gp_historical_info", historical_info ps);
               ("domain_info", domain_info_of s dim);
               ("covariance_info", covariance_info_of s' l);
               ("hyperparameter_domain_info", bounded_domain_info_of s'' dim' bounds');
               ("optimizer_info", optimizer_info_of ot n1 n2 params);
               ("log_likelihood_info", PStr ll)])
     = Ok (PDict [("max_num_threads", PInt t);
                  ("gp_historical_info", historical_info ps);
                  ("domain_info", domain_info_of s dim);
                  ("covariance_info", covariance_info_of s' l);
                  ("hyperparameter_domain_info", bounded_domain_info_of s'' dim' bounds');
                  ("optimizer_info", optimizer_info_of ot n1 n2 params);
                  ("log_likelihood_info", PStr ll)]).
Proof.
  split.
  - open_class (GpNextPointsRequest py K) GpNextPointsRequest. open_mapping.
    rewrite ListOfPointsInDomain_accepts.
    rewrite GpHistoricalInfo_accepts by exact Hps.
    rewrite BoundedDomainInfo_accepts by assumption.
    rewrite CovarianceInfo_accepts by assumption.
    rewrite OptimizerInfo_accepts by assumption.
    unfold SchemaNode_.
    rewrite !Int_above by assumption. rewrite Int_in_range by exact Ht.
    reflexivity.
  - open_class (GpHyperOptRequest py K) GpHyperOptRequest. open_mapping.
    rewrite GpHistoricalInfo_accepts by exact Hps.
    rewrite DomainInfo_accepts by assumption.
    rewrite BoundedDomainInfo_accepts by assumption.
    rewrite CovarianceInfo_accepts by assumption.
    rewrite OptimizerInfo_accepts by assumption.
    unfold SchemaNode_.
    rewrite Int_in_range by exact Ht. rewrite enumerated_cases by exact Hll.
    reflexivity.
Qed.

(** X18. The constant-liar and kriging requests are the [gp_next_points]
    request with further optional fields: a payload without these fields
    is read as by [GpNextPointsRequest], refused for the same reason or
    returned with the defaults of the fields appended. *)
Theorem liar_and_kriging_requests_extend_next_points (value : dict)
    (Hout : forall k,
        In k ["lie_method"; "lie_value"; "lie_noise_variance";
              "std_deviation_coef"; "kriging_noise_variance"] ->
        dict_get k value = None) :
  deserialize py (new (GpNextPointsConstantLiarRequest py K) None) (PDict value)
  = match deserialize py (new (GpNextPointsRequest py K) None) (PDict value) with
    | Ok (PDict r) =>
        Ok (PDict (r ++ [("lie_method", PStr (constant.DEFAULT_CONSTANT_LIAR_METHOD K));
                         ("lie_value", PNone);
                         ("lie_noise_variance",
                          PFloat (constant.DEFAULT_CONSTANT_LIAR_LIE_NOISE_VARIANCE K))]))
    | other => other
    end
  /\ deserialize py (new (GpNextPointsKrigingRequest py K) None) (PDict value)
     = match deserialize py (new (GpNextPointsRequest py K) None) (PDict value) with
       | Ok (PDict r) =>
           Ok (PDict (r ++ [("std_deviation_coef",
                             PFloat (constant.DEFAULT_KRIGING_STD_DEVIATION_COEF K));
                            ("kriging_noise_variance",
                             PFloat (constant.DEFAULT_KRIGING_NOISE_VARIANCE K))]))
       | other => other
       end.
Proof.
  split.
  - change (new (GpNextPointsConstantLiarRequest py K) None)
      with (Node EmptyString (Mapping raise)
                 (class_schema_nodes (GpNextPointsRequest py K)
                  ++ class_schema_nodes (GpNextPointsConstantLiarRequest py K))%list
                 None None None).
    change (new (GpNextPointsRequest py K) None)
      with (Node EmptyString (Mapping raise)
                 (class_schema_nodes (GpNextPointsRequest py K)) None None None).
    rewrite (@strict_extension EmptyString EmptyString
               (class_schema_nodes (GpNextPointsRequest py K))
               (class_schema_nodes (GpNextPointsConstantLiarRequest py K))
               None None None None value).
    + reflexivity.
    + apply distinct_NoDup. reflexivity.
    + repeat constructor; apply Hout; cbn [In]; auto 10.
    + repeat constructor; discriminate.
  - change (new (GpNextPointsKrigingRequest py K) None)
      with (Node EmptyString (Mapping raise)
                 (class_schema_nodes (GpNextPointsRequest py K)
                  ++ class_schema_nodes (GpNextPointsKrigingRequest py K))%list
                 None None None).
    change (new (GpNextPointsRequest py K) None)
      with (Node EmptyString (Mapping raise)
                 (class_schema_nodes (GpNextPointsRequest py K)) None None None).
    rewrite (@strict_extension EmptyString EmptyString
               (class_schema_nodes (GpNextPointsRequest py K))
               (class_schema_nodes (GpNextPointsKrigingRequest py K))
               None None None None value).
    + reflexivity.
    + apply distinct_NoDup. reflexivity.
    + repeat constructor; apply Hout; cbn [In]; auto 10.
    + repeat constructor; discriminate.
Qed.

Lemma Int_below nm ch m d (lo z : Z) :
  (z < lo)%Z ->
  deserialize py (Node nm Int ch (Some (Range (Some (PInt lo)) None)) m d) (PInt z)
  = Invalid BelowMin.
Proof.
  intros H. rewrite deserialize_Int_PInt. unfold validated. rewrite Range_min_int_cases.
  replace (z <? lo)%Z with true by (symmetry; apply Z.ltb_lt; exact H). reflexivity.
Qed.

Lemma Int_out_of_range nm ch m d (lo hi z : Z) :
  (z < lo)%Z \/ (hi < z)%Z ->
  exists e,
    deserialize py (Node nm Int ch (Some (Range (Some (PInt lo)) (Some (PInt hi)))) m d)
                (PInt z) = Invalid e.
Proof.
  intros H. rewrite deserialize_Int_PInt. unfold validated.
  rewrite Range_min_max_int_cases.
  destruct (Z.ltb_spec z lo); [eauto|].
  destruct (Z.ltb_spec hi z); [eauto|]. lia.
Qed.

Lemma Float_below_zero nm ch m d (f : spec_float) :
  is_negative f = true ->
  deserialize py (Node nm Float ch (Some (Range (Some (PFloat f0_0)) None)) m d) (PFloat f)
  = Invalid BelowMin.
Proof.
  intros H. rewrite deserialize_Float_PFloat. unfold validated.
  rewrite Range_min_float_cases, SFltb_zero_is_negative, H. reflexivity.
Qed.

(** A payload that binds [k] first to [x] is refused by a schema whose
    node for [k] refuses [x]. *)
Lemma bound_field_refused (cls : pyclass) (c : SchemaNode) (k : string) (x : pyval)
    (value : dict) (e : reason) :
  node_typ (new cls None) = Mapping raise ->
  distinct (declared (new cls None)) = true ->
  In c (node_children (new cls None)) ->
  node_name c = k ->
  deserialize py c x = Invalid e ->
  exists e', deserialize py (new cls None) (PDict ((k, x) :: value)) = Invalid e'.
Proof.
  intros Ht Hnd Hin Hk Hc.
  apply (@Mapping_field_refused (new cls None) c raise ((k, x) :: value) x e); auto.
  - now apply distinct_NoDup.
  - rewrite Hk. cbn [dict_get]. now rewrite String.eqb_refl.
Qed.

Ltac find_child := solve [repeat (first [left; reflexivity | right])].

Ltac refuse_field c e :=
  apply (@bound_field_refused _ c _ _ _ e);
  [ reflexivity | reflexivity | find_child | reflexivity | ].

(** X19. The counts of the requests are bounded in every schema that declares
    them: [num_to_sample] and [mc_iterations] are at least 1 and
    [max_num_threads] lies between 1 and the allowed maximum, whatever
    else the payload holds. *)
Theorem request_counts_are_bounded (value : dict) (z t : Z)
    (Hz : (z < 1)%Z)
    (Ht : (t < 1)%Z \/ (constant.MAX_ALLOWED_NUM_THREADS K < t)%Z) :
  Forall (fun cls => exists e,
            deserialize py (new cls None) (PDict (("num_to_sample", PInt z) :: value))
            = Invalid e)
         [GpNextPointsRequest py K; GpNextPointsConstantLiarRequest py K;
          GpNextPointsKrigingRequest py K]
  /\ Forall (fun cls => exists e,
               deserialize py (new cls None) (PDict (("mc_iterations", PInt z) :: value))
               = Invalid e)
            [GpNextPointsRequest py K; GpNextPointsConstantLiarRequest py K;
             GpNextPointsKrigingRequest py K; GpEiRequest py K]
  /\ Forall (fun cls => exists e,
               deserialize py (new cls None) (PDict (("max_num_threads", PInt t) :: value))
               = Invalid e)
            [GpNextPointsRequest py K; GpNextPointsConstantLiarRequest py K;
             GpNextPointsKrigingRequest py K; GpHyperOptRequest py K; GpEiRequest py K].
Proof.
  pose (c1 := set_name "num_to_sample"
                (SchemaNode_ Int (Some (Range (Some (PInt 1)) None)) (Some (PInt 1)) None)).
  pose (c2 := set_name "mc_iterations"
                (SchemaNode_ Int (Some (Range (Some (PInt 1)) None))
                   (Some (PInt (constant.DEFAULT_EXPECTED_IMPROVEMENT_MC_ITERATIONS K)))
                   None)).
  pose (c3 := set_name "max_num_threads"
                (SchemaNode_ Int
                   (Some (Range (Some (PInt 1))
                                (Some (PInt (constant.MAX_ALLOWED_NUM_THREADS K)))))
                   (Some (PInt (constant.DEFAULT_MAX_NUM_THREADS K))) None)).
  assert (H1 : deserialize py c1 (PInt z) = Invalid BelowMin).
  { unfold c1. rewrite deserialize_attr. unfold SchemaNode_. now apply Int_below. }
  assert (H2 : deserialize py c2 (PInt z) = Invalid BelowMin).
  { unfold c2. rewrite deserialize_attr. unfold SchemaNode_. now apply Int_below. }
  assert (H3 : exists e, deserialize py c3 (PInt t) = Invalid e).
  { unfold c3. rewrite deserialize_attr. unfold SchemaNode_. now apply Int_out_of_range. }
  destruct H3 as [e3 H3].
  split; [|split].
  - repeat constructor; refuse_field c1 BelowMin; exact H1.
  - repeat constructor; refuse_field c2 BelowMin; exact H2.
  - repeat constructor; refuse_field c3 e3; exact H3.
Qed.

(** X20. The fields that the constant-liar and the kriging requests add are
    checked: a noise variance is not negative and the lie method is one
    of the constant-liar methods. *)
Theorem liar_and_kriging_fields_are_checked (value : dict) (f : spec_float) (s : string)
    (Hf : is_negative f = true)
    (Hs : s <> EmptyString)
    (Hnot : existsb (String.eqb s) (constant.CONSTANT_LIAR_METHODS K) = false) :
  (exists e, deserialize py (new (GpNextPointsConstantLiarRequest py K) None)
               (PDict (("lie_noise_variance", PFloat f) :: value)) = Invalid e)
  /\ (exists e, deserialize py (new (GpNextPointsKrigingRequest py K) None)
                  (PDict (("kriging_noise_variance", PFloat f) :: value)) = Invalid e)
  /\ (exists e, deserialize py (new (GpNextPointsConstantLiarRequest py K) None)
                  (PDict (("lie_method", PStr s) :: value)) = Invalid e).
Proof.
  split; [|split].
  - refuse_field
      (set_name "lie_noise_variance"
         (SchemaNode_ Float (Some (Range (Some (PFloat f0_0)) None))
            (Some (PFloat (constant.DEFAULT_CONSTANT_LIAR_LIE_NOISE_VARIANCE K))) None))
      BelowMin.
    rewrite deserialize_attr. unfold SchemaNode_. now apply Float_below_zero.
  - refuse_field
      (set_name "kriging_noise_variance"
         (SchemaNode_ Float (Some (Range (Some (PFloat f0_0)) None))
            (Some (PFloat (constant.DEFAULT_KRIGING_NOISE_VARIANCE K))) None))
      BelowMin.
    rewrite deserialize_attr. unfold SchemaNode_. now apply Float_below_zero.
  - refuse_field
      (set_name "lie_method"
         (SchemaNode_ String (Some (OneOf (constant.CONSTANT_LIAR_METHODS K)))
            (Some (PStr (constant.DEFAULT_CONSTANT_LIAR_METHOD K))) None))
      NotOneOf.
    rewrite deserialize_attr. unfold SchemaNode_. rewrite String_enumerated_cases.
    destruct (String.eqb_spec s EmptyString); [contradiction|]. now rewrite Hnot.
Qed.

(** ** The responses of the optimizers *)

Lemma GpNextPointsStatus_reads (m : option pyval) (ei : spec_float) (d : dict) :
  NoDup (keys d) ->
  deserialize py (new GpNextPointsStatus m)
    (PDict [("expected_improvement", PFloat ei); ("optimizer_success", PDict d)])
  = finish (PDict [("expected_improvement", PFloat ei); ("optimizer_success", PDict d)])
           (if is_negative ei then [(0, BelowMin)] else []).
Proof.
  intros Hd. open_class GpNextPointsStatus GpNextPointsStatus. open_mapping.
  unfold SchemaNode_. rewrite open_mapping_preserves by exact Hd. leaves.
  now destruct (is_negative ei).
Qed.

Lemma GpHyperOptStatus_accepts (m : option pyval) (ll : spec_float)
    (grad : list spec_float) (d : dict) :
  NoDup (keys d) ->
  deserialize py (new GpHyperOptStatus m)
    (PDict [("log_likelihood", PFloat ll); ("grad_log_likelihood", PList (map PFloat grad));
            ("optimizer_success", PDict d)])
  = Ok (PDict [("log_likelihood", PFloat ll);
               ("grad_log_likelihood", PList (map PFloat grad));
               ("optimizer_success", PDict d)]).
Proof.
  intros Hd. open_class GpHyperOptStatus GpHyperOptStatus. open_mapping.
  rewrite ListOfFloats_accepts.
  unfold SchemaNode_. rewrite open_mapping_preserves by exact Hd.
  rewrite deserialize_Float_PFloat. reflexivity.
Qed.

(** X21. What the response schemas of the optimizers read. A
    [gp_next_points] response is refused for an empty endpoint or a
    negative expected improvement, reported under its status; a
    [gp_hyper_opt] response with well-formed covariance information is
    refused for an empty endpoint only: any log-likelihood and gradient
    are accepted, and the report of the optimizer is returned as it is. *)
Theorem optimizer_responses (s s' : string) (rows : list (list spec_float))
    (ei ll : spec_float) (grad l : list spec_float) (d : dict)
    (Hd : NoDup (keys d))
    (Hs' : enumerated s' (constant.COVARIANCE_TYPES K) = true)
    (Hl : forallb is_positive_finite l = true) :
  deserialize py (new GpNextPointsResponse None)
    (PDict [("endpoint", PStr s); ("points_to_sample", matrix rows);
            ("status", PDict [("expected_improvement", PFloat ei);
                              ("optimizer_success", PDict d)])])
  = finish
      (PDict [("endpoint", PStr s); ("points_to_sample", matrix rows);
              ("status", PDict [("expected_improvement", PFloat ei);
                                ("optimizer_success", PDict d)])])
      ((if String.eqb s EmptyString then [(0, Required)] else [])
       ++ (if is_negative ei then [(2, ChildErrors [(0, BelowMin)])] else []))%list
  /\ deserialize py (new (GpHyperOptResponse K) None)
       (PDict [("endpoint", PStr s); ("covariance_info", covariance_info_of s' l);
               ("status", PDict [("log_likelihood", PFloat ll);
                                 ("grad_log_likelihood", PList (map PFloat grad));
                                 ("optimizer_success", PDict d)])])
     = finish
         (PDict [("endpoint", PStr s); ("covariance_info", covariance_info_of s' l);
                 ("status", PDict [("log_likelihood", PFloat ll);
                                   ("grad_log_likelihood", PList (map PFloat grad));
                                   ("optimizer_success", PDict d)])])
         (if String.eqb s EmptyString then [(0, Required)] else []).
Proof.
  split.
  - open_class GpNextPointsResponse GpNextPointsResponse. open_mapping.
    rewrite ListOfPointsInDomain_accepts.
    rewrite GpNextPointsStatus_reads by exact Hd.
    unfold SchemaNode_. rewrite String_required_cases.
    destruct (String.eqb s EmptyString), (is_negative ei); reflexivity.
  - open_class (GpHyperOptResponse K) GpHyperOptResponse. open_mapping.
    rewrite CovarianceInfo_accepts by assumption.
    rewrite GpHyperOptStatus_accepts by exact Hd.
    unfold SchemaNode_. rewrite String_required_cases.
    destruct (String.eqb s EmptyString); reflexivity.
Qed.

(** ** Numbers of another type *)

Lemma deserialize_Int_PFloat nm ch v m d (f : spec_float) :
  deserialize py (Node nm Int ch v m d) (PFloat f)
  = match Z_of_float f with
    | Some z => validated v (PInt z)
    | None => Invalid NotANumber
    end.
Proof.
  cbn [deserialize]. unfold Number_deserialize. rewrite float_is_not_null.
  cbn [py_int]. now destruct (Z_of_float f).
Qed.

Lemma deserialize_Int_PBool nm ch v m d (b : bool) :
  deserialize py (Node nm Int ch v m d) (PBool b) = validated v (PInt (Z.b2z b)).
Proof. destruct b; reflexivity. Qed.

Lemma deserialize_Float_PInt nm ch v m d (z : Z) :
  deserialize py (Node nm Float ch v m d) (PInt z)
  = match float_of_Z z with
    | Some x => validated v (PFloat x)
    | None => Invalid NotANumber
    end.
Proof.
  cbn [deserialize]. unfold Number_deserialize. rewrite int_is_not_null.
  cbn [py_float]. now destruct (float_of_Z z).
Qed.

(** [int(f)] is the integral part of a finite float: [f] lies between it
    and the next integer away from zero. *)
Lemma Z_of_float_truncates (s : bool) (m : positive) (e : Z) :
  exists a, Z_of_float (S754_finite s m e) = Some (cond_Zopp s a)
            /\ (0 <= a)%Z
            /\ (if (0 <=? e)%Z then a = (Zpos m * 2 ^ e)%Z
                else (a * 2 ^ (- e) <= Zpos m < (a + 1) * 2 ^ (- e))%Z).
Proof.
  cbn [Z_of_float]. destruct (Z.leb_spec 0 e) as [He|He].
  - exists (Zpos m * 2 ^ e)%Z. split; [reflexivity|]. split; [|reflexivity].
    apply Z.mul_nonneg_nonneg; [lia|]. apply Z.pow_nonneg. lia.
  - assert (Hd : (0 < 2 ^ (- e))%Z) by (apply Z.pow_pos_nonneg; lia).
    exists (Zpos m / 2 ^ (- e))%Z. split; [reflexivity|]. split.
    + apply Z.div_pos; lia.
    + pose proof (Z.mul_div_le (Zpos m) _ Hd).
      pose proof (Z.mul_succ_div_gt (Zpos m) _ Hd). lia.
Qed.

(** [float(z)] is exact for an integer below 2^53 in magnitude. *)
Lemma digits2_pos_lower (p : positive) : (2 ^ (Zpos (digits2_pos p) - 1) <= Zpos p)%Z.
Proof.
  induction p as [p IH|p IH|]; cbn [digits2_pos].
  - rewrite Pos2Z.inj_succ.
    replace (Z.succ (Zpos (digits2_pos p)) - 1)%Z with (Z.succ (Zpos (digits2_pos p) - 1))%Z
      by lia.
    rewrite Z.pow_succ_r by lia. lia.
  - rewrite Pos2Z.inj_succ.
    replace (Z.succ (Zpos (digits2_pos p)) - 1)%Z with (Z.succ (Zpos (digits2_pos p) - 1))%Z
      by lia.
    rewrite Z.pow_succ_r by lia. lia.
  - reflexivity.
Qed.

Lemma digits2_pos_le_prec (p : positive) :
  (Zpos p < 2 ^ 53)%Z -> (Zpos (digits2_pos p) <= 53)%Z.
Proof.
  intros H. pose proof (digits2_pos_lower p) as L.
  destruct (Z_le_gt_dec (Zpos (digits2_pos p)) 53) as [|G]; [assumption|].
  assert (2 ^ 53 <= 2 ^ (Zpos (digits2_pos p) - 1))%Z by (apply Z.pow_le_mono_r; lia).
  lia.
Qed.

Lemma iter_xO_mul (k p : positive) :
  Zpos (Pos.iter xO p k) = (Zpos p * 2 ^ Zpos k)%Z.
Proof.
  induction k as [|k IH] using Pos.peano_ind.
  - cbn [Pos.iter]. lia.
  - rewrite Pos.iter_succ, Pos2Z.inj_succ, Z.pow_succ_r by lia.
    rewrite Pos2Z.inj_xO, IH. lia.
Qed.

Lemma digits2_pos_iter_xO (k p : positive) :
  digits2_pos (Pos.iter xO p k) = (digits2_pos p + k)%positive.
Proof.
  induction k as [|k IH] using Pos.peano_ind.
  - cbn [Pos.iter digits2_pos]. lia.
  - rewrite Pos.iter_succ. cbn [digits2_pos]. rewrite IH. lia.
Qed.

Lemma binary_round_aux_exact (sx : bool) (mz : positive) (ez : Z) :
  Zpos (digits2_pos mz) = 53%Z -> (-52 <= ez <= 0)%Z ->
  binary_round_aux prec emax sx (Zpos mz) ez loc_Exact = S754_finite sx mz ez.
Proof.
  intros Hd He.
  assert (Hf : fexp prec emax (Zpos (digits2_pos mz) + ez) = ez).
  { rewrite Hd. unfold fexp, emin, prec, emax. lia. }
  unfold binary_round_aux, shr_fexp. cbn [Zdigits2 shr_record_of_loc].
  rewrite Hf, Z.sub_diag. cbn [shr shr_m loc_of_shr_record round_nearest_even Zdigits2
                               shr_record_of_loc].
  rewrite Hf, Z.sub_diag. cbn [shr shr_m].
  replace (ez <=? emax - prec)%Z with true; [reflexivity|].
  symmetry. apply Z.leb_le. unfold emax, prec. lia.
Qed.

Lemma binary_round_exact (sx : bool) (p : positive) :
  (Zpos p < 2 ^ 53)%Z ->
  exists m e, binary_round prec emax sx p 0 = S754_finite sx m e
              /\ (e <= 0)%Z /\ Zpos m = (Zpos p * 2 ^ (- e))%Z.
Proof.
  intros Hp. pose proof (digits2_pos_le_prec Hp) as Hd.
  assert (Hf : fexp prec emax (Zpos (digits2_pos p) + 0) = (Zpos (digits2_pos p) - 53)%Z).
  { unfold fexp, emin, prec, emax. lia. }
  unfold binary_round. rewrite Hf. unfold shl_align.
  destruct (Zpos (digits2_pos p) - 53 - 0)%Z as [|k|k] eqn:E; try lia.
  - exists p, 0%Z. rewrite binary_round_aux_exact by lia. repeat split; lia.
  - exists (Pos.iter xO p k), (Zpos (digits2_pos p) - 53)%Z.
    rewrite binary_round_aux_exact.
    + repeat split; [lia|]. rewrite iter_xO_mul. f_equal. f_equal. lia.
    + rewrite digits2_pos_iter_xO. lia.
    + lia.
Qed.

Lemma float_of_Z_exact (z : Z) :
  (Z.abs z < 2 ^ 53)%Z ->
  exists v, float_of_Z z = Some v /\ has_integer_value v z.
Proof.
  intros Hz. unfold float_of_Z. destruct z as [|p|p]; cbn [binary_normalize].
  - exists (S754_zero false). split; reflexivity.
  - destruct (@binary_round_exact false p Hz) as (m & e & -> & He & Hm).
    exists (S754_finite false m e). split; [reflexivity|]. split; [exact He|].
    cbn [cond_Zopp]. exact Hm.
  - destruct (@binary_round_exact true p Hz) as (m & e & -> & He & Hm).
    exists (S754_finite true m e). split; [reflexivity|]. split; [exact He|].
    unfold cond_Zopp. rewrite Hm, <- Pos2Z.opp_pos. now rewrite Z.mul_opp_l.
Qed.

Ltac dim_of_float :=
  open_class (DomainInfo K) DomainInfo; open_mapping; unfold SchemaNode_;
  rewrite deserialize_Int_PFloat.

(** X22. A number of another type is converted, not refused. An integer
    field given a finite float takes its integral part, towards zero, so
    that a [dim] between -1 and 0 is read as 0; a NaN or an infinity is
    refused; a boolean counts as 0 or 1. A float field given an integer
    below 2^53 in magnitude takes the float of that value, and refuses
    2^1024, which is beyond the floats. *)
Theorem numbers_are_converted (f : spec_float) (b : bool) (z z' : Z)
    (coords : list spec_float) (s s' : bool) (m m' : positive) (e e' : Z)
    (He' : (e' < 0)%Z)
    (Hm' : (Zpos m' < 2 ^ (- e'))%Z)
    (Hz' : (Z.abs z' < 2 ^ 53)%Z) :
  deserialize py (new (DomainInfo K) None) (PDict [("dim", PFloat f)])
  = match Z_of_float f with
    | Some n =>
        finish (PDict [("domain_type", PStr (constant.TENSOR_PRODUCT_DOMAIN_TYPE K));
                       ("dim", PInt n)])
               (if (n <? 0)%Z then [(1, BelowMin)] else [])
    | None => Invalid (ChildErrors [(1, NotANumber)])
    end
  /\ deserialize py (new (DomainInfo K) None) (PDict [("dim", PBool b)])
     = Ok (PDict [("domain_type", PStr (constant.TENSOR_PRODUCT_DOMAIN_TYPE K));
                  ("dim", PInt (Z.b2z b))])
  /\ deserialize py (new SinglePoint None)
       (PDict [("point", PList (map PFloat coords)); ("value", PInt z)])
     = match float_of_Z z with
       | Some v => Ok (PDict [("point", PList (map PFloat coords)); ("value", PFloat v);
                              ("value_var", PFloat f0_0)])
       | None => Invalid (ChildErrors [(1, NotANumber)])
       end
  /\ (exists a,
        (0 <= a)%Z
        /\ (if (0 <=? e)%Z then a = (Zpos m * 2 ^ e)%Z
            else (a * 2 ^ (- e) <= Zpos m < (a + 1) * 2 ^ (- e))%Z)
        /\ deserialize py (new (DomainInfo K) None)
             (PDict [("dim", PFloat (S754_finite s m e))])
           = finish (PDict [("domain_type",
                             PStr (constant.TENSOR_PRODUCT_DOMAIN_TYPE K));
                            ("dim", PInt (cond_Zopp s a))])
                    (if (cond_Zopp s a <? 0)%Z then [(1, BelowMin)] else []))
  /\ deserialize py (new (DomainInfo K) None)
       (PDict [("dim", PFloat (S754_finite s' m' e'))])
     = Ok (PDict [("domain_type", PStr (constant.TENSOR_PRODUCT_DOMAIN_TYPE K));
                  ("dim", PInt 0)])
  /\ deserialize py (new (DomainInfo K) None) (PDict [("dim", PFloat S754_nan)])
     = Invalid (ChildErrors [(1, NotANumber)])
  /\ deserialize py (new (DomainInfo K) None) (PDict [("dim", PFloat (S754_infinity s))])
     = Invalid (ChildErrors [(1, NotANumber)])
  /\ deserialize py (new (DomainInfo K) None) (PDict [("dim", PFloat (S754_zero s))])
     = Ok (PDict [("domain_type", PStr (constant.TENSOR_PRODUCT_DOMAIN_TYPE K));
                  ("dim", PInt 0)])
  /\ (exists v,
        has_integer_value v z'
        /\ deserialize py (new SinglePoint None)
             (PDict [("point", PList (map PFloat coords)); ("value", PInt z')])
           = Ok (PDict [("point", PList (map PFloat coords)); ("value", PFloat v);
                        ("value_var", PFloat f0_0)]))
  /\ deserialize py (new SinglePoint None)
       (PDict [("point", PList (map PFloat coords)); ("value", PInt (2 ^ 1024))])
     = Invalid (ChildErrors [(1, NotANumber)]).
Proof.
  split; [|split; [|split; [|split; [|split; [|split; [|split; [|split; [|split]]]]]]]].
  - dim_of_float.
    destruct (Z_of_float f) as [n|]; [|reflexivity].
    unfold validated. rewrite Range_min_int_cases. now destruct (n <? 0)%Z.
  - open_class (DomainInfo K) DomainInfo. open_mapping. unfold SchemaNode_.
    rewrite deserialize_Int_PBool. unfold validated. rewrite Range_min_int_cases.
    now destruct b.
  - open_class SinglePoint SinglePoint. open_mapping.
    rewrite ListOfFloats_accepts. unfold SchemaNode_.
    rewrite deserialize_Float_PInt.
    destruct (float_of_Z z) as [v|]; reflexivity.
  - destruct (Z_of_float_truncates s m e) as (a & Ha & Hpos & Hbounds).
    exists a. split; [exact Hpos|]. split; [exact Hbounds|].
    dim_of_float. rewrite Ha.
    unfold validated. rewrite Range_min_int_cases.
    now destruct (cond_Zopp s a <? 0)%Z.
  - destruct (Z_of_float_truncates s' m' e') as (a & Ha & Hpos & Hbounds).
    replace (0 <=? e')%Z with false in Hbounds by (symmetry; apply Z.leb_gt; exact He').
    assert (a = 0%Z) as ->.
    { assert (Hd : (0 < 2 ^ (- e'))%Z) by (apply Z.pow_pos_nonneg; lia). nia. }
    dim_of_float. rewrite Ha. now destruct s'.
  - dim_of_float. reflexivity.
  - dim_of_float. reflexivity.
  - dim_of_float. reflexivity.
  - destruct (@float_of_Z_exact z' Hz') as (v & Hv & Hval).
    exists v. split; [exact Hval|].
    open_class SinglePoint SinglePoint. open_mapping.
    rewrite ListOfFloats_accepts. unfold SchemaNode_.
    rewrite deserialize_Float_PInt, Hv. reflexivity.
  - open_class SinglePoint SinglePoint. open_mapping.
    rewrite ListOfFloats_accepts. unfold SchemaNode_.
    rewrite deserialize_Float_PInt.
    replace (float_of_Z (2 ^ 1024)) with (@None spec_float) by (vm_compute; reflexivity).
    reflexivity.
Qed.

End SchemaFacts.

(** ** The claims on the sample data *)

Section Samples.

Local Open Scope string_scope.

Lemma sample_constants_ok : constants_ok sample.constants.
Proof.
  unfold constants_ok. cbn.
  repeat split; try lia; try reflexivity; auto.
Defined.

(** C5, as first stated, fails: the [gp_mean_var] request of the
    docstring is accepted with its [domain_info] and refused without,
    and so is the [gp_ei] request. *)
Lemma omitting_domain_info_fails :
  deserialize sample.py (new (GpMeanVarRequest sample.py sample.constants) None)
              sample.minimal_gp_mean_var
  = Ok (PDict [("points_to_sample", PList [PList [PFloat sample.f0_1]]);
               ("gp_historical_info", sample.gp_historical_info);
               ("domain_info",
                PDict [("domain_type", PStr "tensor_product"); ("dim", PInt 1)]);
               ("covariance_info", sample.covariance_info_normalized)])
  /\ deserialize sample.py (new (GpMeanVarRequest sample.py sample.constants) None)
                 sample.gp_mean_var_no_domain
     = Invalid (ChildErrors [(2, Required)])
  /\ deserialize sample.py (new (GpEiRequest sample.py sample.constants) None)
                 sample.minimal_gp_ei
     = Ok sample.minimal_gp_ei_normalized
  /\ deserialize sample.py (new (GpEiRequest sample.py sample.constants) None)
                 sample.gp_ei_no_domain
     = Invalid (ChildErrors [(5, Required)]).
Proof. repeat split; vm_compute; reflexivity. Qed.

(** C7, as first stated, fails: the minimal [gp_ei] request is accepted,
    and its output, whose [hyperparameters] are [None], is refused. *)
Lemma revalidation_of_None_hyperparameters_fails :
  deserialize sample.py (new (GpEiRequest sample.py sample.constants) None)
              sample.minimal_gp_ei
  = Ok sample.minimal_gp_ei_normalized
  /\ deserialize sample.py (new (GpEiRequest sample.py sample.constants) None)
                 sample.minimal_gp_ei_normalized
     = Invalid (ChildErrors [(6, ChildErrors [(1, NotIterable)])]).
Proof. split; vm_compute; reflexivity. Qed.

Lemma closed_schemas_reject_unknown_keys_witness :
  exists rest, rest <> [] /\
    deserialize sample.py (new (GpEiRequest sample.py sample.constants) None)
                (PDict sample.gp_ei_unknown_key)
    = Invalid (UnrecognizedKeys rest).
Proof.
  refine (proj1 (proj2
    (@closed_schemas_reject_unknown_keys sample.py sample.constants
       (GpEiRequest sample.py sample.constants) None
       (new (GpEiRequest sample.py sample.constants) None)
       sample.optimizer_success sample.f0_1 sample.f0_1 [sample.f0_1] _ _ _ _))
    sample.gp_ei_unknown_key "verbose" _ _).
  - unfold schema_classes. cbn [In]. do 29 right. left. reflexivity.
  - left. reflexivity.
  - apply distinct_NoDup. reflexivity.
  - reflexivity.
  - vm_compute. tauto.
  - vm_compute. intuition discriminate.
Defined.

Lemma gamma_bounds_differ_witness :
  exists e,
    deserialize sample.py (new NewtonParametersSchema None) (PDict sample.newton_parameters)
    = Invalid e.
Proof.
  refine (proj1
    (@gamma_bounds_differ sample.py sample.newton_parameters 100 5 10
       f1_0 f1_0 f1_0e_16 _ _ _ _ _ _ _ _)); try reflexivity; lia.
Defined.

Lemma omitted_fields_are_None_witness :
  exists d, sample.optimizer_info_normalized = PDict d /\
            dict_get "num_multistarts" d = Some PNone.
Proof.
  refine (proj1
    (@omitted_fields_are_None sample.py sample.constants
       sample.optimizer_info [] sample.optimizer_info_normalized
       sample.covariance_info_normalized "num_multistarts" _ _ _ _ _)).
  - vm_compute. reflexivity.
  - right. left. reflexivity.
  - reflexivity.
  - vm_compute. reflexivity.
  - reflexivity.
Defined.

Lemma domain_info_is_required_witness :
  exists errs,
    deserialize sample.py (new (GpMeanVarRequest sample.py sample.constants) None)
                sample.gp_mean_var_no_domain
    = Invalid (ChildErrors errs)
    /\ In (2%nat, Required) errs.
Proof.
  refine (proj1 (proj2 (proj2 (proj2 (proj2
    (@domain_info_is_required sample.py sample.constants
       [("points_to_sample", PList [PList [PFloat sample.f0_1]]);
        ("gp_historical_info", sample.gp_historical_info)] _))))) _).
  - reflexivity.
  - intros k Hk. cbn [keys map fst In] in Hk.
    destruct Hk as [<-|[<-|[]]]; [left | right; left]; reflexivity.
Defined.

Lemma revalidation_is_idempotent_witness :
  deserialize sample.py (new (GpEiRequest sample.py sample.constants) None)
              sample.gp_ei_with_hyperparameters_normalized
  = Ok sample.gp_ei_with_hyperparameters_normalized.
Proof.
  refine (@revalidation_is_idempotent_without_None_composites
            sample.py sample.constants (GpEiRequest sample.py sample.constants)
            sample.gp_ei_with_hyperparameters
            sample.gp_ei_with_hyperparameters_normalized
            sample_constants_ok _ _ _).
  - unfold request_schemas. cbn [In]. do 5 right. left. reflexivity.
  - vm_compute. reflexivity.
  - vm_compute. reflexivity.
Defined.

Lemma GpMeanVarResponse_fields_witness :
  deserialize sample.py (new GpMeanVarResponse None)
    (PDict [("endpoint", PStr "gp_mean_var");
            ("mean", PList (map PFloat [sample.f0_1]));
            ("var", matrix [[sample.f0_01]])])
  = Ok (PDict [("var", matrix [[sample.f0_01]]);
               ("mean", PList (map PFloat [sample.f0_1]));
               ("endpoint", PStr "gp_mean_var")]).
Proof.
  refine (proj2 (proj2 (proj2
    (@GpMeanVarResponse_fields sample.py sample.gp_mean_var_response
       sample.gp_mean_var_response_normalized "gp_mean_var" [sample.f0_1]
       [[sample.f0_01]] _ _)))).
  - vm_compute. reflexivity.
  - discriminate.
Defined.

Lemma NullParametersSchema_accepts_only_empty_witness :
  deserialize sample.py (new NullParametersSchema None)
              (PDict [("gamma", PFloat sample.f0_5)])
  = Invalid (UnrecognizedKeys [("gamma", PFloat sample.f0_5)]).
Proof.
  refine (proj2 (proj2
    (@NullParametersSchema_accepts_only_empty sample.py sample.constants
       [("gamma", PFloat sample.f0_5)] _ _ _))); discriminate.
Defined.

(** The model on further examples of the documentation: a negative
    [value_var] is refused and an omitted one becomes 0.0; gradient
    descent refuses [max_num_steps = 0]. *)
Example negative_value_var_is_refused :
  deserialize sample.py (new SinglePoint None)
    (PDict [("point", PList [PFloat f0_0]); ("value", PFloat sample.f0_1);
            ("value_var", PFloat (SFopp sample.f0_01))])
  = Invalid (ChildErrors [(2, BelowMin)]).
Proof. vm_compute. reflexivity. Qed.

Example omitted_value_var_is_zero :
  deserialize sample.py (new SinglePoint None)
    (PDict [("point", PList [PFloat f0_0]); ("value", PFloat sample.f0_1)])
  = Ok (PDict [("point", PList [PFloat f0_0]); ("value", PFloat sample.f0_1);
               ("value_var", PFloat f0_0)]).
Proof. vm_compute. reflexivity. Qed.

Example zero_steps_are_refused :
  deserialize sample.py (new GradientDescentParametersSchema None)
    (PDict [("max_num_steps", PInt 0); ("max_num_restarts", PInt 2);
            ("num_steps_averaged", PInt 0); ("gamma", PFloat sample.f0_5);
            ("pre_mult", PFloat f1_0); ("max_relative_change", PFloat f1_0);
            ("tolerance", PFloat f1_0e_16)])
  = Invalid (ChildErrors [(0, BelowMin)]).
Proof. vm_compute. reflexivity. Qed.

(** ** Instances of the further properties *)

Lemma OptimizerInfo_does_not_validate_parameters_witness :
  deserialize sample.py (new (OptimizerInfo sample.constants) None)
    (PDict [("optimizer_type", PStr "gradient_descent_optimizer");
            ("num_multistarts", PInt 10); ("num_random_samples", PInt 0);
            ("optimizer_parameters", PDict [("gamma", PFloat (SFopp f1_0))])])
  = Ok (PDict [("optimizer_type", PStr "gradient_descent_optimizer");
               ("num_multistarts", PInt 10); ("num_random_samples", PInt 0);
               ("optimizer_parameters", PDict [("gamma", PFloat (SFopp f1_0))])]).
Proof.
  refine (@OptimizerInfo_does_not_validate_parameters sample.py sample.constants
            "gradient_descent_optimizer" 10 0 [("gamma", PFloat (SFopp f1_0))] _).
  apply distinct_NoDup. reflexivity.
Defined.

Lemma OPTIMIZER_TYPES_TO_SCHEMA_CLASSES_entries_witness :
  table_get "newton_optimizer" (OPTIMIZER_TYPES_TO_SCHEMA_CLASSES sample.constants)
  = Some NewtonParametersSchema.
Proof.
  refine (proj1
    (@OPTIMIZER_TYPES_TO_SCHEMA_CLASSES_entries sample.constants "simulated_annealing"
       _ _ _ _ _ _)); discriminate.
Defined.

Lemma required_fields_cannot_be_omitted_witness :
  exists e,
    deserialize sample.py (new GpNextPointsStatus None)
                (PDict [("expected_improvement", PFloat sample.f0_1)])
    = Invalid e.
Proof.
  refine (proj1
    (@required_fields_cannot_be_omitted sample.py sample.constants GpNextPointsStatus
       [("expected_improvement", PFloat sample.f0_1)] "optimizer_success" _ _ _)).
  - unfold schema_classes. cbn [In]. do 14 right. left. reflexivity.
  - right. left. reflexivity.
  - reflexivity.
Defined.

Lemma omitted_optional_fields_get_defaults_witness :
  exists d, sample.minimal_gp_ei_normalized = PDict d /\
            dict_get "mc_iterations" d = Some (PInt 10000).
Proof.
  refine (proj1
    (@omitted_optional_fields_get_defaults sample.py sample.constants
       (GpEiRequest sample.py sample.constants)
       [("points_to_evaluate", PList [PList [PFloat sample.f0_1]]);
        ("gp_historical_info", sample.gp_historical_info);
        ("domain_info", PDict [("dim", PInt 1)])]
       sample.minimal_gp_ei_normalized (PInt 10000) "mc_iterations" _ _ _ _)).
  - unfold schema_classes. cbn [In]. do 29 right. left. reflexivity.
  - vm_compute. reflexivity.
  - right. left. reflexivity.
  - reflexivity.
Defined.

Lemma accepted_payloads_have_the_declared_keys_witness :
  exists d, sample.gp_mean_var_response_normalized = PDict d /\
            keys d = declared (new GpMeanVarResponse None).
Proof.
  refine (proj2
    (@accepted_payloads_have_the_declared_keys sample.py sample.constants
       GpMeanVarResponse sample.gp_mean_var_response
       sample.gp_mean_var_response_normalized _ _)).
  - unfold schema_classes. cbn [In]. do 27 right. left. reflexivity.
  - vm_compute. reflexivity.
Defined.

Lemma mean_var_and_ei_requests_do_not_cross_check_witness :
  deserialize sample.py (new (GpMeanVarRequest sample.py sample.constants) None)
    (PDict [("points_to_sample", matrix [[sample.f0_1; sample.f0_5]; []]);
            ("gp_historical_info", historical_info []);
            ("domain_info", domain_info_of "tensor_product" 3);
            ("covariance_info", covariance_info_of "square_exponential" [f1_0])])
  = Ok (PDict [("points_to_sample", matrix [[sample.f0_1; sample.f0_5]; []]);
               ("gp_historical_info", historical_info []);
               ("domain_info", domain_info_of "tensor_product" 3);
               ("covariance_info", covariance_info_of "square_exponential" [f1_0])]).
Proof.
  refine (proj1
    (@mean_var_and_ei_requests_do_not_cross_check sample.py sample.constants
       [[sample.f0_1; sample.f0_5]; []] [] [] "tensor_product" "square_exponential"
       3 1 1 [f1_0] _ _ _ _ _ _ _)); try reflexivity; try lia.
  vm_compute. split; discriminate.
Defined.

Lemma next_points_and_hyper_opt_requests_accept_witness :
  deserialize sample.py (new (GpNextPointsRequest sample.py sample.constants) None)
    (PDict [("num_to_sample", PInt 2);
            ("mc_iterations", PInt 100);
            ("max_num_threads", PInt 4);
            ("gp_historical_info",
             historical_info [([f0_0], sample.f0_1, sample.f0_01)]);
            ("domain_info", bounded_domain_info_of "tensor_product" 1 []);
            ("covariance_info", covariance_info_of "square_exponential" [f1_0; f1_0]);
            ("optimizer_info",
             optimizer_info_of "newton_optimizer" 1 0 [("gamma", PFloat (SFopp f1_0))]);
            ("points_being_sampled", matrix [])])
  = Ok (PDict [("num_to_sample", PInt 2);
               ("mc_iterations", PInt 100);
               ("max_num_threads", PInt 4);
               ("gp_historical_info",
                historical_info [([f0_0], sample.f0_1, sample.f0_01)]);
               ("domain_info", bounded_domain_info_of "tensor_product" 1 []);
               ("covariance_info", covariance_info_of "square_exponential" [f1_0; f1_0]);
               ("optimizer_info",
                optimizer_info_of "newton_optimizer" 1 0 [("gamma", PFloat (SFopp f1_0))]);
               ("points_being_sampled", matrix [])]).
Proof.
  refine (proj1
    (@next_points_and_hyper_opt_requests_accept sample.py sample.constants
       [] [([f0_0], sample.f0_1, sample.f0_01)]
       "tensor_product" "square_exponential" "tensor_product" "newton_optimizer"
       "log_marginal_likelihood" 1 2 2 100 4 1 0 [f1_0; f1_0] [] [(f0_0, f1_0)]
       [("gamma", PFloat (SFopp f1_0))] _ _ _ _ _ _ _ _ _ _ _ _ _ _ _));
    try reflexivity; try lia.
  - apply distinct_NoDup. reflexivity.
  - vm_compute. split; discriminate.
Defined.

Lemma liar_and_kriging_requests_extend_next_points_witness :
  deserialize sample.py (new (GpNextPointsKrigingRequest sample.py sample.constants) None)
              (PDict sample.minimal_gp_next_points)
  = Ok (PDict (sample.minimal_gp_next_points_normalized
               ++ [("std_deviation_coef", PFloat f0_0);
                   ("kriging_noise_variance", PFloat f0_0)])).
Proof.
  refine (proj2
    (@liar_and_kriging_requests_extend_next_points sample.py sample.constants
       sample.minimal_gp_next_points _)).
  intros k Hk. cbn [In] in Hk.
  repeat (destruct Hk as [<-|Hk]; [reflexivity|]). destruct Hk.
Defined.

Lemma request_counts_are_bounded_witness :
  Forall (fun cls => exists e,
            deserialize sample.py (new cls None)
              (PDict (("num_to_sample", PInt 0) :: sample.minimal_gp_next_points))
            = Invalid e)
         [GpNextPointsRequest sample.py sample.constants;
          GpNextPointsConstantLiarRequest sample.py sample.constants;
          GpNextPointsKrigingRequest sample.py sample.constants].
Proof.
  refine (proj1
    (@request_counts_are_bounded sample.py sample.constants
       sample.minimal_gp_next_points 0 0 _ _)).
  - lia.
  - left. lia.
Defined.

Lemma liar_and_kriging_fields_are_checked_witness :
  exists e,
    deserialize sample.py
      (new (GpNextPointsConstantLiarRequest sample.py sample.constants) None)
      (PDict (("lie_noise_variance", PFloat (SFopp f1_0)) :: sample.minimal_gp_next_points))
    = Invalid e.
Proof.
  refine (proj1
    (@liar_and_kriging_fields_are_checked sample.py sample.constants
       sample.minimal_gp_next_points (SFopp f1_0) "constant_liar_median" _ _ _)).
  - reflexivity.
  - discriminate.
  - reflexivity.
Defined.

Lemma optimizer_responses_witness :
  deserialize sample.py (new GpNextPointsResponse None)
    (PDict [("endpoint", PStr "gp_next_points_epi");
            ("points_to_sample", matrix [[sample.f0_5]]);
            ("status", PDict [("expected_improvement", PFloat sample.f0_1);
                              ("optimizer_success", PDict sample.optimizer_success)])])
  = Ok (PDict [("endpoint", PStr "gp_next_points_epi");
               ("points_to_sample", matrix [[sample.f0_5]]);
               ("status", PDict [("expected_improvement", PFloat sample.f0_1);
                                 ("optimizer_success", PDict sample.optimizer_success)])]).
Proof.
  refine (proj1
    (@optimizer_responses sample.py sample.constants
       "gp_next_points_epi" "square_exponential" [[sample.f0_5]]
       sample.f0_1 f0_0 [] [f1_0] sample.optimizer_success _ _ _)).
  - apply distinct_NoDup. reflexivity.
  - reflexivity.
  - reflexivity.
Defined.

Lemma numbers_are_converted_witness :
  deserialize sample.py (new (DomainInfo sample.constants) None)
              (PDict [("dim", PFloat (SFopp sample.f0_5))])
  = Ok (PDict [("domain_type", PStr "tensor_product"); ("dim", PInt 0)]).
Proof.
  refine (proj1 (proj2 (proj2 (proj2 (proj2
    (@numbers_are_converted sample.py sample.constants
       f0_0 true 7 7 [f0_0] true true 1%positive 4503599627370496%positive 0 (-53)
       _ _ _)))))).
  - lia.
  - reflexivity.
  - reflexivity.
Defined.

(** A number given for the endpoint of a response is refused. *)
Example number_for_endpoint_is_refused :
  deserialize sample.py (new GpEiResponse None)
    (PDict [("endpoint", PInt 123); ("expected_improvement", PList [])])
  = Invalid (ChildErrors [(0, NotAString)]).
Proof. vm_compute. reflexivity. Qed.

End Samples.
